(** * The TF1 plugin of streamlink: channel resolution and login flow

    A shallow embedding of [src/streamlink/plugins/tf1.py].

    Python [str] values are sequences of Unicode code points, HTTP is an
    oracle that answers each request from the history of the requests made
    so far, and the methods of the plugin run in a state-and-exception monad
    whose state survives a raised exception, so that the requests issued
    before a failure stay observable. *)

From Stdlib Require Import List String Ascii ZArith NArith Bool Lia.
From Stdlib Require Import SpecFloat.
Import ListNotations.

Local Open Scope Z_scope.
Set Warnings "-register-all".

(** ** Python strings *)

(** A Python [str]: its code points, in order. *)
Definition pystr := list N.

(** A string literal of the source, all of whose characters are ASCII. *)
Definition lit (s : string) : pystr :=
  List.map N_of_ascii (list_ascii_of_string s).
Arguments lit : simpl never.

Fixpoint str_eqb (a b : pystr) : bool :=
  match a, b with
  | [], [] => true
  | x :: a', y :: b' => N.eqb x y && str_eqb a' b'
  | _, _ => false
  end.

(** [s.startswith(l)], returning what follows [l]. *)
Fixpoint strip_prefix (l s : pystr) : option pystr :=
  match l, s with
  | [], _ => Some s
  | x :: l', y :: s' => if N.eqb x y then strip_prefix l' s' else None
  | _ :: _, [] => None
  end.

(** ** Python values *)

(** The values the plugin handles: what [json.loads] produces, and tuples,
    which the plugin and the validation schemas build.  A [dict] is kept as
    its items; a lookup takes the first item with the key. *)
Inductive pyval : Type :=
| PNone
| PBool (b : bool)
| PInt (z : Z)
| PFloat (f : spec_float)
| PStr (s : pystr)
| PList (l : list pyval)
| PTuple (l : list pyval)
| PDict (items : list (pystr * pyval)).

Fixpoint dict_get {A : Type} (k : pystr) (d : list (pystr * A)) : option A :=
  match d with
  | [] => None
  | (k', v) :: d' => if str_eqb k' k then Some v else dict_get k d'
  end.

(** ** What the interpreter and the libraries provide

    Functions the plugin calls and that neither the plugin nor the
    specification defines: the Unicode tables behind [\w] and [str.upper],
    [int] on a string, [str] on a value that is not a string,
    [urlparse(...).query], [validate.url()] and the user agent constant;
    and which of the names that the plugin reads from the [validate]
    module, as [validate.<name>], that module defines. *)
Record Runtime : Type := {
  unicode_word : N -> bool;
  unicode_upper : N -> list N;
  int_of_str : pystr -> option Z;
  str_of : pyval -> pystr;
  urlparse_query : pystr -> pystr;
  valid_url : pystr -> bool;
  useragents_IPHONE : pystr;
  validate_defines : string -> bool
}.

(** [c] is matched by [\w] in a [str] pattern. *)
Definition is_word (rt : Runtime) (c : N) : bool :=
  if (c <? 128)%N then
    ((48 <=? c) && (c <=? 57) || (65 <=? c) && (c <=? 90)
     || (97 <=? c) && (c <=? 122) || (c =? 95))%N
  else unicode_word rt c.

(** [c] is matched by the class [[\w-]]. *)
Definition is_word_or_dash (rt : Runtime) (c : N) : bool :=
  is_word rt c || (c =? 45)%N.

Definition upper_cp (rt : Runtime) (c : N) : list N :=
  if (c <? 128)%N then
    [if ((97 <=? c) && (c <=? 122))%N then (c - 32)%N else c]
  else unicode_upper rt c.

(** [s.upper()] *)
Definition upper (rt : Runtime) (s : pystr) : pystr :=
  List.flat_map (upper_cp rt) s.

(** ** Regular expressions with named groups *)

(** The constructs the plugin's pattern uses. *)
Inductive regex : Type :=
| RLit (l : pystr)                     (* a run of literal characters *)
| RPlus (p : N -> bool)                (* [class]+, greedy *)
| ROpt (r : regex)                     (* r?, greedy *)
| RSeq (r1 r2 : regex)
| RAlt (r1 r2 : regex)
| RGroup (name : string) (r : regex).  (* (?P<name>r) *)

(** The groups set so far, the latest first. *)
Definition groups := list (string * pystr).

(** [m[name]]: [None] is Python's [None], a group that took no part. *)
Fixpoint group (m : groups) (name : string) : option pystr :=
  match m with
  | [] => None
  | (n, v) :: m' => if String.eqb n name then Some v else group m' name
  end.

(** What was consumed between the input [s] and its suffix [s']. *)
Definition consumed (s s' : pystr) : pystr :=
  firstn (List.length s - List.length s') s.

(** One or more characters of the class, the longest run first. *)
Fixpoint plus_bt {A : Type} (p : N -> bool) (s : pystr)
    (k : pystr -> option A) : option A :=
  match s with
  | [] => None
  | c :: s' =>
      if p c then
        match plus_bt p s' k with
        | Some x => Some x
        | None => k s'
        end
      else None
  end.

(** The backtracking matcher of the [re] module, in continuation-passing
    style: [k] matches the rest of the pattern; a [None] makes the caller
    try its next choice, with the groups it had before. *)
Fixpoint bt (r : regex) (s : pystr) (g : groups)
    (k : pystr -> groups -> option groups) : option groups :=
  match r with
  | RLit l =>
      match strip_prefix l s with
      | Some s' => k s' g
      | None => None
      end
  | RPlus p => plus_bt p s (fun s' => k s' g)
  | ROpt r1 =>
      match bt r1 s g k with
      | Some x => Some x
      | None => k s g
      end
  | RSeq r1 r2 => bt r1 s g (fun s' g' => bt r2 s' g' k)
  | RAlt r1 r2 =>
      match bt r1 s g k with
      | Some x => Some x
      | None => bt r2 s g k
      end
  | RGroup n r1 => bt r1 s g (fun s' g' => k s' ((n, consumed s s') :: g'))
  end.

(** [pattern.match(s)]: anchored at the start, any rest allowed. *)
Definition re_match (r : regex) (s : pystr) : option groups :=
  bt r s [] (fun _ g => Some g).

(** ** The URL matcher (tf1.py, lines 23-34) *)

Definition slash_direct : regex := RSeq (RLit (lit "/direct")) (ROpt (RLit (lit "/"))).

Definition pattern (rt : Runtime) : regex :=
  RSeq (RLit (lit "http")) (RSeq (ROpt (RLit (lit "s"))) (RSeq (RLit (lit "://"))
  (RSeq (ROpt (RLit (lit "www.")))
    (RAlt
      (RSeq (RLit (lit "tf1.fr/"))
        (RAlt
          (RSeq (RGroup "live" (RPlus (is_word_or_dash rt))) slash_direct)
          (RSeq (RLit (lit "stream/"))
                (RGroup "stream" (RPlus (is_word_or_dash rt))))))
      (RSeq (RGroup "lci" (RAlt (RLit (lit "tf1info")) (RLit (lit "lci"))))
            (RSeq (RLit (lit ".fr")) slash_direct)))))).

(** [self.match], as the plugin base class sets it from [self.url]. *)
Definition pluginmatcher (rt : Runtime) (url : pystr) : option groups :=
  re_match (pattern rt) url.

(** ** Exceptions *)

Inductive exn : Type :=
| AttributeError (name : string)
| KeyError (key : pystr)
| TypeError
| ValueError
| OverflowError
| JSONDecodeError
| PluginError (msg : string)
| HTTPFailure (detail : pystr).   (* raised by the HTTP session itself *)

Inductive result (A : Type) : Type :=
| Ok (a : A)
| Raise (e : exn).
Arguments Ok {A} a.
Arguments Raise {A} e.

(** Truth value of [None] or a [str]. *)
Definition truthy (v : option pystr) : bool :=
  match v with
  | Some (_ :: _) => true
  | _ => false
  end.

(** ** Channel resolution (tf1.py, lines 62-75) *)

Definition _get_channel (rt : Runtime) (m : groups) : result (pystr * pystr) :=
  match group m "live" with
  | Some ((_ :: _) as channel) => Ok (channel, lit "L_" ++ upper rt channel)
  | _ =>
      match group m "lci" with
      | Some (_ :: _) => Ok (lit "LCI", lit "L_LCI")
      | _ =>
          match group m "stream" with
          | Some ((_ :: _) as channel) =>
              Ok (channel, lit "L_FAST_v2l-" ++ channel)
          | _ => Raise (PluginError "Invalid channel")
          end
      end
  end.

(** ** Conversions and comparisons of values *)

(** [int(f)] on a float: truncation toward zero. *)
Definition int_of_float (f : spec_float) : result Z :=
  match f with
  | S754_zero _ => Ok 0
  | S754_infinity _ => Raise OverflowError
  | S754_nan => Raise ValueError
  | S754_finite s m e =>
      let a := Z.shiftl (Z.pos m) e in Ok (if s then - a else a)
  end.

(** [int(v)] *)
Definition py_int (rt : Runtime) (v : pyval) : result Z :=
  match v with
  | PInt z => Ok z
  | PBool b => Ok (if b then 1 else 0)
  | PFloat f => int_of_float f
  | PStr s =>
      match int_of_str rt s with
      | Some z => Ok z
      | None => Raise ValueError
      end
  | _ => Raise TypeError
  end.

(** [f == z] for a float and an integer: the float holds exactly [z]. *)
Definition float_eqb_Z (f : spec_float) (z : Z) : bool :=
  match f with
  | S754_zero _ => z =? 0
  | S754_finite s m e =>
      let a := Z.shiftl (Z.pos m) e in
      (Z.shiftl a (- e) =? Z.pos m) && ((if s then - a else a) =? z)
  | _ => false
  end.

(** [v == z] for an integer literal [z]. *)
Definition py_eq_int (v : pyval) (z : Z) : bool :=
  match v with
  | PInt x => x =? z
  | PBool b => (if b then 1 else 0) =? z
  | PFloat f => float_eqb_Z f z
  | _ => false
  end.

(** [v == s] for a string literal [s]. *)
Definition py_eq_str (v : pyval) (s : pystr) : bool :=
  match v with
  | PStr x => str_eqb x s
  | _ => false
  end.

(** [v[key]] for a string key. *)
Definition py_getitem (v : pyval) (key : pystr) : result pyval :=
  match v with
  | PDict d =>
      match dict_get key d with
      | Some x => Ok x
      | None => Raise (KeyError key)
      end
  | _ => Raise TypeError
  end.

(** The keys of a [dict], each once. *)
Fixpoint dict_keys (seen : list pystr) (d : list (pystr * pyval)) : list pystr :=
  match d with
  | [] => []
  | (k, _) :: d' =>
      if existsb (str_eqb k) seen then dict_keys seen d'
      else k :: dict_keys (k :: seen) d'
  end.

(** [a, b = v] *)
Definition unpack2 (v : pyval) : result (pyval * pyval) :=
  let two (l : list pyval) :=
    match l with
    | [a; b] => Ok (a, b)
    | _ => Raise ValueError
    end in
  match v with
  | PTuple l | PList l => two l
  | PStr s => two (List.map (fun c => PStr [c]) s)
  | PDict d => two (List.map PStr (dict_keys [] d))
  | _ => Raise TypeError
  end.

(** The value of [{v}] in an f-string. *)
Definition fmt (rt : Runtime) (v : pyval) : pystr :=
  match v with
  | PStr s => s
  | _ => str_of rt v
  end.

(** [template.format(channel_id=channel_id)], for a template whose only
    braces are those of one [{channel_id}]. *)
Fixpoint format_channel_id (template channel_id : pystr) : pystr :=
  match strip_prefix (lit "{channel_id}") template with
  | Some rest => channel_id ++ rest
  | None =>
      match template with
      | [] => []
      | c :: t => c :: format_channel_id t channel_id
      end
  end.

(** ** Validation schemas *)

Inductive pytype : Type := TInt | TStr.

(** The schema constructs the plugin uses. *)
Inductive schema : Type :=
| SInt (z : Z)                              (* an integer literal *)
| SStr (s : pystr)                          (* a string literal *)
| SType (t : pytype)                        (* a type *)
| SUrl                                      (* validate.url() *)
| SDict (fields : list (pystr * schema))    (* a dict of schemas *)
| SAny (alts : list schema)                 (* validate.any *)
| SAll (steps : list schema)                (* validate.all, Schema *)
| SUnionGet (k1 k2 : pystr)                 (* validate.union_get *)
| SGet (k : pystr).                         (* validate.get *)

(** [isinstance(v, t)]; a [bool] is an [int]. *)
Definition isinstance (v : pyval) (t : pytype) : bool :=
  match t, v with
  | TInt, (PInt _ | PBool _) => true
  | TStr, PStr _ => true
  | _, _ => false
  end.

(** Modelled from the spec: the [validate] library, which is not part of
    the plugin's file.  A value is checked against a shape and either the
    validated value comes back or the validation fails ([None]).  A dict
    shape requires each of its keys and validates the value under it; a
    literal requires an equal value; [any] takes the first shape that
    accepts; [all] chains its steps; [union_get] and [get] pick items. *)
Fixpoint validate (rt : Runtime) (sc : schema) (v : pyval) {struct sc}
    : option pyval :=
  match sc with
  | SInt z => if py_eq_int v z then Some v else None
  | SStr s => if py_eq_str v s then Some v else None
  | SType t => if isinstance v t then Some v else None
  | SUrl =>
      match v with
      | PStr s => if valid_url rt s then Some v else None
      | _ => None
      end
  | SDict fields =>
      match v with
      | PDict d =>
          option_map PDict
            ((fix go (fs : list (pystr * schema)) : option (list (pystr * pyval)) :=
                match fs with
                | [] => Some []
                | (k, s) :: fs' =>
                    match dict_get k d with
                    | None => None
                    | Some x =>
                        match validate rt s x with
                        | None => None
                        | Some x' =>
                            match go fs' with
                            | None => None
                            | Some r => Some ((k, x') :: r)
                            end
                        end
                    end
                end) fields)
      | _ => None
      end
  | SAny alts =>
      (fix go (l : list schema) : option pyval :=
         match l with
         | [] => None
         | s :: l' =>
             match validate rt s v with
             | Some r => Some r
             | None => go l'
             end
         end) alts
  | SAll steps =>
      (fix go (l : list schema) (x : pyval) : option pyval :=
         match l with
         | [] => Some x
         | s :: l' =>
             match validate rt s x with
             | Some x' => go l' x'
             | None => None
             end
         end) steps v
  | SUnionGet k1 k2 =>
      match v with
      | PDict d =>
          let item k := match dict_get k d with Some x => x | None => PNone end in
          Some (PTuple [item k1; item k2])
      | _ => None
      end
  | SGet k =>
      match v with
      | PDict d => Some (match dict_get k d with Some x => x | None => PNone end)
      | _ => None
      end
  end.

(** Modelled from the spec: [validate.text], a string. *)
Definition validate_text : schema := SType TStr.

(** Modelled from the spec: [validate.integer], an integer. *)
Definition validate_integer : schema := SType TInt.

(** The schema of the media-info call (tf1.py, lines 89-111);
    [validate.parse_json()], its first step, is applied by [http_schema]. *)
Definition media_schema : schema :=
  SAll [
    SDict [
      (lit "delivery",
       SAny [
         SAll [
           SDict [(lit "code", SInt 200); (lit "format", SStr (lit "hls"));
                  (lit "url", SUrl)];
           SUnionGet (lit "code") (lit "url")];
         SAll [
           SDict [(lit "code", SType TInt); (lit "error", SType TStr)];
           SUnionGet (lit "code") (lit "error")]])];
    SGet (lit "delivery")].

(** The schema of the token exchange (tf1.py, lines 140-148), once its
    expression is evaluated. *)
Definition token_schema : schema :=
  SAll [
    SDict [(lit "token", validate_text); (lit "refresh_token", validate_text);
           (lit "ttl", validate_integer); (lit "type", validate_text)]].

(** [validate.<name>], for a name that stands for the schema [sc]: the
    module either defines the name or the lookup raises. *)
Definition validate_getattr (rt : Runtime) (name : string) (sc : schema)
    : result schema :=
  if validate_defines rt name then Ok sc else Raise (AttributeError name).

(** The evaluation of the schema expression of tf1.py, lines 140-148: the
    values of the dict are looked up in the module from the first to the
    last, and the first name that the module lacks ends it. *)
Definition token_schema_expr (rt : Runtime) : result schema :=
  match validate_getattr rt "text" validate_text with
  | Raise e => Raise e
  | Ok token =>
      match validate_getattr rt "text" validate_text with
      | Raise e => Raise e
      | Ok refresh_token =>
          match validate_getattr rt "integer" validate_integer with
          | Raise e => Raise e
          | Ok ttl =>
              match validate_getattr rt "text" validate_text with
              | Raise e => Raise e
              | Ok type =>
                  Ok (SAll [SDict [(lit "token", token);
                                   (lit "refresh_token", refresh_token);
                                   (lit "ttl", ttl); (lit "type", type)]])
              end
          end
      end
  end.

(** ** HTTP *)

Inductive http_method : Type := GET | POST.

(** A call of [session.http.get] or [session.http.post]: what is sent.
    An argument that the call does not pass is [PNone] or [[]]. *)
Record request : Type := mkRequest {
  method : http_method;
  req_url : pystr;
  params : pyval;
  data : pyval;
  headers : list (pystr * pystr)
}.

(** A response: its status, the URL it finally came from, and what
    [json.loads] makes of its text ([None] when the text is not JSON). *)
Record response : Type := mkResponse {
  status_code : Z;
  resp_url : pystr;
  json_body : option pyval
}.

(** What a call of the HTTP session does before any schema is applied:
    it returns a response or raises (no connection, a status the session
    itself rejects). *)
Inductive net_outcome : Type :=
| NetResp (r : response)
| NetRaise (e : exn).

(** The network: the outcome of a request, given the requests before it. *)
Definition network := list request -> request -> net_outcome.

(** [res.json()] *)
Definition res_json (res : response) : result pyval :=
  match json_body res with
  | Some v => Ok v
  | None => Raise JSONDecodeError
  end.

(** ** The plugin object *)

Definition attrs := list (string * pystr).

Fixpoint attr_get (name : string) (a : attrs) : option pystr :=
  match a with
  | [] => None
  | (n, v) :: a' => if String.eqb n name then Some v else attr_get name a'
  end.

(** The token endpoint of the class body. *)
Definition GIGYA_TOKEN_URL : pystr := lit "https://www.tf1.fr/token/gigya/web".

(** The media-info template of the class body. *)
Definition URL_API : pystr :=
  lit "https://mediainfo.tf1.fr/mediainfocombo/{channel_id}".

(** The key of the class body. *)
Definition GIGYA_API_KEY : pystr :=
  lit "3_hWgJdARhz_7l1oOp3a8BDLoR9cuWZpUaKG4aqF7gum9_iK3uTZ2VlDBl8ANf8FVk".

(** The attributes of the class body (tf1.py, lines 50-59). *)
Definition TF1_class : attrs := [
  ("_URL_API"%string, URL_API);
  ("_TF1_AUTH_URL"%string, lit "https://compte.tf1.fr/accounts.login");
  ("_GIGYA_TOKEN_URL"%string, GIGYA_TOKEN_URL);
  ("gigya_api_key"%string, GIGYA_API_KEY);
  ("user_signature"%string, lit "");
  ("user_uid"%string, lit "");
  ("user_timestamp"%string, lit "");
  ("user_token"%string, lit "")
].

(** What a run does not change: the URL, its match, the options, and the
    string attributes that the base class [Plugin], which is not part of
    the plugin's file, provides to the instance. *)
Record plugin : Type := mkPlugin {
  url : pystr;
  match_ : groups;
  username : option pystr;
  password : option pystr;
  inherited : attrs
}.

Inductive level : Type := DEBUG | ERROR.

(** What a run changes: the four [user_*] attributes, and, for the
    statements about it, the requests issued and the records logged,
    the oldest first. *)
Record state : Type := mkState {
  user_signature : pyval;
  user_uid : pyval;
  user_timestamp : pyval;
  user_token : pyval;
  trace : list request;
  log : list (level * pyval)
}.

(** The state of a fresh instance: the class attributes, nothing issued. *)
Definition initial : state := {|
  user_signature := PStr (lit "");
  user_uid := PStr (lit "");
  user_timestamp := PStr (lit "");
  user_token := PStr (lit "");
  trace := [];
  log := []
|}.

(** ** The monad of the methods *)

Definition M (A : Type) : Type := state -> result A * state.

Definition ret {A : Type} (a : A) : M A := fun st => (Ok a, st).

Definition bind {A B : Type} (m : M A) (f : A -> M B) : M B :=
  fun st =>
    match m st with
    | (Ok a, st') => f a st'
    | (Raise e, st') => (Raise e, st')
    end.

Definition lift {A : Type} (r : result A) : M A := fun st => (r, st).

Definition get_state : M state := fun st => (Ok st, st).

Definition modify (f : state -> state) : M unit := fun st => (Ok tt, f st).

Declare Scope monad_scope.
Delimit Scope monad_scope with monad.
Notation "x <- m ;; k" := (bind m (fun x => k))
  (at level 61, m at next level, right associativity) : monad_scope.
Notation "m ;; k" := (bind m (fun _ => k))
  (at level 61, right associativity) : monad_scope.
Local Open Scope monad_scope.

Definition set_user_signature (v : pyval) : M unit :=
  modify (fun st => mkState v (user_uid st) (user_timestamp st) (user_token st)
                            (trace st) (log st)).

Definition set_user_uid (v : pyval) : M unit :=
  modify (fun st => mkState (user_signature st) v (user_timestamp st)
                            (user_token st) (trace st) (log st)).

Definition set_user_timestamp (v : pyval) : M unit :=
  modify (fun st => mkState (user_signature st) (user_uid st) v (user_token st)
                            (trace st) (log st)).

Definition set_user_token (v : pyval) : M unit :=
  modify (fun st => mkState (user_signature st) (user_uid st)
                            (user_timestamp st) v (trace st) (log st)).

(** The state once [req] is issued. *)
Definition issued (req : request) (st : state) : state :=
  mkState (user_signature st) (user_uid st) (user_timestamp st) (user_token st)
          (trace st ++ [req]) (log st).

(** The state once [msg] is logged. *)
Definition logged (l : level) (msg : pyval) (st : state) : state :=
  mkState (user_signature st) (user_uid st) (user_timestamp st) (user_token st)
          (trace st) (log st ++ [(l, msg)]).

(** The state once the three fields of an assertion are assigned. *)
Definition asserted (sig uid : pyval) (z : Z) (st : state) : state :=
  mkState sig uid (PInt z) (user_token st) (trace st) (log st).

Definition record_request (req : request) : M unit := modify (issued req).

(** [log.debug(msg)], [log.error(msg)] *)
Definition log_at (l : level) (msg : pyval) : M unit := modify (logged l msg).

(** [None] or the string, as a value. *)
Definition opt_val (o : option pystr) : pyval :=
  match o with
  | Some s => PStr s
  | None => PNone
  end.

(** The fixed identifiers of tf1.py, line 127. *)
Definition consent_id_list : list pyval :=
  List.map (fun s => PStr (lit s))
    ["1"; "2"; "3"; "4"; "10001"; "10003"; "10005"; "10007"; "10013"; "10015";
     "10017"; "10019"; "10009"; "10011"; "13002"; "13001"; "10004"; "10014";
     "10016"; "10018"; "10020"; "10010"; "10012"; "10006"; "10008"]%string.

Definition missing_credentials_msg : pyval :=
  PStr (lit "In order to access your content, TF1 requires an account you must login with, using "
        ++ lit "--tf1-username and --tf1-password").

Definition could_not_authenticate_msg : pyval :=
  PStr (lit "Could not authenticate, check your username and password.").

(** What [_get_streams] returns. *)
Inductive streams : Type :=
| NoStreams                              (* a bare [return] *)
| ParseVariantPlaylist (data : pyval).   (* the HLS parser, called on [data] *)

Section Methods.

Variable rt : Runtime.
Variable net : network.
Variable self : plugin.

(** [self.<name>] for a name that no method assigns: the class body, then
    what the base class provides. *)
Definition getattr (name : string) : M pystr :=
  match attr_get name TF1_class with
  | Some v => ret v
  | None =>
      match attr_get name (inherited self) with
      | Some v => ret v
      | None => lift (Raise (AttributeError name))
      end
  end.

(** A call of the HTTP session without a schema.  The request counts as
    issued whether the session then returns or raises. *)
Definition http (req : request) : M response :=
  st <- get_state ;;
  record_request req ;;
  match net (trace st) req with
  | NetResp r => ret r
  | NetRaise e => lift (Raise e)
  end.

(** A call of the HTTP session with [schema=Schema(validate.parse_json(), ...)]:
    a validation that fails raises [PluginError]. *)
Definition http_schema (req : request) (sc : schema) : M pyval :=
  res <- http req ;;
  match json_body res with
  | None => lift (Raise (PluginError "Unable to validate response text"))
  | Some v =>
      match validate rt sc v with
      | Some v' => ret v'
      | None => lift (Raise (PluginError "Unable to validate response text"))
      end
  end.

(** The request of the media-info call (tf1.py, lines 78-88). *)
Definition media_request (template channel_id : pystr) (st : state) : request :=
  {| method := GET;
     req_url := format_channel_id template channel_id;
     params := PDict [(lit "context", PStr (lit "MYTF1"));
                      (lit "pver", PStr (lit "5015000"))];
     data := PNone;
     headers := [(lit "User-Agent", useragents_IPHONE rt);
                 (lit "authorization", lit "Bearer " ++ fmt rt (user_token st))] |}.

(** tf1.py, lines 77-112 *)
Definition _api_call (channel_id : pystr) : M pyval :=
  template <- getattr "_URL_API" ;;
  st <- get_state ;;
  http_schema (media_request template channel_id st) media_schema.

(** The request of the token exchange (tf1.py, lines 131-139). *)
Definition token_request (token_url : pystr) (consent_ids : pyval) (st : state)
    : request :=
  {| method := POST;
     req_url := token_url;
     params := PNone;
     data := PDict [(lit "uid", user_uid st);
                    (lit "signature", user_signature st);
                    (lit "timestamp", user_timestamp st);
                    (lit "consentIds", consent_ids)];
     headers := [(lit "Referer", url self)] |}.

(** tf1.py, lines 124-153 *)
Definition auth_check (res : response) : M bool :=
  if status_code res =? 200 then
    let consent_ids := PTuple [PList consent_id_list] in
    j <- lift (res_json res) ;;
    sig <- lift (py_getitem j (lit "userSignature")) ;;
    set_user_signature sig ;;
    j <- lift (res_json res) ;;
    uid <- lift (py_getitem j (lit "UID")) ;;
    set_user_uid uid ;;
    j <- lift (res_json res) ;;
    ts <- lift (py_getitem j (lit "timestamp")) ;;
    z <- lift (py_int rt ts) ;;
    set_user_timestamp (PInt z) ;;
    token_url <- getattr "_GIGYA_TOKEN_URL" ;;
    st <- get_state ;;
    sc <- lift (token_schema_expr rt) ;;
    token <- http_schema (token_request token_url consent_ids st) sc ;;
    tk <- lift (py_getitem token (lit "token")) ;;
    set_user_token tk ;;
    ret true
  else ret false.

(** The session request (tf1.py, lines 156-159). *)
Definition session_request (session_url ptrt_url : pystr) : request :=
  {| method := GET;
     req_url := session_url;
     params := PDict [(lit "ptrt", PStr ptrt_url)];
     data := PNone;
     headers := [] |}.

(** The login request (tf1.py, lines 165-173). *)
Definition login_request (auth_url : pystr) (session_res : response)
    (api_key : pystr) : request :=
  {| method := POST;
     req_url := auth_url;
     params := PStr (urlparse_query rt (resp_url session_res));
     data := PDict [(lit "loginID", opt_val (username self));
                    (lit "password", opt_val (password self));
                    (lit "APIKey", PStr api_key)];
     headers := [(lit "Referer", url self)] |}.

(** tf1.py, lines 114-175 *)
Definition login (ptrt_url : pystr) : M bool :=
  session_url <- getattr "session_url" ;;
  session_res <- http (session_request session_url ptrt_url) ;;
  already <- auth_check session_res ;;
  if already then
    log_at DEBUG (PStr (lit "Already authenticated, skipping authentication")) ;;
    ret true
  else
    auth_url <- getattr "auth_url" ;;
    api_key <- getattr "gigya_api_key" ;;
    res <- http (login_request auth_url session_res api_key) ;;
    auth_check res.

(** tf1.py, lines 177-197 *)
Definition _get_streams : M streams :=
  if negb (truthy (username self)) then
    log_at ERROR missing_credentials_msg ;;
    ret NoStreams
  else
    ok <- login (url self) ;;
    if negb ok then
      log_at ERROR could_not_authenticate_msg ;;
      ret NoStreams
    else
      ch <- lift (_get_channel rt (match_ self)) ;;
      let '(channel, channel_id) := ch in
      log_at DEBUG (PStr (lit "Found channel " ++ channel ++ lit " ("
                          ++ channel_id ++ lit ")")) ;;
      r <- _api_call channel_id ;;
      cd <- lift (unpack2 r) ;;
      let '(code, data) := cd in
      if negb (py_eq_int code 200) then
        log_at ERROR data ;;
        ret NoStreams
      else ret (ParseVariantPlaylist data).

End Methods.

(** A resolution: the plugin is built for a URL that its pattern matches
    and [_get_streams] runs on the fresh instance.  [None]: the URL is not
    one of the plugin's. *)
Definition resolve (rt : Runtime) (net : network) (base : attrs)
    (u : pystr) (user pass : option pystr) : option (result streams * state) :=
  match pluginmatcher rt u with
  | Some m => Some (_get_streams rt net (mkPlugin u m user pass base) initial)
  | None => None
  end.

(** ** What a pattern matches

    The words a pattern accepts and the groups it sets: [matches r w g g']
    says that [r] consumes [w] and turns the groups [g] into [g']. *)
Inductive matches : regex -> pystr -> groups -> groups -> Prop :=
| MLit l g : matches (RLit l) l g g
| MPlus p c w g :
    p c = true -> Forall (fun x => p x = true) w ->
    matches (RPlus p) (c :: w) g g
| MOptSome r w g g' : matches r w g g' -> matches (ROpt r) w g g'
| MOptNone r g : matches (ROpt r) [] g g
| MSeq r1 r2 w1 w2 g g1 g2 :
    matches r1 w1 g g1 -> matches r2 w2 g1 g2 ->
    matches (RSeq r1 r2) (w1 ++ w2) g g2
| MAltL r1 r2 w g g' : matches r1 w g g' -> matches (RAlt r1 r2) w g g'
| MAltR r1 r2 w g g' : matches r2 w g g' -> matches (RAlt r1 r2) w g g'
| MGroup n r w g g' :
    matches r w g g' -> matches (RGroup n r) w g ((n, w) :: g').

(** The three ways a match of the plugin's pattern sets its groups. *)
Inductive address (m : groups) : Prop :=
| LiveSlug s :
    s <> [] -> group m "live" = Some s ->
    group m "stream" = None -> group m "lci" = None -> address m
| StreamSlug s :
    s <> [] -> group m "stream" = Some s ->
    group m "live" = None -> group m "lci" = None -> address m
| LciAlias s :
    s <> [] -> group m "lci" = Some s ->
    group m "live" = None -> group m "stream" = None -> address m.

(** ** Sample runs *)

(** The value of a run of ASCII digits. *)
Fixpoint digits (acc : Z) (s : pystr) : option Z :=
  match s with
  | [] => Some acc
  | c :: s' =>
      if ((48 <=? c) && (c <=? 57))%N
      then digits (10 * acc + Z.of_N (c - 48)) s'
      else None
  end.

(** [int] on a plain decimal numeral, with or without a sign. *)
Definition ascii_int (s : pystr) : option Z :=
  match s with
  | [] => None
  | 45%N :: ((_ :: _) as d) => option_map Z.opp (digits 0 d)
  | 43%N :: ((_ :: _) as d) => digits 0 d
  | _ => digits 0 s
  end.

(** A runtime that knows ASCII only, with a [validate] module that
    defines every name the plugin reads. *)
Definition ascii_runtime : Runtime := {|
  unicode_word := fun _ => false;
  unicode_upper := fun c => [c];
  int_of_str := ascii_int;
  str_of := fun _ => lit "<object>";
  urlparse_query := fun _ => lit "";
  valid_url := fun s =>
    match strip_prefix (lit "https://") s with Some _ => true | None => false end;
  useragents_IPHONE := lit "Mozilla/5.0 (iPhone)";
  validate_defines := fun _ => true
|}.

(** The same runtime with the [validate] module of the repository, which
    defines [text] and no [integer]. *)
Definition installed_runtime : Runtime := {|
  unicode_word := unicode_word ascii_runtime;
  unicode_upper := unicode_upper ascii_runtime;
  int_of_str := int_of_str ascii_runtime;
  str_of := str_of ascii_runtime;
  urlparse_query := urlparse_query ascii_runtime;
  valid_url := valid_url ascii_runtime;
  useragents_IPHONE := useragents_IPHONE ascii_runtime;
  validate_defines := fun name => String.eqb name "text"
|}.

(** A network that answers by the kind of the request: the session
    request carries [ptrt], the login request [loginID], the token request
    [uid]; any other request is the media-info call. *)
Definition scripted (session_out login_out token_out media_out : net_outcome)
    : network :=
  fun _ req =>
    match py_getitem (params req) (lit "ptrt"),
          py_getitem (data req) (lit "loginID"),
          py_getitem (data req) (lit "uid") with
    | Ok _, _, _ => session_out
    | _, Ok _, _ => login_out
    | _, _, Ok _ => token_out
    | _, _, _ => media_out
    end.

Definition json_response (status : Z) (body : pyval) : net_outcome :=
  NetResp {| status_code := status; resp_url := lit "https://www.tf1.fr/";
             json_body := Some body |}.

Definition assertion_body : pyval :=
  PDict [(lit "userSignature", PStr (lit "c2ln"));
         (lit "UID", PStr (lit "u-1"));
         (lit "timestamp", PStr (lit "1700000000"))].

Definition assertion_body_int : pyval :=
  PDict [(lit "userSignature", PStr (lit "c2ln"));
         (lit "UID", PStr (lit "u-1"));
         (lit "timestamp", PInt 1700000000)].

Definition token_body : pyval :=
  PDict [(lit "token", PStr (lit "tok")); (lit "refresh_token", PStr (lit "ref"));
         (lit "ttl", PInt 3600); (lit "type", PStr (lit "Bearer"))].

Definition token_body_no_ttl : pyval :=
  PDict [(lit "token", PStr (lit "tok")); (lit "refresh_token", PStr (lit "ref"));
         (lit "type", PStr (lit "Bearer"))].

Definition delivery_body (delivery : pyval) : pyval :=
  PDict [(lit "delivery", delivery)].

Definition geo_blocked (code : Z) : pyval :=
  PDict [(lit "code", PInt code); (lit "error", PStr (lit "geo-blocked"))].

Definition hls_delivery : pyval :=
  PDict [(lit "code", PInt 200); (lit "format", PStr (lit "hls"));
         (lit "url", PStr (lit "https://example.test/manifest.m3u8"))].

(** What a base class that defines the two endpoints would provide. *)
Definition with_endpoints : attrs := [
  ("session_url"%string, lit "https://www.tf1.fr/session");
  ("auth_url"%string, lit "https://compte.tf1.fr/accounts.login")
].

Definition tf1_direct : pystr := lit "https://www.tf1.fr/tf1/direct".

(** The plugin object for [tf1_direct]. *)
Definition tf1_self (user pass : option pystr) (base : attrs) : plugin :=
  mkPlugin tf1_direct [("live"%string, lit "tf1")] user pass base.

Definition no_content : net_outcome :=
  NetResp {| status_code := 204; resp_url := lit "https://www.tf1.fr/?ptrt=x";
             json_body := None |}.

Definition forbidden : net_outcome :=
  NetResp {| status_code := 403; resp_url := lit "https://compte.tf1.fr/";
             json_body := None |}.

(** The session request finds the user logged in, the token exchange
    succeeds, the media-info call answers [delivery]. *)
Definition net_authenticated (delivery : pyval) : network :=
  scripted (json_response 200 assertion_body_int) forbidden
           (json_response 200 token_body)
           (json_response 200 (delivery_body delivery)).

(** The same, with the timestamp of the assertion sent as a string. *)
Definition net_string_timestamp : network :=
  scripted (json_response 200 assertion_body) forbidden
           (json_response 200 token_body)
           (json_response 200 (delivery_body (geo_blocked 403))).

(** The session request finds nobody logged in and the login is refused. *)
Definition net_rejected : network :=
  scripted no_content forbidden (json_response 200 token_body)
           (json_response 200 (delivery_body (geo_blocked 403))).

(** The user is logged in and the token endpoint answers without [ttl]. *)
Definition net_no_ttl : network :=
  scripted (json_response 200 assertion_body_int) forbidden
           (json_response 200 token_body_no_ttl)
           (json_response 200 (delivery_body (geo_blocked 403))).

(** The session request is answered with a 200 and an empty object. *)
Definition net_empty_session : network :=
  scripted (json_response 200 (PDict [])) forbidden
           (json_response 200 token_body)
           (json_response 200 (delivery_body (geo_blocked 403))).

(** Nobody is logged in, the credential login is accepted, the token
    exchange succeeds, the media-info call answers [delivery]. *)
Definition net_credentials (delivery : pyval) : network :=
  scripted no_content (json_response 200 assertion_body_int)
           (json_response 200 token_body)
           (json_response 200 (delivery_body delivery)).

(** A request is the credential login: a POST whose body carries
    [loginID]. *)
Definition is_login (q : request) : bool :=
  match method q, py_getitem (data q) (lit "loginID") with
  | POST, Ok _ => true
  | _, _ => false
  end.

(** The body of a response holds the three fields of an assertion. *)
Definition has_assertion_fields (res : response) : bool :=
  match json_body res with
  | Some j =>
      match py_getitem j (lit "userSignature"), py_getitem j (lit "UID"),
            py_getitem j (lit "timestamp") with
      | Ok _, Ok _, Ok _ => true
      | _, _, _ => false
      end
  | None => false
  end.

(** The state once the token is assigned. *)
Definition authorized (tk : pyval) (st : state) : state :=
  mkState (user_signature st) (user_uid st) (user_timestamp st) tk
          (trace st) (log st).

(** The last steps of [auth_check]: the schema expression, the token
    request and the assignment of the token (tf1.py, lines 131-151). *)
Definition token_exchange (rt : Runtime) (net : network) (self : plugin)
    : M bool :=
  st <- get_state ;;
  sc <- lift (token_schema_expr rt) ;;
  token <- http_schema rt net
             (token_request self GIGYA_TOKEN_URL (PTuple [PList consent_id_list]) st)
             sc ;;
  tk <- lift (py_getitem token (lit "token")) ;;
  set_user_token tk ;;
  ret true.

(** A computation only adds requests that satisfy [P] to the trace. *)
Definition appends {A : Type} (P : request -> Prop) (m : M A) : Prop :=
  forall st, exists rest,
    trace (snd (m st)) = trace st ++ rest /\ Forall P rest.

(** A request is not the credential login. *)
Definition not_login (q : request) : Prop := is_login q = false.

(** A computation that returns does not return [False]. *)
Definition never_false (m : M bool) : Prop :=
  forall st, fst (m st) <> Ok false.

(** The four ways a URL of the plugin can start. *)
Definition url_prefix (p : pystr) : Prop :=
  In p [lit "http://"; lit "https://"; lit "http://www."; lit "https://www."].

(** A non-empty run of characters of the class [[\w-]]. *)
Definition in_class (rt : Runtime) (w : pystr) : Prop :=
  w <> [] /\ Forall (fun c => is_word_or_dash rt c = true) w.

(** [s] is empty or starts with a character outside [p]. *)
Definition stops (p : N -> bool) (s : pystr) : Prop :=
  match s with
  | [] => True
  | c :: _ => p c = false
  end.

(** All characters are ASCII. *)
Definition is_ascii (s : pystr) : Prop := Forall (fun c => (c < 128)%N) s.

(** No character is an ASCII lower-case letter. *)
Definition no_lower (s : pystr) : Prop :=
  Forall (fun c => ~ (97 <= c <= 122)%N) s.

(** A computation leaves the log as it is. *)
Definition keeps_log {A : Type} (m : M A) : Prop :=
  forall st, log (snd (m st)) = log st.

(** The fixed prefix of the media-info URL. *)
Definition MEDIAINFO : pystr := lit "https://mediainfo.tf1.fr/mediainfocombo/".

Definition already_authenticated_msg : pyval :=
  PStr (lit "Already authenticated, skipping authentication").

Definition found_channel_msg (channel channel_id : pystr) : pyval :=
  PStr (lit "Found channel " ++ channel ++ lit " (" ++ channel_id ++ lit ")").

(** The first shape of a delivery in [media_schema]. *)
Definition success_shape : schema :=
  SAll [SDict [(lit "code", SInt 200); (lit "format", SStr (lit "hls"));
               (lit "url", SUrl)];
        SUnionGet (lit "code") (lit "url")].

(** The second shape of a delivery in [media_schema]. *)
Definition failure_shape : schema :=
  SAll [SDict [(lit "code", SType TInt); (lit "error", SType TStr)];
        SUnionGet (lit "code") (lit "error")].

(** Two states with the same requests issued and the same records logged;
    the [user_*] attributes may differ. *)
Definition same_history (st st' : state) : Prop :=
  trace st = trace st' /\ log st = log st'.

(** ** The HTTP session over a server

    What the provider answers, before the HTTP session looks at it: a
    response with any status, or no response at all. *)
Inductive raw_outcome : Type :=
| Answered (r : response)
| Unreachable.

Definition server := list request -> request -> raw_outcome.

(** A status that [raise_for_status] refuses: 4xx or 5xx. *)
Definition error_status (status : Z) : bool :=
  (400 <=? status) && (status <? 600).

(** The HTTP session of streamlink for the calls of the plugin, which pass
    neither [raise_for_status] nor [acceptable_status]: a 4xx or 5xx answer
    and a failed connection are both raised as a [PluginError]; any other
    answer is handed back. *)
Definition session_of (srv : server) : network :=
  fun history req =>
    match srv history req with
    | Answered r =>
        if error_status (status_code r)
        then NetRaise (PluginError "Unable to open URL")
        else NetResp r
    | Unreachable => NetRaise (PluginError "Unable to open URL")
    end.

(** A server that answers by the kind of the request, as [scripted]. *)
Definition scripted_server
    (session_out login_out token_out media_out : raw_outcome) : server :=
  fun _ req =>
    match py_getitem (params req) (lit "ptrt"),
          py_getitem (data req) (lit "loginID"),
          py_getitem (data req) (lit "uid") with
    | Ok _, _, _ => session_out
    | _, Ok _, _ => login_out
    | _, _, Ok _ => token_out
    | _, _, _ => media_out
    end.

Definition answer (status : Z) (body : option pyval) : raw_outcome :=
  Answered {| status_code := status; resp_url := lit "https://www.tf1.fr/";
              json_body := body |}.

(** Nobody is logged in, and the provider answers the credential login
    with [status] and no JSON. *)
Definition login_answered (status : Z) : server :=
  scripted_server (answer 204 None) (answer status None)
                  (answer 200 (Some token_body))
                  (answer 200 (Some (delivery_body hls_delivery))).

(** ** The body of a request

    How the HTTP library under the session sends a [dict] given as
    [data=]: as form fields, a key and a value each. *)

(** The items of a value that can be iterated and is not a string. *)
Definition iterable_items (v : pyval) : option (list pyval) :=
  match v with
  | PList l | PTuple l => Some l
  | PDict d => Some (List.map PStr (dict_keys [] d))
  | _ => None
  end.

Definition is_none (v : pyval) : bool :=
  match v with
  | PNone => true
  | _ => false
  end.

(** The items of a [dict]: each key once, with the value that a lookup
    gives. *)
Fixpoint dict_items (seen : list pystr) (d : list (pystr * pyval))
    : list (pystr * pyval) :=
  match d with
  | [] => []
  | (k, v) :: d' =>
      if existsb (str_eqb k) seen then dict_items seen d'
      else (k, v) :: dict_items (k :: seen) d'
  end.

(** [_encode_params] of the [requests] library on the items of a dict: a
    value that is a string or cannot be iterated stands for itself, any
    other for its items; an item that is [None] is dropped. *)
Definition encode_params (d : list (pystr * pyval)) : list (pystr * pyval) :=
  List.flat_map
    (fun kv =>
       let vs := match iterable_items (snd kv) with
                 | Some l => l
                 | None => [snd kv]
                 end in
       List.map (pair (fst kv)) (List.filter (fun v => negb (is_none v)) vs))
    d.

(** [urlencode(..., doseq=True)], before the quoting: a value that has a
    length and is not a string gives one field for each of its elements. *)
Definition urlencode_doseq (fields : list (pystr * pyval))
    : list (pystr * pyval) :=
  List.flat_map
    (fun kv =>
       match iterable_items (snd kv) with
       | Some l => List.map (pair (fst kv)) l
       | None => [kv]
       end)
    fields.

(** The form fields that a request carries in its body. *)
Definition form_fields (q : request) : list (pystr * pyval) :=
  match data q with
  | PDict d => urlencode_doseq (encode_params (dict_items [] d))
  | _ => []
  end.

(** The fields of a body under one key. *)
Definition fields_of (key : pystr) (fields : list (pystr * pyval))
    : list (pystr * pyval) :=
  List.filter (fun f => str_eqb (fst f) key) fields.

(** A request is the token exchange: a POST whose body carries [uid]. *)
Definition is_token (q : request) : bool :=
  match method q, py_getitem (data q) (lit "uid") with
  | POST, Ok _ => true
  | _, _ => false
  end.

(** * Properties *)

(** ** Concrete runs *)

Example match_live :
  pluginmatcher ascii_runtime tf1_direct = Some [("live"%string, lit "tf1")].
Proof. reflexivity. Qed.

Example match_live_named_stream :
  pluginmatcher ascii_runtime (lit "https://tf1.fr/stream/direct/")
  = Some [("live"%string, lit "stream")].
Proof. reflexivity. Qed.

Example match_stream :
  pluginmatcher ascii_runtime (lit "http://www.tf1.fr/stream/sport1")
  = Some [("stream"%string, lit "sport1")].
Proof. reflexivity. Qed.

Example match_lci :
  pluginmatcher ascii_runtime (lit "https://www.tf1info.fr/direct")
  = Some [("lci"%string, lit "tf1info")].
Proof. reflexivity. Qed.

Example match_none :
  pluginmatcher ascii_runtime (lit "https://www.tf1.fr/programmes") = None.
Proof. reflexivity. Qed.

Example channel_live_mixed_case :
  _get_channel ascii_runtime [("live"%string, lit "Tfx-1")]
  = Ok (lit "Tfx-1", lit "L_TFX-1").
Proof. reflexivity. Qed.

Example media_schema_success :
  validate ascii_runtime media_schema (delivery_body hls_delivery)
  = Some (PTuple [PInt 200; PStr (lit "https://example.test/manifest.m3u8")]).
Proof. reflexivity. Qed.

Example media_schema_failure_403 :
  validate ascii_runtime media_schema (delivery_body (geo_blocked 403))
  = Some (PTuple [PInt 403; PStr (lit "geo-blocked")]).
Proof. reflexivity. Qed.

Example media_schema_other_shape :
  validate ascii_runtime media_schema
    (delivery_body (PDict [(lit "code", PInt 200)])) = None.
Proof. reflexivity. Qed.

Example resolve_class_as_written :
  resolve ascii_runtime (net_authenticated hls_delivery) [] tf1_direct
    (Some (lit "user")) (Some (lit "secret"))
  = Some (Raise (AttributeError "session_url"), initial).
Proof. reflexivity. Qed.

Example resolve_hls :
  option_map fst
    (resolve ascii_runtime (net_authenticated hls_delivery) with_endpoints
       tf1_direct (Some (lit "user")) (Some (lit "secret")))
  = Some (Ok (ParseVariantPlaylist
                (PStr (lit "https://example.test/manifest.m3u8")))).
Proof. reflexivity. Qed.

Example resolve_geo_blocked :
  option_map fst
    (resolve ascii_runtime (net_authenticated (geo_blocked 403)) with_endpoints
       tf1_direct (Some (lit "user")) (Some (lit "secret")))
  = Some (Ok NoStreams).
Proof. reflexivity. Qed.

(** ** The matcher finds only what the pattern accepts *)

Lemma strip_prefix_app l s s' : strip_prefix l s = Some s' -> s = l ++ s'.
Proof.
  revert s; induction l as [|x l IH]; intros [|y s]; simpl; try congruence.
  destruct (N.eqb_spec x y) as [->|]; [|discriminate].
  intros H; apply IH in H; now subst.
Qed.

Lemma consumed_app (w s' : pystr) : consumed (w ++ s') s' = w.
Proof.
  unfold consumed. rewrite length_app.
  replace (List.length w + List.length s' - List.length s')%nat
    with (List.length w) by lia.
  rewrite firstn_app, firstn_all, Nat.sub_diag. simpl. apply app_nil_r.
Qed.

Lemma plus_bt_sound {A : Type} p s (k : pystr -> option A) x :
  plus_bt p s k = Some x ->
  exists c w s', s = (c :: w) ++ s' /\ p c = true
                 /\ Forall (fun y => p y = true) w /\ k s' = Some x.
Proof.
  revert x; induction s as [|c s IH]; simpl; intros x H; [discriminate|].
  destruct (p c) eqn:Hc; [|discriminate].
  destruct (plus_bt p s k) as [y|] eqn:Hrec.
  - injection H as ->.
    destruct (IH _ eq_refl) as (c' & w & s' & -> & Hc' & Hw & Hk).
    exists c, (c' :: w), s'. auto.
  - exists c, [], s. auto.
Qed.

Lemma bt_sound r : forall s g k res,
  bt r s g k = Some res ->
  exists w s' g', s = w ++ s' /\ matches r w g g' /\ k s' g' = Some res.
Proof.
  induction r as [l|p|r IH|r1 IH1 r2 IH2|r1 IH1 r2 IH2|n r IH];
    intros s g k res H; simpl in H.
  - destruct (strip_prefix l s) as [s'|] eqn:Hl; [|discriminate].
    apply strip_prefix_app in Hl. exists l, s', g. repeat split; eauto using matches.
  - apply plus_bt_sound in H. destruct H as (c & w & s' & -> & Hc & Hw & Hk).
    exists (c :: w), s', g. repeat split; [constructor; assumption|exact Hk].
  - destruct (bt r s g k) as [x|] eqn:Hr.
    + injection H as ->. apply IH in Hr.
      destruct Hr as (w & s' & g' & -> & Hm & Hk).
      exists w, s', g'. repeat split; eauto using matches.
    + exists [], s, g. repeat split; eauto using matches.
  - apply IH1 in H. destruct H as (w1 & s1 & g1 & -> & Hm1 & H).
    apply IH2 in H. destruct H as (w2 & s2 & g2 & -> & Hm2 & Hk).
    exists (w1 ++ w2), s2, g2. rewrite app_assoc. repeat split; eauto using matches.
  - destruct (bt r1 s g k) as [x|] eqn:Hr.
    + injection H as ->. apply IH1 in Hr.
      destruct Hr as (w & s' & g' & -> & Hm & Hk).
      exists w, s', g'. repeat split; eauto using matches.
    + apply IH2 in H. destruct H as (w & s' & g' & -> & Hm & Hk).
      exists w, s', g'. repeat split; eauto using matches.
  - apply IH in H. destruct H as (w & s' & g' & -> & Hm & Hk).
    rewrite consumed_app in Hk. exists w, s', ((n, w) :: g').
    repeat split; eauto using matches.
Qed.

Lemma re_match_sound r s m :
  re_match r s = Some m -> exists w s', s = w ++ s' /\ matches r w [] m.
Proof.
  unfold re_match. intros H. apply bt_sound in H.
  destruct H as (w & s' & g' & -> & Hm & Hk). injection Hk as ->. eauto.
Qed.

(** Inversion of [matches] at a pattern whose head is known. *)
Ltac inv_matches :=
  repeat match goal with
  | H : matches (RLit _) _ _ _ |- _ => inversion H; subst; clear H
  | H : matches (RPlus _) _ _ _ |- _ => inversion H; subst; clear H
  | H : matches (ROpt _) _ _ _ |- _ => inversion H; subst; clear H
  | H : matches (RSeq _ _) _ _ _ |- _ => inversion H; subst; clear H
  | H : matches (RAlt _ _) _ _ _ |- _ => inversion H; subst; clear H
  | H : matches (RGroup _ _) _ _ _ |- _ => inversion H; subst; clear H
  end.

Lemma pattern_address rt w m : matches (pattern rt) w [] m -> address m.
Proof.
  unfold pattern, slash_direct. intros H. inv_matches;
    solve [ eapply LiveSlug; [|reflexivity..]; discriminate
          | eapply StreamSlug; [|reflexivity..]; discriminate
          | eapply LciAlias; [|reflexivity..]; discriminate ].
Qed.

Lemma pluginmatcher_address rt u m : pluginmatcher rt u = Some m -> address m.
Proof.
  unfold pluginmatcher. intros H. apply re_match_sound in H.
  destruct H as (w & s' & _ & H). eapply pattern_address, H.
Qed.

(** C9: a URL that the plugin's pattern matches populates exactly one of
    the groups [live], [stream] and [lci], with a non-empty string, and
    leaves the other two at [None]; channel resolution then returns a
    channel and never raises its "Invalid channel" error. *)
Theorem matched_url_has_one_address rt u m :
  pluginmatcher rt u = Some m ->
  address m
  /\ (Nat.b2n (truthy (group m "live")) + Nat.b2n (truthy (group m "stream"))
      + Nat.b2n (truthy (group m "lci")) = 1)%nat
  /\ (exists c, _get_channel rt m = Ok c)
  /\ _get_channel rt m <> Raise (PluginError "Invalid channel").
Proof.
  intros H. apply pluginmatcher_address in H. split; [exact H|].
  unfold _get_channel.
  destruct H as [s Hs H1 H2 H3|s Hs H1 H2 H3|s Hs H1 H2 H3];
    rewrite H1, H2, H3; destruct s as [|c s]; try congruence; simpl;
    (split; [reflexivity|]); split; eauto; discriminate.
Qed.

Lemma matched_url_has_one_address_witness :
  exists m, pluginmatcher ascii_runtime tf1_direct = Some m
            /\ address m
            /\ exists c, _get_channel ascii_runtime m = Ok c.
Proof.
  exists [("live"%string, lit "tf1")].
  split; [reflexivity|].
  destruct (matched_url_has_one_address ascii_runtime tf1_direct
              [("live"%string, lit "tf1")] eq_refl) as (Ha & _ & Hc & _).
  split; assumption.
Defined.

(** C1: for a URL that the plugin's pattern matches, [_get_channel]
    returns, for a live slug [s], the name [s] and the id ["L_"] followed by
    [s.upper()]; for the LCI alias, the name ["LCI"] and the id ["L_LCI"];
    for a stream slug [s], the name [s] and the id ["L_FAST_v2l-"] followed
    by [s] unchanged. *)
Theorem channel_id_as_specified rt u m :
  pluginmatcher rt u = Some m ->
  (forall s, group m "live" = Some s ->
     _get_channel rt m = Ok (s, lit "L_" ++ upper rt s))
  /\ (forall s, group m "lci" = Some s ->
     _get_channel rt m = Ok (lit "LCI", lit "L_LCI"))
  /\ (forall s, group m "stream" = Some s ->
     _get_channel rt m = Ok (s, lit "L_FAST_v2l-" ++ s)).
Proof.
  intros H. apply pluginmatcher_address in H. unfold _get_channel.
  destruct H as [s Hs H1 H2 H3|s Hs H1 H2 H3|s Hs H1 H2 H3];
    rewrite H1, H2, H3; destruct s as [|c s]; try congruence;
    repeat split; intros s' E; try discriminate; injection E as <-; reflexivity.
Qed.

Lemma channel_id_as_specified_witness :
  _get_channel ascii_runtime [("live"%string, lit "tf1")]
    = Ok (lit "tf1", lit "L_TF1")
  /\ _get_channel ascii_runtime [("lci"%string, lit "lci")]
    = Ok (lit "LCI", lit "L_LCI")
  /\ _get_channel ascii_runtime [("stream"%string, lit "sport1")]
    = Ok (lit "sport1", lit "L_FAST_v2l-sport1").
Proof.
  split; [|split].
  - exact (proj1 (channel_id_as_specified ascii_runtime tf1_direct
                    [("live"%string, lit "tf1")] eq_refl) _ eq_refl).
  - exact (proj1 (proj2 (channel_id_as_specified ascii_runtime
                    (lit "https://lci.fr/direct/")
                    [("lci"%string, lit "lci")] eq_refl)) _ eq_refl).
  - exact (proj2 (proj2 (channel_id_as_specified ascii_runtime
                    (lit "https://www.tf1.fr/stream/sport1")
                    [("stream"%string, lit "sport1")] eq_refl)) _ eq_refl).
Defined.

(** ** The runs of [_get_streams] *)

Lemma getattr_class self name v st :
  attr_get name TF1_class = Some v ->
  getattr self name st = (Ok v, st).
Proof. unfold getattr. intros ->. reflexivity. Qed.

Lemma getattr_inherited self name v st :
  attr_get name TF1_class = None ->
  attr_get name (inherited self) = Some v ->
  getattr self name st = (Ok v, st).
Proof. unfold getattr. intros -> ->. reflexivity. Qed.

Lemma getattr_undefined self name st :
  attr_get name TF1_class = None ->
  attr_get name (inherited self) = None ->
  getattr self name st = (Raise (AttributeError name), st).
Proof. unfold getattr. intros -> ->. reflexivity. Qed.

Lemma http_run net q st :
  http net q st =
    match net (trace st) q with
    | NetResp r => (Ok r, issued q st)
    | NetRaise e => (Raise e, issued q st)
    end.
Proof. unfold http, bind, get_state, record_request, modify. simpl.
  destruct (net (trace st) q); reflexivity. Qed.

Lemma auth_check_other_status rt net self res st :
  status_code res <> 200 -> auth_check rt net self res st = (Ok false, st).
Proof.
  unfold auth_check. intros H.
  destruct (Z.eqb_spec (status_code res) 200); [contradiction|reflexivity].
Qed.

Lemma auth_check_asserted rt net self res st j sig uid ts z :
  status_code res = 200 ->
  json_body res = Some j ->
  py_getitem j (lit "userSignature") = Ok sig ->
  py_getitem j (lit "UID") = Ok uid ->
  py_getitem j (lit "timestamp") = Ok ts ->
  py_int rt ts = Ok z ->
  auth_check rt net self res st =
    token_exchange rt net self (asserted sig uid z st).
Proof.
  intros Hs Hj Hsig Huid Hts Hz. unfold auth_check, res_json.
  rewrite Hs, Hj. simpl.
  unfold bind at 1, lift at 1. unfold bind at 1, lift at 1. rewrite Hsig.
  unfold bind at 1, set_user_signature, modify.
  unfold bind at 1, lift at 1. unfold bind at 1, lift at 1. rewrite Huid.
  unfold bind at 1, set_user_uid, modify.
  unfold bind at 1, lift at 1. unfold bind at 1, lift at 1. rewrite Hts.
  unfold bind at 1, lift at 1. rewrite Hz.
  unfold bind at 1, set_user_timestamp, modify.
  unfold bind at 1. rewrite (getattr_class self "_GIGYA_TOKEN_URL" GIGYA_TOKEN_URL)
    by reflexivity.
  unfold bind at 1, get_state. reflexivity.
Qed.

Lemma http_schema_run rt net q sc st :
  http_schema rt net q sc st =
    match net (trace st) q with
    | NetRaise e => (Raise e, issued q st)
    | NetResp r =>
        match json_body r with
        | None => (Raise (PluginError "Unable to validate response text"),
                   issued q st)
        | Some v =>
            match validate rt sc v with
            | Some v' => (Ok v', issued q st)
            | None => (Raise (PluginError "Unable to validate response text"),
                       issued q st)
            end
        end
    end.
Proof.
  unfold http_schema. unfold bind at 1. rewrite http_run.
  destruct (net (trace st) q) as [r|e]; [|reflexivity].
  destruct (json_body r) as [v|]; [|reflexivity].
  destruct (validate rt sc v); reflexivity.
Qed.

Lemma token_schema_expr_ok rt sc :
  token_schema_expr rt = Ok sc ->
  sc = token_schema
  /\ validate_defines rt "text" = true /\ validate_defines rt "integer" = true.
Proof.
  unfold token_schema_expr, validate_getattr.
  destruct (validate_defines rt "text"); [|discriminate].
  destruct (validate_defines rt "integer"); [|discriminate].
  intros [= <-]. repeat split.
Qed.

Lemma token_schema_expr_defined rt :
  validate_defines rt "text" = true -> validate_defines rt "integer" = true ->
  token_schema_expr rt = Ok token_schema.
Proof.
  unfold token_schema_expr, validate_getattr. intros -> ->. reflexivity.
Qed.

Lemma token_schema_expr_no_integer rt :
  validate_defines rt "text" = true -> validate_defines rt "integer" = false ->
  token_schema_expr rt = Raise (AttributeError "integer").
Proof.
  unfold token_schema_expr, validate_getattr. intros -> ->. reflexivity.
Qed.

Lemma token_exchange_run rt net self st :
  let q := token_request self GIGYA_TOKEN_URL (PTuple [PList consent_id_list]) st in
  token_exchange rt net self st =
    match token_schema_expr rt with
    | Raise e => (Raise e, st)
    | Ok sc =>
        match http_schema rt net q sc st with
        | (Ok token, st') =>
            match py_getitem token (lit "token") with
            | Ok tk => (Ok true, authorized tk st')
            | Raise e => (Raise e, st')
            end
        | (Raise e, st') => (Raise e, st')
        end
    end.
Proof.
  intros q. unfold token_exchange. unfold bind at 1, get_state.
  unfold bind at 1, lift at 1.
  destruct (token_schema_expr rt) as [sc|e]; [|reflexivity].
  unfold bind at 1. fold q.
  destruct (http_schema rt net q sc st) as [[token|e] st']; [|reflexivity].
  unfold bind at 1, lift.
  destruct (py_getitem token (lit "token")); reflexivity.
Qed.

(** The token exchange logs nothing and either succeeds or raises; it
    issues its one request unless the schema expression raises. *)
Lemma token_exchange_effects rt net self st :
  let q := token_request self GIGYA_TOKEN_URL (PTuple [PList consent_id_list]) st in
  log (snd (token_exchange rt net self st)) = log st
  /\ fst (token_exchange rt net self st) <> Ok false
  /\ ((exists e, token_schema_expr rt = Raise e
                 /\ token_exchange rt net self st = (Raise e, st))
      \/ (token_schema_expr rt = Ok token_schema
          /\ trace (snd (token_exchange rt net self st)) = trace st ++ [q])).
Proof.
  intros q. rewrite token_exchange_run. fold q.
  destruct (token_schema_expr rt) as [sc|e] eqn:Hsc.
  2:{ repeat split; [discriminate|]. left. exists e. split; reflexivity. }
  apply token_schema_expr_ok in Hsc. destruct Hsc as (-> & _ & _).
  rewrite http_schema_run.
  destruct (net (trace st) q) as [r|e];
    [destruct (json_body r) as [v|];
      [destruct (validate rt token_schema v) as [v'|];
        [destruct (py_getitem v' (lit "token"))|]|]|];
    repeat split; try discriminate; right; split; reflexivity.
Qed.

Lemma login_run rt net self ptrt st su :
  attr_get "session_url" (inherited self) = Some su ->
  let q := session_request su ptrt in
  login rt net self ptrt st =
    match net (trace st) q with
    | NetRaise e => (Raise e, issued q st)
    | NetResp res0 =>
        match auth_check rt net self res0 (issued q st) with
        | (Ok true, st1) =>
            (Ok true,
             logged DEBUG
               (PStr (lit "Already authenticated, skipping authentication")) st1)
        | (Ok false, st1) =>
            match attr_get "auth_url" (inherited self) with
            | Some au =>
                let ql := login_request rt self au res0 GIGYA_API_KEY in
                match net (trace st1) ql with
                | NetRaise e => (Raise e, issued ql st1)
                | NetResp res1 => auth_check rt net self res1 (issued ql st1)
                end
            | None => (Raise (AttributeError "auth_url"), st1)
            end
        | (Raise e, st1) => (Raise e, st1)
        end
    end.
Proof.
  intros Hsu q. unfold login. unfold bind at 1.
  rewrite (getattr_inherited self "session_url" su) by (reflexivity || assumption).
  unfold bind at 1. rewrite http_run. fold q.
  destruct (net (trace st) q) as [res0|e]; [|reflexivity].
  unfold bind at 1.
  destruct (auth_check rt net self res0 (issued q st)) as [[[|]|e] st1];
    [reflexivity| |reflexivity].
  unfold bind at 1.
  destruct (attr_get "auth_url" (inherited self)) as [au|] eqn:Hau.
  - rewrite (getattr_inherited self "auth_url" au) by (reflexivity || assumption).
    unfold bind at 1.
    rewrite (getattr_class self "gigya_api_key" GIGYA_API_KEY) by reflexivity.
    unfold bind at 1. rewrite http_run.
    destruct (net (trace st1) (login_request rt self au res0 GIGYA_API_KEY));
      reflexivity.
  - rewrite getattr_undefined by (reflexivity || assumption). reflexivity.
Qed.

Lemma _get_streams_run rt net self st :
  truthy (username self) = true ->
  _get_streams rt net self st =
    match login rt net self (url self) st with
    | (Ok true, st1) =>
        match _get_channel rt (match_ self) with
        | Ok (channel, channel_id) =>
            let st2 :=
              logged DEBUG
                (PStr (lit "Found channel " ++ channel ++ lit " ("
                       ++ channel_id ++ lit ")")) st1 in
            match http_schema rt net (media_request rt URL_API channel_id st2)
                    media_schema st2 with
            | (Ok r, st3) =>
                match unpack2 r with
                | Ok (code, data) =>
                    if negb (py_eq_int code 200)
                    then (Ok NoStreams, logged ERROR data st3)
                    else (Ok (ParseVariantPlaylist data), st3)
                | Raise e => (Raise e, st3)
                end
            | (Raise e, st3) => (Raise e, st3)
            end
        | Raise e => (Raise e, st1)
        end
    | (Ok false, st1) => (Ok NoStreams, logged ERROR could_not_authenticate_msg st1)
    | (Raise e, st1) => (Raise e, st1)
    end.
Proof.
  intros Hu. unfold _get_streams. rewrite Hu.
  change (negb true) with false. cbv iota.
  unfold bind at 1.
  destruct (login rt net self (url self) st) as [[[|]|e] st1];
    [|reflexivity|reflexivity].
  change (negb true) with false. cbv iota. unfold bind at 1, lift at 1.
  destruct (_get_channel rt (match_ self)) as [[channel channel_id]|e];
    [|reflexivity].
  unfold bind at 1, log_at at 1, modify at 1.
  unfold bind at 1, _api_call. unfold bind at 1.
  rewrite (getattr_class self "_URL_API" URL_API) by reflexivity.
  unfold bind at 1, get_state.
  match goal with
  | |- context [http_schema rt net ?q media_schema ?s] =>
      destruct (http_schema rt net q media_schema s) as [[r|e] st3]
  end; [|reflexivity].
  unfold bind at 1, lift at 1.
  destruct (unpack2 r) as [[code data]|e]; [|reflexivity].
  destruct (negb (py_eq_int code 200)); reflexivity.
Qed.

Lemma http_schema_effects rt net q sc st :
  trace (snd (http_schema rt net q sc st)) = trace st ++ [q]
  /\ log (snd (http_schema rt net q sc st)) = log st.
Proof.
  rewrite http_schema_run.
  destruct (net (trace st) q) as [r|e];
    [destruct (json_body r) as [v|]; [destruct (validate rt sc v)|]|];
    split; reflexivity.
Qed.

Lemma py_getitem_raise v k e :
  py_getitem v k = Raise e -> e = TypeError \/ e = KeyError k.
Proof.
  destruct v; simpl; try (intros [= <-]; now left).
  destruct (dict_get k items); [discriminate|]. intros [= <-]. now right.
Qed.

(** With a 200 and a body that lacks a field of the assertion,
    [auth_check] raises before it issues or logs anything. *)
Lemma auth_check_unparseable rt net self res st :
  status_code res = 200 ->
  has_assertion_fields res = false ->
  exists e st',
    auth_check rt net self res st = (Raise e, st')
    /\ trace st' = trace st /\ log st' = log st
    /\ (e = JSONDecodeError \/ e = TypeError \/ exists k, e = KeyError k).
Proof.
  intros Hs Hf. unfold auth_check, has_assertion_fields, res_json in *.
  rewrite Hs. change (200 =? 200) with true. cbv iota.
  cbv [bind lift set_user_signature set_user_uid modify].
  destruct (json_body res) as [j|].
  - destruct (py_getitem j (lit "userSignature")) as [sig|e] eqn:E1.
    + destruct (py_getitem j (lit "UID")) as [uid|e] eqn:E2.
      * destruct (py_getitem j (lit "timestamp")) as [ts|e] eqn:E3;
          [discriminate|].
        apply py_getitem_raise in E3. do 2 eexists.
        split; [reflexivity|]. repeat split.
        destruct E3 as [->| ->]; eauto.
      * apply py_getitem_raise in E2. do 2 eexists.
        split; [reflexivity|]. repeat split.
        destruct E2 as [->| ->]; eauto.
    + apply py_getitem_raise in E1. do 2 eexists.
      split; [reflexivity|]. repeat split.
      destruct E1 as [->| ->]; eauto.
  - do 2 eexists. split; [reflexivity|]. repeat split. auto.
Qed.

(** C2: the class body (tf1.py, lines 50-59) defines no [session_url];
    unless the base class provides one, a resolution with a username stops
    in [login] at [self.session_url] with an [AttributeError], before any
    request is issued: the session request is never made. *)
Theorem session_url_is_not_defined rt net self st :
  truthy (username self) = true ->
  attr_get "session_url" (inherited self) = None ->
  attr_get "session_url" TF1_class = None
  /\ _get_streams rt net self st = (Raise (AttributeError "session_url"), st).
Proof.
  intros Hu Hn. split; [reflexivity|].
  rewrite _get_streams_run by assumption.
  unfold login. unfold bind at 1.
  rewrite getattr_undefined by (reflexivity || assumption). reflexivity.
Qed.

Lemma session_url_is_not_defined_witness :
  _get_streams ascii_runtime (net_authenticated (geo_blocked 403))
    (tf1_self (Some (lit "user")) (Some (lit "secret")) []) initial
  = (Raise (AttributeError "session_url"), initial).
Proof.
  apply (session_url_is_not_defined ascii_runtime); reflexivity.
Defined.

(** ** Which requests a computation can add *)

Lemma appends_ret {A : Type} P (a : A) : appends P (ret a).
Proof. intros st. exists []. simpl. rewrite app_nil_r. auto. Qed.

Lemma appends_lift {A : Type} P (r : result A) : appends P (lift r).
Proof. intros st. exists []. simpl. rewrite app_nil_r. auto. Qed.

Lemma appends_get_state P : appends P get_state.
Proof. intros st. exists []. simpl. rewrite app_nil_r. auto. Qed.

Lemma appends_modify P f :
  (forall st, trace (f st) = trace st) -> appends P (modify f).
Proof. intros H st. exists []. simpl. rewrite H, app_nil_r. auto. Qed.

Lemma appends_bind {A B : Type} P (m : M A) (f : A -> M B) :
  appends P m -> (forall a, appends P (f a)) -> appends P (bind m f).
Proof.
  intros Hm Hf st. unfold bind. destruct (Hm st) as (r1 & E1 & F1).
  destruct (m st) as [[a|e] st1]; simpl in E1.
  - destruct (Hf a st1) as (r2 & E2 & F2). exists (r1 ++ r2).
    rewrite E2, E1, app_assoc. split; [reflexivity|].
    apply Forall_app; auto.
  - exists r1. auto.
Qed.

Lemma appends_getattr P self name : appends P (getattr self name).
Proof.
  unfold getattr. destruct (attr_get name TF1_class);
    [apply appends_ret|].
  destruct (attr_get name (inherited self));
    [apply appends_ret|apply appends_lift].
Qed.

Lemma appends_http (P : request -> Prop) net q : P q -> appends P (http net q).
Proof.
  intros Hq st. exists [q]. rewrite http_run.
  destruct (net (trace st) q); simpl; auto.
Qed.

Lemma appends_http_schema (P : request -> Prop) rt net q sc :
  P q -> appends P (http_schema rt net q sc).
Proof.
  intros Hq st. exists [q]. split; [apply http_schema_effects|auto].
Qed.

Ltac appends_step :=
  lazymatch goal with
  | |- appends _ (http_schema _ _ _ _) =>
      apply appends_http_schema; reflexivity
  | |- appends _ (http _ _) => apply appends_http; reflexivity
  | |- appends _ (bind _ _) => apply appends_bind; [|intro]
  | |- appends _ (ret _) => apply appends_ret
  | |- appends _ (lift _) => apply appends_lift
  | |- appends _ get_state => apply appends_get_state
  | |- appends _ (getattr _ _) => apply appends_getattr
  | |- appends _ (modify _) => apply appends_modify; intro; reflexivity
  end.

(** [auth_check] never issues the credential login. *)
Lemma auth_check_appends rt net self res :
  appends not_login (auth_check rt net self res).
Proof.
  unfold auth_check. destruct (status_code res =? 200); [|apply appends_ret].
  unfold set_user_signature, set_user_uid, set_user_timestamp, set_user_token.
  repeat appends_step.
Qed.

Lemma never_false_bind {A : Type} (m : M A) (f : A -> M bool) :
  (forall a, never_false (f a)) -> never_false (bind m f).
Proof.
  intros Hf st. unfold bind. destruct (m st) as [[a|e] st1];
    [apply Hf|discriminate].
Qed.

Lemma never_false_ret_true : never_false (ret true).
Proof. intros st. discriminate. Qed.

(** [auth_check] returns [False] only for a status other than 200. *)
Lemma auth_check_false rt net self res st :
  fst (auth_check rt net self res st) = Ok false -> status_code res <> 200.
Proof.
  unfold auth_check. destruct (Z.eqb_spec (status_code res) 200) as [E|E];
    [|intros _; exact E].
  intros H. exfalso. revert H.
  repeat (apply never_false_bind; intro). apply never_false_ret_true.
Qed.

(** After [login], [_get_streams] adds at most the media-info call. *)
Lemma get_streams_after_login rt net self st :
  truthy (username self) = true ->
  exists rest,
    trace (snd (_get_streams rt net self st))
    = trace (snd (login rt net self (url self) st)) ++ rest
    /\ Forall not_login rest.
Proof.
  intros Hu. rewrite _get_streams_run by assumption.
  destruct (login rt net self (url self) st) as [[[|]|e] st1]; cbn [snd];
    [|exists []; rewrite app_nil_r; auto..].
  destruct (_get_channel rt (match_ self)) as [[channel channel_id]|e];
    [|exists []; cbn [snd]; rewrite app_nil_r; auto].
  cbv zeta.
  match goal with
  | |- context [http_schema rt net ?q media_schema ?s] =>
      pose proof (http_schema_effects rt net q media_schema s) as [HM _];
      destruct (http_schema rt net q media_schema s) as [[r|e] st3];
      exists [q]
  end; cbn [snd] in HM |- *.
  - destruct (unpack2 r) as [[code data]|e];
      [destruct (negb (py_eq_int code 200))|]; cbn [snd];
      (split; [exact HM|repeat constructor]).
  - split; [exact HM|repeat constructor].
Qed.

(** The requests of [login]: nothing; or the session request and then no
    credential login; or the session request, answered with a status other
    than 200, then the credential login, then no other credential login. *)
Lemma login_shapes rt net self ptrt st :
  let L := login rt net self ptrt st in
  (attr_get "session_url" (inherited self) = None /\ trace (snd L) = trace st)
  \/ (exists su rest,
        attr_get "session_url" (inherited self) = Some su /\
        trace (snd L) = trace st ++ session_request su ptrt :: rest
        /\ Forall not_login rest)
  \/ (exists su au res0 rest,
        attr_get "session_url" (inherited self) = Some su
        /\ attr_get "auth_url" (inherited self) = Some au
        /\ net (trace st) (session_request su ptrt) = NetResp res0
        /\ status_code res0 <> 200
        /\ trace (snd L)
           = trace st ++ session_request su ptrt
               :: login_request rt self au res0 GIGYA_API_KEY :: rest
        /\ Forall not_login rest).
Proof.
  intros L. subst L.
  destruct (attr_get "session_url" (inherited self)) as [su|] eqn:Hsu.
  2:{ left. split; [reflexivity|]. unfold login. unfold bind at 1.
      rewrite getattr_undefined by (reflexivity || assumption). reflexivity. }
  rewrite (login_run rt net self ptrt st su Hsu). cbv zeta.
  set (q0 := session_request su ptrt).
  destruct (net (trace st) q0) as [res0|e] eqn:Hn0.
  2:{ right; left. exists su, []. repeat split. constructor. }
  destruct (Z.eq_dec (status_code res0) 200) as [Hs|Hs].
  - pose proof (auth_check_appends rt net self res0 (issued q0 st))
      as (r0 & E0 & F0).
    pose proof (auth_check_false rt net self res0 (issued q0 st)) as Hfalse.
    right; left. exists su, r0. split; [reflexivity|]. split; [|exact F0].
    destruct (auth_check rt net self res0 (issued q0 st)) as [[[|]|e] st1];
      cbn [fst snd] in E0, Hfalse |- *.
    + change (trace (logged DEBUG _ st1)) with (trace st1). rewrite E0.
      cbn [trace issued]. rewrite <- app_assoc. reflexivity.
    + exfalso. apply Hfalse; [reflexivity|exact Hs].
    + rewrite E0. cbn [trace issued]. rewrite <- app_assoc. reflexivity.
  - rewrite auth_check_other_status by assumption.
    destruct (attr_get "auth_url" (inherited self)) as [au|] eqn:Hau.
    2:{ right; left. exists su, []. repeat split. constructor. }
    cbv zeta. set (q1 := login_request rt self au res0 GIGYA_API_KEY).
    right; right. exists su, au, res0.
    destruct (net (trace (issued q0 st)) q1) as [res1|e].
    + pose proof (auth_check_appends rt net self res1 (issued q1 (issued q0 st)))
        as (r1 & E1 & F1).
      exists r1. repeat (split; [assumption || reflexivity|]).
      split; [|exact F1]. rewrite E1. cbn [trace issued].
      rewrite <- !app_assoc. reflexivity.
    + exists []. repeat (split; [assumption || reflexivity|]).
      split; [|constructor]. cbn [snd trace issued].
      rewrite <- !app_assoc. reflexivity.
Qed.

(** Where the base class does provide [session_url], the session request,
    with the page URL as [ptrt], is the first request of a resolution. *)
Lemma session_request_comes_first rt net self su :
  truthy (username self) = true ->
  attr_get "session_url" (inherited self) = Some su ->
  exists rest,
    trace (snd (_get_streams rt net self initial))
    = session_request su (url self) :: rest
    /\ params (session_request su (url self))
       = PDict [(lit "ptrt", PStr (url self))].
Proof.
  intros Hu Hsu.
  destruct (get_streams_after_login rt net self initial Hu) as (rest & E & _).
  destruct (login_shapes rt net self (url self) initial)
    as [[N _]|[(su' & r & Hsu' & L & _)
              |(su' & au & res0 & r & Hsu' & _ & _ & _ & L & _)]];
    [congruence| |]; rewrite L in E; rewrite E;
    assert (su' = su) as -> by congruence; cbn [trace initial app];
    eexists; split; reflexivity.
Qed.

(** ** The claims about the login flow *)

(** Where the [validate] module defines [text] and [integer], a session
    answer with a 200 and a parseable assertion is followed by the token
    request, and no request of the resolution is the credential login. *)
Lemma token_exchange_follows_session rt net self su res j sig uid ts z :
  truthy (username self) = true ->
  attr_get "session_url" (inherited self) = Some su ->
  net [] (session_request su (url self)) = NetResp res ->
  status_code res = 200 ->
  json_body res = Some j ->
  py_getitem j (lit "userSignature") = Ok sig ->
  py_getitem j (lit "UID") = Ok uid ->
  py_getitem j (lit "timestamp") = Ok ts ->
  py_int rt ts = Ok z ->
  validate_defines rt "text" = true ->
  validate_defines rt "integer" = true ->
  let q0 := session_request su (url self) in
  let qt := token_request self GIGYA_TOKEN_URL (PTuple [PList consent_id_list])
              (asserted sig uid z (issued q0 initial)) in
  exists rest,
    trace (snd (_get_streams rt net self initial)) = q0 :: qt :: rest
    /\ Forall not_login (trace (snd (_get_streams rt net self initial))).
Proof.
  intros Hu Hsu Hnet Hs Hj Hsig Huid Hts Hz Hvt Hvi q0 qt.
  rewrite _get_streams_run by assumption.
  rewrite (login_run rt net self (url self) initial su Hsu). cbv zeta.
  change (trace initial) with (@nil request). rewrite Hnet. fold q0.
  rewrite (auth_check_asserted rt net self res _ j sig uid ts z) by assumption.
  pose proof (token_exchange_effects rt net self
                (asserted sig uid z (issued q0 initial))) as HT.
  cbv zeta in HT. fold qt in HT. destruct HT as (_ & HTr & HTt).
  destruct HTt as [(e & He & _)|[_ HTt]];
    [rewrite token_schema_expr_defined in He by assumption; discriminate|].
  destruct (token_exchange rt net self (asserted sig uid z (issued q0 initial)))
    as [[[|]|e] stT]; simpl in HTt, HTr; [|congruence|].
  - destruct (_get_channel rt (match_ self)) as [[channel channel_id]|e].
    + cbv zeta.
      match goal with
      | |- context [http_schema rt net ?q media_schema ?s] =>
          pose proof (http_schema_effects rt net q media_schema s) as [HM _];
          destruct (http_schema rt net q media_schema s) as [[r|e] st3]
      end; simpl in HM.
      * assert (trace (snd
                  match unpack2 r with
                  | Ok (code, data) =>
                      if negb (py_eq_int code 200)
                      then (Ok NoStreams, logged ERROR data st3)
                      else (Ok (ParseVariantPlaylist data), st3)
                  | Raise e => (Raise e, st3)
                  end) = trace st3) as ->.
        { destruct (unpack2 r) as [[code data]|e]; [|reflexivity].
          destruct (negb (py_eq_int code 200)); reflexivity. }
        rewrite HM, HTt. eexists. split; [reflexivity|].
        repeat constructor.
      * cbn [snd]. rewrite HM, HTt. eexists. split; [reflexivity|].
        repeat constructor.
    + simpl. rewrite HTt. exists []. split; [reflexivity|]. repeat constructor.
  - simpl. rewrite HTt. exists []. split; [reflexivity|]. repeat constructor.
Qed.

(** C4: with the [validate] module of the repository, which defines
    [text] and no [integer], a session answer with a 200 and a parseable
    assertion does not lead to the token exchange: [auth_check] assigns the
    three fields and then raises [AttributeError] at [validate.integer]
    (tf1.py, line 145) while the arguments of the token request are built.
    The session request is the only request of the resolution: neither the
    credential login nor the token request is issued. *)
Theorem token_exchange_is_not_reached rt net self su res j sig uid ts z :
  truthy (username self) = true ->
  attr_get "session_url" (inherited self) = Some su ->
  net [] (session_request su (url self)) = NetResp res ->
  status_code res = 200 ->
  json_body res = Some j ->
  py_getitem j (lit "userSignature") = Ok sig ->
  py_getitem j (lit "UID") = Ok uid ->
  py_getitem j (lit "timestamp") = Ok ts ->
  py_int rt ts = Ok z ->
  validate_defines rt "text" = true ->
  validate_defines rt "integer" = false ->
  let q0 := session_request su (url self) in
  _get_streams rt net self initial
  = (Raise (AttributeError "integer"), asserted sig uid z (issued q0 initial))
  /\ trace (snd (_get_streams rt net self initial)) = [q0]
  /\ log (snd (_get_streams rt net self initial)) = [].
Proof.
  intros Hu Hsu Hnet Hs Hj Hsig Huid Hts Hz Hvt Hvi q0.
  assert (_get_streams rt net self initial
          = (Raise (AttributeError "integer"),
             asserted sig uid z (issued q0 initial))) as E.
  { rewrite _get_streams_run by assumption.
    rewrite (login_run rt net self (url self) initial su Hsu). cbv zeta.
    change (trace initial) with (@nil request). rewrite Hnet. fold q0.
    rewrite (auth_check_asserted rt net self res _ j sig uid ts z)
      by assumption.
    rewrite token_exchange_run. cbv zeta.
    rewrite token_schema_expr_no_integer by assumption. reflexivity. }
  rewrite E. repeat split.
Qed.

Lemma token_exchange_is_not_reached_witness :
  let self := tf1_self (Some (lit "user")) (Some (lit "secret")) with_endpoints in
  _get_streams installed_runtime (net_authenticated hls_delivery) self initial
  = (Raise (AttributeError "integer"),
     asserted (PStr (lit "c2ln")) (PStr (lit "u-1")) 1700000000
       (issued (session_request (lit "https://www.tf1.fr/session") tf1_direct)
               initial)).
Proof.
  intros self.
  refine (proj1 (token_exchange_is_not_reached installed_runtime
            (net_authenticated hls_delivery) self
            (lit "https://www.tf1.fr/session")
            {| status_code := 200; resp_url := lit "https://www.tf1.fr/";
               json_body := Some assertion_body_int |}
            assertion_body_int (PStr (lit "c2ln")) (PStr (lit "u-1"))
            (PInt 1700000000) 1700000000
            eq_refl eq_refl eq_refl eq_refl eq_refl eq_refl eq_refl eq_refl
            eq_refl eq_refl eq_refl)).
Defined.

(** The run in which the session request and then the credential login
    are answered with a status other than 200. *)
Lemma rejected_login_run rt net self su au res0 res1 :
  truthy (username self) = true ->
  attr_get "session_url" (inherited self) = Some su ->
  attr_get "auth_url" (inherited self) = Some au ->
  let q0 := session_request su (url self) in
  let q1 := login_request rt self au res0 GIGYA_API_KEY in
  net [] q0 = NetResp res0 ->
  status_code res0 <> 200 ->
  net [q0] q1 = NetResp res1 ->
  status_code res1 <> 200 ->
  _get_streams rt net self initial
  = (Ok NoStreams,
     logged ERROR could_not_authenticate_msg (issued q1 (issued q0 initial))).
Proof.
  intros Hu Hsu Hau q0 q1 Hn0 Hs0 Hn1 Hs1.
  rewrite _get_streams_run by assumption.
  rewrite (login_run rt net self (url self) initial su Hsu). cbv zeta.
  change (trace initial) with (@nil request). fold q0. rewrite Hn0.
  rewrite auth_check_other_status by assumption.
  rewrite Hau. fold q1. change (trace (issued q0 initial)) with [q0].
  rewrite Hn1. rewrite auth_check_other_status by assumption. reflexivity.
Qed.

Lemma get_streams_no_username rt net self st :
  truthy (username self) = false ->
  _get_streams rt net self st
  = (Ok NoStreams, logged ERROR missing_credentials_msg st).
Proof. intros Hu. unfold _get_streams. rewrite Hu. reflexivity. Qed.

Lemma split_at_login (pre post xs : list request) (q a b : request) :
  Forall not_login xs -> is_login q = true -> not_login a ->
  pre ++ q :: post = a :: b :: xs ->
  pre = [a] /\ q = b /\ post = xs.
Proof.
  intros Hxs Hq Ha E. destruct pre as [|x [|y pre]]; simpl in E.
  - injection E as -> _. unfold not_login in Ha. congruence.
  - injection E as -> -> ->. auto.
  - injection E as _ _ E. subst xs. apply Forall_app in Hxs.
    destruct Hxs as [_ Hxs]. inversion Hxs as [|? ? Hn _]; subst.
    unfold not_login in Hn. congruence.
Qed.

Lemma no_login_in (pre post xs : list request) (q : request) :
  Forall not_login xs -> is_login q = true -> pre ++ q :: post <> xs.
Proof.
  intros Hxs Hq E. subst xs. apply Forall_app in Hxs. destruct Hxs as [_ Hxs].
  inversion Hxs as [|? ? Hn _]; subst. unfold not_login in Hn. congruence.
Qed.

(** Where the credential login stands in the trace of a resolution, and
    what led to it. *)
Lemma login_request_position rt net self pre q post :
  trace (snd (_get_streams rt net self initial)) = pre ++ q :: post ->
  is_login q = true ->
  exists su au res0,
    truthy (username self) = true
    /\ attr_get "session_url" (inherited self) = Some su
    /\ attr_get "auth_url" (inherited self) = Some au
    /\ net [] (session_request su (url self)) = NetResp res0
    /\ status_code res0 <> 200
    /\ pre = [session_request su (url self)]
    /\ q = login_request rt self au res0 GIGYA_API_KEY.
Proof.
  intros Ht Hq.
  destruct (truthy (username self)) eqn:Hu.
  2:{ rewrite get_streams_no_username in Ht by assumption.
      destruct pre; discriminate. }
  destruct (get_streams_after_login rt net self initial Hu) as (rest & E & F).
  destruct (login_shapes rt net self (url self) initial)
    as [[_ L]|[(su & r & _ & L & FL)
               |(su & au & res0 & r & Hsu & Hau & Hn0 & Hs0 & L & FL)]];
    rewrite L in E; rewrite E in Ht; cbn [trace initial app] in Ht.
  - exfalso. symmetry in Ht. revert Ht. apply no_login_in; assumption.
  - exfalso. symmetry in Ht. revert Ht. apply no_login_in; [|assumption].
    constructor; [reflexivity|]. apply Forall_app; auto.
  - symmetry in Ht. apply split_at_login in Ht;
      [|apply Forall_app; auto|assumption|reflexivity].
    destruct Ht as (-> & -> & _).
    exists su, au, res0. repeat split; assumption.
Qed.

(** The run in which the session request is answered with a status other
    than 200 and the credential login is not answered. *)
Lemma failed_login_run rt net self su au res0 e :
  truthy (username self) = true ->
  attr_get "session_url" (inherited self) = Some su ->
  attr_get "auth_url" (inherited self) = Some au ->
  let q0 := session_request su (url self) in
  let q1 := login_request rt self au res0 GIGYA_API_KEY in
  net [] q0 = NetResp res0 ->
  status_code res0 <> 200 ->
  net [q0] q1 = NetRaise e ->
  _get_streams rt net self initial = (Raise e, issued q1 (issued q0 initial)).
Proof.
  intros Hu Hsu Hau q0 q1 Hn0 Hs0 Hn1.
  rewrite _get_streams_run by assumption.
  rewrite (login_run rt net self (url self) initial su Hsu). cbv zeta.
  change (trace initial) with (@nil request). fold q0. rewrite Hn0.
  rewrite auth_check_other_status by assumption.
  rewrite Hau. fold q1. change (trace (issued q0 initial)) with [q0].
  rewrite Hn1. reflexivity.
Qed.

(** When the session hands back the answer to the credential login and
    its status is not 200, [_get_streams] returns no streams and logs
    "Could not authenticate, check your username and password."; the login
    is the last request and only the session request precedes it. *)
Lemma login_answer_handed_back rt net self pre q post res1 :
  trace (snd (_get_streams rt net self initial)) = pre ++ q :: post ->
  is_login q = true ->
  net pre q = NetResp res1 ->
  status_code res1 <> 200 ->
  fst (_get_streams rt net self initial) = Ok NoStreams
  /\ log (snd (_get_streams rt net self initial))
     = [(ERROR, could_not_authenticate_msg)]
  /\ post = []
  /\ exists su, pre = [session_request su (url self)].
Proof.
  intros Ht Hq Hn Hs.
  destruct (login_request_position rt net self pre q post Ht Hq)
    as (su & au & res0 & Hu & Hsu & Hau & Hn0 & Hs0 & -> & ->).
  pose proof (rejected_login_run rt net self su au res0 res1 Hu Hsu Hau
                Hn0 Hs0 Hn Hs) as R.
  rewrite R in Ht |- *. cbn [fst snd trace log issued logged initial app] in *.
  repeat split; [|eauto].
  injection Ht as Ht. destruct post; [reflexivity|discriminate].
Qed.

(** C5: when the provider answers the credential login with a status
    other than 200, the login is the last request of the resolution, after
    the session request alone, so the media-info call is never made.  The
    failure is reported as "Could not authenticate, check your username
    and password." only for a status that the HTTP session hands back;
    for a 4xx or 5xx status the session raises, the [PluginError] ends the
    resolution and nothing is logged. *)
Theorem login_answer_other_than_200 rt srv self pre q post res1 :
  let run := _get_streams rt (session_of srv) self initial in
  trace (snd run) = pre ++ q :: post ->
  is_login q = true ->
  srv pre q = Answered res1 ->
  status_code res1 <> 200 ->
  post = []
  /\ (exists su, pre = [session_request su (url self)])
  /\ (error_status (status_code res1) = false ->
      fst run = Ok NoStreams
      /\ log (snd run) = [(ERROR, could_not_authenticate_msg)])
  /\ (error_status (status_code res1) = true ->
      fst run = Raise (PluginError "Unable to open URL")
      /\ log (snd run) = []).
Proof.
  intros run Ht Hq Hsrv Hs. subst run.
  destruct (error_status (status_code res1)) eqn:He.
  - destruct (login_request_position rt (session_of srv) self pre q post Ht Hq)
      as (su & au & res0 & Hu & Hsu & Hau & Hn0 & Hs0 & -> & ->).
    assert (session_of srv [session_request su (url self)]
              (login_request rt self au res0 GIGYA_API_KEY)
            = NetRaise (PluginError "Unable to open URL")) as Hn1.
    { unfold session_of. rewrite Hsrv, He. reflexivity. }
    pose proof (failed_login_run rt (session_of srv) self su au res0 _
                  Hu Hsu Hau Hn0 Hs0 Hn1) as R.
    rewrite R in Ht |- *. cbn [fst snd trace log issued initial app] in *.
    injection Ht as Ht. symmetry in Ht.
    repeat split; try discriminate; eauto.
  - assert (session_of srv pre q = NetResp res1) as Hn.
    { unfold session_of. rewrite Hsrv, He. reflexivity. }
    destruct (login_answer_handed_back rt (session_of srv) self pre q post res1
                Ht Hq Hn Hs) as (H1 & H2 & H3 & H4).
    repeat split; try assumption; discriminate.
Qed.

Lemma login_answer_other_than_200_witness :
  let self := tf1_self (Some (lit "user")) (Some (lit "wrong")) with_endpoints in
  fst (_get_streams ascii_runtime (session_of (login_answered 403)) self initial)
  = Raise (PluginError "Unable to open URL")
  /\ log (snd (_get_streams ascii_runtime (session_of (login_answered 403))
                 self initial)) = []
  /\ fst (_get_streams ascii_runtime (session_of (login_answered 204)) self initial)
     = Ok NoStreams.
Proof.
  intros self.
  pose (res0 := {| status_code := 204; resp_url := lit "https://www.tf1.fr/";
                   json_body := None |}).
  pose (q0 := session_request (lit "https://www.tf1.fr/session") tf1_direct).
  pose (q1 := login_request ascii_runtime self
                (lit "https://compte.tf1.fr/accounts.login") res0 GIGYA_API_KEY).
  destruct (login_answer_other_than_200 ascii_runtime (login_answered 403) self
              [q0] q1 []
              {| status_code := 403; resp_url := lit "https://www.tf1.fr/";
                 json_body := None |})
    as (_ & _ & _ & H403); [reflexivity..|discriminate|].
  destruct (login_answer_other_than_200 ascii_runtime (login_answered 204) self
              [q0] q1 []
              {| status_code := 204; resp_url := lit "https://www.tf1.fr/";
                 json_body := None |})
    as (_ & _ & H204 & _); [reflexivity..|discriminate|].
  destruct (H403 eq_refl) as [A B]. destruct (H204 eq_refl) as [C _].
  repeat split; assumption.
Defined.

(** C6, as amended: when the username option is absent or empty,
    [_get_streams] logs the missing-credentials error and returns no
    streams without issuing a request.  The password option is not looked
    at before [login]. *)
Theorem missing_username_stops rt net self st :
  truthy (username self) = false ->
  _get_streams rt net self st
  = (Ok NoStreams, logged ERROR missing_credentials_msg st)
  /\ trace (snd (_get_streams rt net self st)) = trace st.
Proof.
  intros Hu. rewrite get_streams_no_username by assumption. split; reflexivity.
Qed.

Lemma missing_username_stops_witness :
  _get_streams ascii_runtime net_rejected
    (tf1_self None (Some (lit "secret")) with_endpoints) initial
  = (Ok NoStreams, logged ERROR missing_credentials_msg initial)
  /\ _get_streams ascii_runtime net_rejected
       (tf1_self (Some (lit "")) None with_endpoints) initial
     = (Ok NoStreams, logged ERROR missing_credentials_msg initial).
Proof.
  split.
  - exact (proj1 (missing_username_stops ascii_runtime net_rejected
                    (tf1_self None (Some (lit "secret")) with_endpoints)
                    initial eq_refl)).
  - exact (proj1 (missing_username_stops ascii_runtime net_rejected
                    (tf1_self (Some (lit "")) None with_endpoints)
                    initial eq_refl)).
Defined.

(** C6, as stated, fails: with a username and no password, no
    missing-credentials error is logged.  With the class as written the run
    stops at [self.session_url]; where the base class provides the two
    endpoints, the session request and a credential login whose [password]
    is [None] are issued. *)
Lemma absent_password_is_not_reported :
  let asis := tf1_self (Some (lit "user")) None [] in
  let self := tf1_self (Some (lit "user")) None with_endpoints in
  let run := _get_streams ascii_runtime net_rejected self initial in
  password self = None
  /\ _get_streams ascii_runtime net_rejected asis initial
     = (Raise (AttributeError "session_url"), initial)
  /\ (exists q0 q1,
        trace (snd run) = [q0; q1] /\ is_login q1 = true
        /\ py_getitem (data q1) (lit "password") = Ok PNone)
  /\ ~ In (ERROR, missing_credentials_msg) (log (snd run)).
Proof.
  cbv zeta. split; [reflexivity|]. split; [reflexivity|]. split.
  - do 2 eexists. split; [vm_compute; reflexivity|]. split; reflexivity.
  - vm_compute. intros [H|[]]. discriminate H.
Qed.

(** ** The token exchange *)

(** What the token schema accepts: a dict that holds the four fields, each
    of its type; the validated value holds exactly these four. *)
Lemma token_schema_accepts rt v v' :
  validate rt token_schema v = Some v' ->
  exists d t r n ty,
    v = PDict d
    /\ dict_get (lit "token") d = Some (PStr t)
    /\ dict_get (lit "refresh_token") d = Some (PStr r)
    /\ dict_get (lit "ttl") d = Some n /\ isinstance n TInt = true
    /\ dict_get (lit "type") d = Some (PStr ty)
    /\ v' = PDict [(lit "token", PStr t); (lit "refresh_token", PStr r);
                   (lit "ttl", n); (lit "type", PStr ty)].
Proof.
  unfold token_schema, validate_text, validate_integer. simpl.
  destruct v as [| | | | | | |d]; try discriminate.
  destruct (dict_get (lit "token") d) as [[]|] eqn:E1; simpl;
    try discriminate.
  destruct (dict_get (lit "refresh_token") d) as [[]|] eqn:E2; simpl;
    try discriminate.
  destruct (dict_get (lit "ttl") d) as [[]|] eqn:E3; simpl; try discriminate.
  all: destruct (dict_get (lit "type") d) as [[]|] eqn:E4; simpl;
    try discriminate.
  all: intros [= <-]; do 5 eexists; repeat split; try eassumption; reflexivity.
Qed.

Lemma token_schema_missing_ttl rt d :
  dict_get (lit "ttl") d = None -> validate rt token_schema (PDict d) = None.
Proof.
  intros H. destruct (validate rt token_schema (PDict d)) as [v'|] eqn:E;
    [|reflexivity].
  apply token_schema_accepts in E.
  destruct E as (d' & t & r & n & ty & [= <-] & _ & _ & Hn & _). congruence.
Qed.

(** C7: the token schema accepts a body only if it is a dict holding
    [token], [refresh_token] and [type] as strings and [ttl] as an integer.
    When the body of the token response is a dict without [ttl], the
    validation fails and [auth_check] raises; where the [validate] module
    defines [text] and [integer], so that the request is issued, it raises
    the [PluginError] of a failed validation; and [user_token] keeps the
    value it had. *)
Theorem token_response_requires_ttl rt net self res st j sig uid ts z res2 d :
  status_code res = 200 ->
  json_body res = Some j ->
  py_getitem j (lit "userSignature") = Ok sig ->
  py_getitem j (lit "UID") = Ok uid ->
  py_getitem j (lit "timestamp") = Ok ts ->
  py_int rt ts = Ok z ->
  let st1 := asserted sig uid z st in
  let qt := token_request self GIGYA_TOKEN_URL (PTuple [PList consent_id_list]) st1 in
  net (trace st1) qt = NetResp res2 ->
  json_body res2 = Some (PDict d) ->
  dict_get (lit "ttl") d = None ->
  validate rt token_schema (PDict d) = None
  /\ (validate_defines rt "text" = true ->
      validate_defines rt "integer" = true ->
      auth_check rt net self res st
      = (Raise (PluginError "Unable to validate response text"), issued qt st1))
  /\ (exists e, fst (auth_check rt net self res st) = Raise e)
  /\ user_token (snd (auth_check rt net self res st)) = user_token st
  /\ (forall v v', validate rt token_schema v = Some v' ->
        exists d' t r n ty,
          v = PDict d'
          /\ dict_get (lit "token") d' = Some (PStr t)
          /\ dict_get (lit "refresh_token") d' = Some (PStr r)
          /\ dict_get (lit "ttl") d' = Some n /\ isinstance n TInt = true
          /\ dict_get (lit "type") d' = Some (PStr ty)).
Proof.
  intros Hs Hj Hsig Huid Hts Hz st1 qt Hn Hb Httl.
  pose proof (token_schema_missing_ttl rt d Httl) as Hv.
  assert (auth_check rt net self res st
          = match token_schema_expr rt with
            | Ok _ => (Raise (PluginError "Unable to validate response text"),
                       issued qt st1)
            | Raise e => (Raise e, st1)
            end) as E.
  { rewrite (auth_check_asserted rt net self res st j sig uid ts z)
      by assumption.
    rewrite token_exchange_run. cbv zeta. fold st1. fold qt.
    destruct (token_schema_expr rt) as [sc|e] eqn:Hsc; [|reflexivity].
    apply token_schema_expr_ok in Hsc. destruct Hsc as (-> & _ & _).
    rewrite http_schema_run, Hn, Hb, Hv. reflexivity. }
  split; [exact Hv|]. split; [|split; [|split]].
  - intros Hvt Hvi. rewrite E.
    rewrite token_schema_expr_defined by assumption. reflexivity.
  - rewrite E. destruct (token_schema_expr rt); eexists; reflexivity.
  - rewrite E. destruct (token_schema_expr rt); reflexivity.
  - intros v v' H. apply token_schema_accepts in H.
    destruct H as (d' & t & r & n & ty & H1 & H2 & H3 & H4 & H5 & H6 & _).
    exists d', t, r, n, ty. repeat split; assumption.
Qed.

Lemma token_response_requires_ttl_witness :
  let self := tf1_self (Some (lit "user")) (Some (lit "secret")) with_endpoints in
  let res := {| status_code := 200; resp_url := lit "https://www.tf1.fr/";
                json_body := Some assertion_body_int |} in
  fst (auth_check ascii_runtime net_no_ttl self res initial)
  = Raise (PluginError "Unable to validate response text")
  /\ user_token (snd (auth_check ascii_runtime net_no_ttl self res initial))
     = PStr (lit "").
Proof.
  intros self res.
  destruct (token_response_requires_ttl ascii_runtime net_no_ttl self res initial
              assertion_body_int (PStr (lit "c2ln")) (PStr (lit "u-1"))
              (PInt 1700000000) 1700000000
              {| status_code := 200; resp_url := lit "https://www.tf1.fr/";
                 json_body := Some token_body_no_ttl |}
              [(lit "token", PStr (lit "tok"));
               (lit "refresh_token", PStr (lit "ref"));
               (lit "type", PStr (lit "Bearer"))])
    as (_ & E & _ & T & _); try reflexivity.
  split; [rewrite E; reflexivity|exact T].
Defined.

(** C10: when the session request is answered with a 200 whose body is
    not JSON or lacks [userSignature], [UID] or [timestamp], the resolution
    ends with the exception that [auth_check] raises on the body; the
    session request is its only request, so there is no fall back to the
    credential login, and nothing is logged. *)
Theorem unparseable_session_aborts rt net self su res :
  truthy (username self) = true ->
  attr_get "session_url" (inherited self) = Some su ->
  net [] (session_request su (url self)) = NetResp res ->
  status_code res = 200 ->
  has_assertion_fields res = false ->
  exists e st',
    _get_streams rt net self initial = (Raise e, st')
    /\ auth_check rt net self res (issued (session_request su (url self)) initial)
       = (Raise e, st')
    /\ trace st' = [session_request su (url self)]
    /\ Forall not_login (trace st')
    /\ log st' = []
    /\ (e = JSONDecodeError \/ e = TypeError \/ exists k, e = KeyError k).
Proof.
  intros Hu Hsu Hn Hs Hf.
  destruct (auth_check_unparseable rt net self res
              (issued (session_request su (url self)) initial) Hs Hf)
    as (e & st' & E & Ht & Hl & He).
  exists e, st'. rewrite _get_streams_run by assumption.
  rewrite (login_run rt net self (url self) initial su Hsu). cbv zeta.
  change (trace initial) with (@nil request). rewrite Hn, E.
  repeat split; try assumption. rewrite Ht. repeat constructor.
Qed.

Lemma unparseable_session_aborts_witness :
  let self := tf1_self (Some (lit "user")) (Some (lit "secret")) with_endpoints in
  exists e st',
    _get_streams ascii_runtime net_empty_session self initial = (Raise e, st')
    /\ trace st' = [session_request (lit "https://www.tf1.fr/session") tf1_direct].
Proof.
  intros self.
  destruct (unparseable_session_aborts ascii_runtime net_empty_session self
              (lit "https://www.tf1.fr/session")
              {| status_code := 200; resp_url := lit "https://www.tf1.fr/";
                 json_body := Some (PDict []) |})
    as (e & st' & E & _ & Ht & _); try reflexivity.
  exists e, st'. split; assumption.
Defined.

(** ** The media-info call *)

(** The media schema on a delivery of the failure shape whose code is
    not 200: the pair of the code and the error. *)
Lemma media_schema_failure rt body d c e :
  dict_get (lit "delivery") body = Some (PDict d) ->
  dict_get (lit "code") d = Some c ->
  isinstance c TInt = true ->
  dict_get (lit "error") d = Some (PStr e) ->
  py_eq_int c 200 = false ->
  validate rt media_schema (PDict body) = Some (PTuple [c; PStr e]).
Proof.
  intros Hd Hc Hi He Hne. unfold media_schema. simpl.
  rewrite Hd. simpl. rewrite Hc, Hne. simpl.
  unfold isinstance in Hi. rewrite Hi. rewrite He. simpl.
  reflexivity.
Qed.

(** C3, as amended: once [login] has succeeded and the channel is
    resolved, a media-info response whose delivery holds an integer [code]
    other than 200 and a string [error] makes [_get_streams] log the error
    and return no streams; the HLS parser is not called. *)
Theorem delivery_failure_is_reported rt net self st st1 channel channel_id
    res body d c e :
  truthy (username self) = true ->
  login rt net self (url self) st = (Ok true, st1) ->
  _get_channel rt (match_ self) = Ok (channel, channel_id) ->
  let st2 :=
    logged DEBUG (PStr (lit "Found channel " ++ channel ++ lit " ("
                        ++ channel_id ++ lit ")")) st1 in
  let q := media_request rt URL_API channel_id st2 in
  net (trace st2) q = NetResp res ->
  json_body res = Some (PDict body) ->
  dict_get (lit "delivery") body = Some (PDict d) ->
  dict_get (lit "code") d = Some c ->
  isinstance c TInt = true ->
  dict_get (lit "error") d = Some (PStr e) ->
  py_eq_int c 200 = false ->
  _get_streams rt net self st
  = (Ok NoStreams, logged ERROR (PStr e) (issued q st2)).
Proof.
  intros Hu HL Hch st2 q Hn Hb Hd Hc Hi He Hne.
  rewrite _get_streams_run by assumption. rewrite HL, Hch. cbv zeta.
  fold st2. fold q. rewrite http_schema_run, Hn, Hb.
  rewrite (media_schema_failure rt body d c e) by assumption.
  cbn [unpack2]. rewrite Hne. reflexivity.
Qed.

Lemma delivery_failure_is_reported_witness :
  let self := tf1_self (Some (lit "user")) (Some (lit "secret")) with_endpoints in
  let run := _get_streams ascii_runtime (net_authenticated (geo_blocked 403))
               self initial in
  fst run = Ok NoStreams
  /\ In (ERROR, PStr (lit "geo-blocked")) (log (snd run)).
Proof.
  intros self run.
  pose proof
    (delivery_failure_is_reported ascii_runtime
       (net_authenticated (geo_blocked 403)) self initial
       (snd (login ascii_runtime (net_authenticated (geo_blocked 403)) self
               tf1_direct initial))
       (lit "tf1") (lit "L_TF1")
       {| status_code := 200; resp_url := lit "https://www.tf1.fr/";
          json_body := Some (delivery_body (geo_blocked 403)) |}
       [(lit "delivery", geo_blocked 403)]
       [(lit "code", PInt 403); (lit "error", PStr (lit "geo-blocked"))]
       (PInt 403) (lit "geo-blocked")
       eq_refl eq_refl eq_refl eq_refl eq_refl eq_refl eq_refl eq_refl eq_refl
       eq_refl) as H.
  subst run. rewrite H. split; [reflexivity|].
  cbn [snd log logged]. apply in_or_app. right. left. reflexivity.
Defined.

(** C3, as stated, fails: a delivery of the failure shape whose code is
    200 is accepted by the second shape of the schema, and [_get_streams]
    hands its error text to the HLS parser and logs no error. *)
Lemma failure_shape_with_code_200_is_parsed :
  let self := tf1_self (Some (lit "user")) (Some (lit "secret")) with_endpoints in
  let run := _get_streams ascii_runtime (net_authenticated (geo_blocked 200))
               self initial in
  validate ascii_runtime
    (SDict [(lit "code", SType TInt); (lit "error", SType TStr)])
    (geo_blocked 200) = Some (geo_blocked 200)
  /\ fst run = Ok (ParseVariantPlaylist (PStr (lit "geo-blocked")))
  /\ Forall (fun r => fst r = DEBUG) (log (snd run)).
Proof.
  cbv zeta. split; [reflexivity|]. split; [reflexivity|].
  vm_compute. repeat constructor.
Qed.

(** * Further properties *)

(** ** Which URLs the pattern matches *)

Lemma strip_prefix_same l s : strip_prefix l (l ++ s) = Some s.
Proof.
  induction l as [|x l IH]; simpl; [reflexivity|]. now rewrite N.eqb_refl.
Qed.

Lemma plus_bt_none {A : Type} p s (k : pystr -> option A) :
  stops p s -> plus_bt p s k = None.
Proof. destruct s; simpl; [reflexivity|]. intros ->. reflexivity. Qed.

Lemma plus_bt_cons {A : Type} p c s (k : pystr -> option A) :
  p c = true ->
  plus_bt p (c :: s) k
  = match plus_bt p s k with Some x => Some x | None => k s end.
Proof. simpl. intros ->. reflexivity. Qed.

(** A run of the class followed by a character outside it is taken whole
    when what follows is accepted. *)
Lemma plus_bt_longest {A : Type} p w s (k : pystr -> option A) x :
  w <> [] -> Forall (fun c => p c = true) w -> stops p s -> k s = Some x ->
  plus_bt p (w ++ s) k = Some x.
Proof.
  intros Hw Hall Hs Hk. induction w as [|c w IH]; [congruence|].
  inversion Hall as [|? ? Hc Hr]; subst. simpl. rewrite Hc.
  destruct w as [|c' w].
  - simpl. rewrite plus_bt_none by assumption. exact Hk.
  - rewrite IH; [reflexivity|discriminate|assumption].
Qed.

Lemma bt_url_prefix p r tail g k x :
  url_prefix p ->
  strip_prefix (lit "www.") tail = None ->
  bt r tail g k = Some x ->
  bt (RSeq (RLit (lit "http")) (RSeq (ROpt (RLit (lit "s")))
       (RSeq (RLit (lit "://")) (RSeq (ROpt (RLit (lit "www."))) r))))
     (p ++ tail) g k = Some x.
Proof.
  intros Hp Hw Hr. cbn [bt].
  destruct Hp as [<-|[<-|[<-|[<-|[]]]]].
  - change (lit "http://" ++ tail) with (lit "http" ++ lit "://" ++ tail).
    rewrite strip_prefix_same.
    replace (strip_prefix (lit "s") (lit "://" ++ tail)) with (@None pystr)
      by reflexivity.
    rewrite strip_prefix_same. rewrite Hw. exact Hr.
  - change (lit "https://" ++ tail)
      with (lit "http" ++ lit "s" ++ lit "://" ++ tail).
    rewrite !strip_prefix_same. rewrite Hw, Hr. reflexivity.
  - change (lit "http://www." ++ tail)
      with (lit "http" ++ lit "://" ++ lit "www." ++ tail).
    rewrite strip_prefix_same.
    replace (strip_prefix (lit "s") (lit "://" ++ lit "www." ++ tail))
      with (@None pystr) by reflexivity.
    rewrite !strip_prefix_same. rewrite Hr. reflexivity.
  - change (lit "https://www." ++ tail)
      with (lit "http" ++ lit "s" ++ lit "://" ++ lit "www." ++ tail).
    rewrite !strip_prefix_same. rewrite Hr. reflexivity.
Qed.

Lemma slash_direct_accepts rest g x (k : pystr -> groups -> option groups) :
  (forall s, k s g = Some x) ->
  bt slash_direct (lit "/direct" ++ rest) g k = Some x.
Proof.
  intros Hk. unfold slash_direct. cbn [bt]. rewrite strip_prefix_same.
  destruct (strip_prefix (lit "/") rest); rewrite Hk; reflexivity.
Qed.

Lemma live_url_match rt p slug rest :
  url_prefix p -> in_class rt slug ->
  pluginmatcher rt (p ++ lit "tf1.fr/" ++ slug ++ lit "/direct" ++ rest)
  = Some [("live"%string, slug)].
Proof.
  intros Hp [Hne Hall]. unfold pluginmatcher, re_match, pattern.
  apply bt_url_prefix; [assumption|reflexivity|].
  cbn [bt]. rewrite strip_prefix_same.
  rewrite (plus_bt_longest _ slug (lit "/direct" ++ rest) _
             [("live"%string, slug)]);
    [reflexivity|assumption|assumption|reflexivity|].
  rewrite consumed_app.
  apply (slash_direct_accepts rest _ _ (fun _ g => Some g)). reflexivity.
Qed.

(** X1: every URL made of one of the four prefixes, [tf1.fr/], a
    non-empty slug of word characters and dashes, and [/direct], whatever
    follows, is matched with the slug in [live]. *)
Theorem live_url_matches rt p slug rest :
  url_prefix p -> in_class rt slug ->
  pluginmatcher rt (p ++ lit "tf1.fr/" ++ slug ++ lit "/direct" ++ rest)
  = Some [("live"%string, slug)].
Proof. exact (live_url_match rt p slug rest). Qed.

Lemma live_url_matches_witness :
  pluginmatcher ascii_runtime
    (lit "http://" ++ lit "tf1.fr/" ++ lit "tf1-series-films" ++ lit "/direct"
     ++ lit "/?utm=1")
  = Some [("live"%string, lit "tf1-series-films")].
Proof.
  apply (live_url_matches ascii_runtime (lit "http://")
           (lit "tf1-series-films") (lit "/?utm=1")).
  - left. reflexivity.
  - split; [discriminate|]. repeat constructor.
Defined.

(** On [stream/...] the [live] branch takes [stream] as its slug and then
    needs [/direct]. *)
Lemma live_branch_fails_on_stream rt tail g k :
  strip_prefix (lit "direct") tail = None ->
  bt (RSeq (RGroup "live" (RPlus (is_word_or_dash rt))) slash_direct)
     (lit "stream/" ++ tail) g k = None.
Proof.
  intros H. unfold slash_direct. cbn [bt].
  change (lit "stream/" ++ tail)
    with (115 :: 116 :: 114 :: 101 :: 97 :: 109 :: 47 :: tail)%N.
  rewrite !plus_bt_cons by reflexivity.
  rewrite plus_bt_none by reflexivity.
  change (strip_prefix (lit "/direct") (47%N :: tail))
    with (strip_prefix (lit "direct") tail).
  rewrite H. reflexivity.
Qed.

(** X2: every URL made of one of the four prefixes, [tf1.fr/stream/] and
    a non-empty slug of word characters and dashes that ends where the
    class ends is matched with the slug in [stream], unless what follows
    [stream/] starts with [direct]. *)
Theorem stream_url_matches rt p slug rest :
  url_prefix p -> in_class rt slug ->
  stops (is_word_or_dash rt) rest ->
  strip_prefix (lit "direct") (slug ++ rest) = None ->
  pluginmatcher rt (p ++ lit "tf1.fr/" ++ lit "stream/" ++ slug ++ rest)
  = Some [("stream"%string, slug)].
Proof.
  intros Hp [Hne Hall] Hstop Hd. unfold pluginmatcher, re_match, pattern.
  apply bt_url_prefix; [assumption|reflexivity|].
  cbn [bt]. rewrite strip_prefix_same.
  pose proof (live_branch_fails_on_stream rt (slug ++ rest) []
                (fun _ g => Some g) Hd) as HL.
  cbn [bt] in HL. rewrite HL. rewrite strip_prefix_same.
  rewrite (plus_bt_longest _ slug rest _ [("stream"%string, slug)]);
    [reflexivity|assumption..|].
  rewrite consumed_app. reflexivity.
Qed.

Lemma stream_url_matches_witness :
  pluginmatcher ascii_runtime
    (lit "https://www." ++ lit "tf1.fr/" ++ lit "stream/" ++ lit "sport1"
     ++ lit "?x=1")
  = Some [("stream"%string, lit "sport1")].
Proof.
  apply (stream_url_matches ascii_runtime (lit "https://www.") (lit "sport1")
           (lit "?x=1")).
  - right; right; right; left. reflexivity.
  - split; [discriminate|]. repeat constructor.
  - reflexivity.
  - reflexivity.
Defined.

(** X3: a URL under [tf1.fr/stream/] whose slug starts with [direct] is
    not a stream address: it is matched as the live slug [stream], and the
    channel is resolved to [L_STREAM]. *)
Theorem stream_slug_direct_is_live rt p rest :
  url_prefix p ->
  pluginmatcher rt (p ++ lit "tf1.fr/" ++ lit "stream/" ++ lit "direct" ++ rest)
  = Some [("live"%string, lit "stream")]
  /\ _get_channel rt [("live"%string, lit "stream")]
     = Ok (lit "stream", lit "L_STREAM").
Proof.
  intros Hp. split; [|reflexivity].
  change (p ++ lit "tf1.fr/" ++ lit "stream/" ++ lit "direct" ++ rest)
    with (p ++ lit "tf1.fr/" ++ lit "stream" ++ lit "/direct" ++ rest).
  apply live_url_match; [assumption|].
  split; [discriminate|]. repeat constructor.
Qed.

Lemma stream_slug_direct_is_live_witness :
  pluginmatcher ascii_runtime
    (lit "https://" ++ lit "tf1.fr/" ++ lit "stream/" ++ lit "direct"
     ++ lit "-auto")
  = Some [("live"%string, lit "stream")].
Proof.
  apply (stream_slug_direct_is_live ascii_runtime (lit "https://") (lit "-auto")).
  right; left. reflexivity.
Defined.

(** X4: every URL made of one of the four prefixes, [tf1info] or [lci],
    and [.fr/direct], whatever follows, is matched with the domain name in
    [lci], and the channel is resolved to [LCI] and [L_LCI] for both. *)
Theorem lci_url_matches rt p name rest :
  url_prefix p -> name = lit "tf1info" \/ name = lit "lci" ->
  pluginmatcher rt (p ++ name ++ lit ".fr" ++ lit "/direct" ++ rest)
  = Some [("lci"%string, name)]
  /\ _get_channel rt [("lci"%string, name)] = Ok (lit "LCI", lit "L_LCI").
Proof.
  intros Hp Hn. split; [|destruct Hn as [->| ->]; reflexivity].
  unfold pluginmatcher, re_match, pattern.
  apply bt_url_prefix; [assumption|destruct Hn as [->| ->]; reflexivity|].
  cbn [bt].
  replace (strip_prefix (lit "tf1.fr/")
             (name ++ lit ".fr" ++ lit "/direct" ++ rest))
    with (@None pystr) by (destruct Hn as [->| ->]; reflexivity).
  pose proof (slash_direct_accepts rest [("lci"%string, name)]
                [("lci"%string, name)] (fun _ g => Some g)
                (fun _ => eq_refl)) as HS.
  destruct Hn as [->| ->].
  - rewrite !strip_prefix_same. rewrite consumed_app, HS. reflexivity.
  - replace (strip_prefix (lit "tf1info")
               (lit "lci" ++ lit ".fr" ++ lit "/direct" ++ rest))
      with (@None pystr) by reflexivity.
    rewrite !strip_prefix_same. rewrite consumed_app, HS. reflexivity.
Qed.

Lemma lci_url_matches_witness :
  pluginmatcher ascii_runtime
    (lit "https://www." ++ lit "tf1info" ++ lit ".fr" ++ lit "/direct" ++ lit "/")
  = Some [("lci"%string, lit "tf1info")].
Proof.
  apply (lci_url_matches ascii_runtime (lit "https://www.") (lit "tf1info")
           (lit "/")).
  - right; right; right; left. reflexivity.
  - left. reflexivity.
Defined.

Lemma matches_url_prefix r w g g' :
  matches (RSeq (RLit (lit "http")) (RSeq (ROpt (RLit (lit "s")))
             (RSeq (RLit (lit "://")) (RSeq (ROpt (RLit (lit "www."))) r))))
          w g g' ->
  exists p w', url_prefix p /\ w = p ++ w' /\ matches r w' g g'.
Proof.
  intros H.
  inversion H as [| | | |? ? w1 w2 ? ? ? H1 H2| | |]; subst; clear H.
  inversion H1; subst; clear H1.
  inversion H2 as [| | | |? ? w3 w4 ? ? ? H3 H4| | |]; subst; clear H2.
  inversion H4 as [| | | |? ? w5 w6 ? ? ? H5 H6| | |]; subst; clear H4.
  inversion H5; subst; clear H5.
  inversion H6 as [| | | |? ? w7 w8 ? ? ? H7 H8| | |]; subst; clear H6.
  unfold url_prefix.
  inversion H3 as [| |? ? ? ? H3'| | | | |]; subst; clear H3;
    [inversion H3'; subst; clear H3'|];
    (inversion H7 as [| |? ? ? ? H7'| | | | |]; subst; clear H7;
     [inversion H7'; subst; clear H7'|]);
    eexists; exists w8; (split; [|split; [|eassumption]]);
    [ do 3 right; left; reflexivity | reflexivity
    | right; left; reflexivity | reflexivity
    | do 2 right; left; reflexivity | reflexivity
    | left; reflexivity | reflexivity ].
Qed.

(** X5: a URL that the pattern matches starts with one of the four
    prefixes and continues in one of three ways: [tf1.fr/], a non-empty
    slug of the class and [/direct], with the slug in [live];
    [tf1.fr/stream/] and a non-empty slug of the class, with the slug in
    [stream]; or [tf1info] or [lci] followed by [.fr/direct], with that
    name in [lci].  No other group is set. *)
Theorem matched_url_shape rt u m :
  pluginmatcher rt u = Some m ->
  exists p rest,
    url_prefix p
    /\ ((exists slug,
           in_class rt slug
           /\ u = p ++ lit "tf1.fr/" ++ slug ++ lit "/direct" ++ rest
           /\ m = [("live"%string, slug)])
        \/ (exists slug,
              in_class rt slug
              /\ u = p ++ lit "tf1.fr/" ++ lit "stream/" ++ slug ++ rest
              /\ m = [("stream"%string, slug)])
        \/ (exists name,
              (name = lit "tf1info" \/ name = lit "lci")
              /\ u = p ++ name ++ lit ".fr" ++ lit "/direct" ++ rest
              /\ m = [("lci"%string, name)])).
Proof.
  unfold pluginmatcher. intros H. apply re_match_sound in H.
  destruct H as (w & s' & -> & H). unfold pattern in H.
  apply matches_url_prefix in H. destruct H as (p & w' & Hp & -> & H).
  unfold slash_direct in H. exists p. inv_matches; eexists; (split; [exact Hp|]);
    rewrite <- ?app_assoc;
    first
      [ left; eexists; split; [split; [|constructor; eassumption]; discriminate|];
        split; reflexivity
      | right; left; eexists;
        split; [split; [|constructor; eassumption]; discriminate|];
        split; reflexivity
      | right; right; eexists; split; [left; reflexivity|]; split; reflexivity
      | right; right; eexists; split; [right; reflexivity|]; split; reflexivity ].
Qed.

Lemma matched_url_shape_witness :
  exists p rest, url_prefix p
    /\ tf1_direct = p ++ lit "tf1.fr/" ++ lit "tf1" ++ lit "/direct" ++ rest.
Proof.
  destruct (matched_url_shape ascii_runtime tf1_direct
              [("live"%string, lit "tf1")] eq_refl)
    as (p & rest & Hp & [(slug & _ & Hu & Hm)
                        |[(slug & _ & _ & Hm)|(name & _ & _ & Hm)]]);
    try discriminate Hm.
  injection Hm as <-. exists p, rest. split; assumption.
Defined.

(** ** The channel ids *)

Lemma upper_cp_ascii rt c :
  (c < 128)%N ->
  upper_cp rt c = [if ((97 <=? c) && (c <=? 122))%N then (c - 32)%N else c].
Proof.
  intros H. unfold upper_cp. destruct (N.ltb_spec c 128); [reflexivity|lia].
Qed.

Lemma upper_ascii rt s :
  is_ascii s ->
  is_ascii (upper rt s) /\ no_lower (upper rt s)
  /\ List.length (upper rt s) = List.length s.
Proof.
  unfold is_ascii, no_lower, upper.
  induction 1 as [|c s Hc Hs (IH1 & IH2 & IH3)]; simpl;
    [repeat split; constructor|].
  rewrite upper_cp_ascii by assumption. simpl.
  repeat split; [constructor; [|exact IH1]|constructor; [|exact IH2]
                |now rewrite IH3];
    destruct (N.leb_spec 97 c), (N.leb_spec c 122); simpl; lia.
Qed.

Lemma upper_no_lower_id rt s :
  is_ascii s -> no_lower s -> upper rt s = s.
Proof.
  unfold is_ascii, no_lower, upper. intros Ha Hn.
  induction s as [|c s IH]; [reflexivity|].
  inversion Ha; inversion Hn; subst. simpl.
  rewrite upper_cp_ascii by assumption. rewrite IH by assumption.
  destruct (N.leb_spec 97 c), (N.leb_spec c 122); simpl; try reflexivity. lia.
Qed.

Lemma get_channel_live rt s :
  s <> [] ->
  _get_channel rt [("live"%string, s)] = Ok (s, lit "L_" ++ upper rt s).
Proof. destruct s; [congruence|reflexivity]. Qed.

(** X6: for an ASCII slug, the live id is [L_] followed by as many
    characters as the slug has, none of them a lower-case letter, and the
    slug written in upper case resolves to the same id. *)
Theorem live_id_is_upper_case rt s :
  s <> [] -> is_ascii s ->
  exists id,
    _get_channel rt [("live"%string, s)] = Ok (s, lit "L_" ++ id)
    /\ List.length id = List.length s /\ no_lower id
    /\ _get_channel rt [("live"%string, upper rt s)]
       = Ok (upper rt s, lit "L_" ++ id).
Proof.
  intros Hne Ha. destruct (upper_ascii rt s Ha) as (Hua & Hnl & Hlen).
  exists (upper rt s). repeat split; try assumption.
  - apply get_channel_live, Hne.
  - rewrite get_channel_live.
    + rewrite (upper_no_lower_id rt (upper rt s)) by assumption. reflexivity.
    + intros E. rewrite E in Hlen. destruct s; [congruence|discriminate].
Qed.

Lemma live_id_is_upper_case_witness :
  exists id,
    _get_channel ascii_runtime [("live"%string, lit "Tf1-Series")]
    = Ok (lit "Tf1-Series", lit "L_" ++ id)
    /\ no_lower id.
Proof.
  destruct (live_id_is_upper_case ascii_runtime (lit "Tf1-Series"))
    as (id & H1 & _ & H2 & _).
  - discriminate.
  - unfold is_ascii. repeat constructor.
  - exists id. split; assumption.
Defined.

(** The id built for a stream slug is not one built for an ASCII live
    slug nor [L_LCI], and it determines the slug. *)
Lemma stream_id_shapes rt s t t' :
  is_ascii s ->
  lit "L_FAST_v2l-" ++ t <> lit "L_" ++ upper rt s
  /\ lit "L_FAST_v2l-" ++ t <> lit "L_LCI"
  /\ (lit "L_FAST_v2l-" ++ t = lit "L_FAST_v2l-" ++ t' -> t = t').
Proof.
  intros Ha. split; [|split].
  - intros E.
    change (lit "L_FAST_v2l-" ++ t) with (lit "L_" ++ lit "FAST_v2l-" ++ t) in E.
    apply app_inv_head in E.
    destruct (upper_ascii rt s Ha) as (_ & Hnl & _). rewrite <- E in Hnl.
    unfold no_lower in Hnl. rewrite Forall_forall in Hnl.
    apply (Hnl 118%N); [|lia].
    change (lit "FAST_v2l-" ++ t) with (lit "FAST_" ++ 118%N :: lit "2l-" ++ t).
    apply in_or_app. right. left. reflexivity.
  - discriminate.
  - apply app_inv_head.
Qed.

(** What [_get_channel] returns on the groups of a matched URL, by the
    group that is set. *)
Lemma get_channel_cases rt m :
  address m ->
  (exists s, group m "live" = Some s /\ group m "stream" = None
             /\ _get_channel rt m = Ok (s, lit "L_" ++ upper rt s))
  \/ (exists s, group m "stream" = Some s /\ group m "live" = None
                /\ _get_channel rt m = Ok (s, lit "L_FAST_v2l-" ++ s))
  \/ (group m "live" = None /\ group m "stream" = None
      /\ _get_channel rt m = Ok (lit "LCI", lit "L_LCI")).
Proof.
  unfold _get_channel.
  intros [s Hs H1 H2 H3|s Hs H1 H2 H3|s Hs H1 H2 H3];
    rewrite H1, H2, H3; destruct s as [|c s]; try congruence.
  - left. eexists. repeat split.
  - right. left. eexists. repeat split.
  - right. right. repeat split.
Qed.

(** X7: of two matched URLs, the second a stream address with slug [t]
    and the first with an ASCII slug if it is a live address,
    [_get_channel] gives both the same channel id only when the first is
    the stream address with the same slug [t]; the channel names are then
    the same too. *)
Theorem stream_ids_are_apart rt u1 u2 m1 m2 t c1 c2 :
  pluginmatcher rt u1 = Some m1 ->
  pluginmatcher rt u2 = Some m2 ->
  group m2 "stream" = Some t ->
  (forall s, group m1 "live" = Some s -> is_ascii s) ->
  _get_channel rt m1 = Ok c1 ->
  _get_channel rt m2 = Ok c2 ->
  (snd c1 = snd c2 <-> group m1 "stream" = Some t)
  /\ (snd c1 = snd c2 -> c1 = c2).
Proof.
  intros H1 H2 Ht Ha G1 G2.
  apply pluginmatcher_address in H1, H2.
  destruct (get_channel_cases rt m2 H2)
    as [(s2 & _ & E & _)|[(s2 & E & _ & R2)|(_ & E & _)]];
    rewrite E in Ht; try discriminate.
  injection Ht as ->. rewrite R2 in G2. injection G2 as <-.
  destruct (get_channel_cases rt m1 H1)
    as [(s1 & L1 & S1 & R1)|[(s1 & S1 & _ & R1)|(_ & S1 & R1)]];
    rewrite R1 in G1; injection G1 as <-; cbn [snd]; rewrite S1.
  - destruct (stream_id_shapes rt s1 t t (Ha s1 L1)) as (N & _ & _).
    repeat split; intros E'; try discriminate; symmetry in E'; contradiction.
  - repeat split.
    + intros E'. apply (stream_id_shapes rt [] s1 t) in E';
        [congruence|constructor].
    + intros E'. injection E' as ->. reflexivity.
    + intros E'. apply (stream_id_shapes rt [] s1 t) in E';
        [congruence|constructor].
  - repeat split; intros E'; discriminate.
Qed.

Lemma stream_ids_are_apart_witness :
  _get_channel ascii_runtime [("live"%string, lit "fast_v2l-sport1")]
  = Ok (lit "fast_v2l-sport1", lit "L_FAST_V2L-SPORT1")
  /\ _get_channel ascii_runtime [("stream"%string, lit "sport1")]
     = Ok (lit "sport1", lit "L_FAST_v2l-sport1")
  /\ lit "L_FAST_V2L-SPORT1" <> lit "L_FAST_v2l-sport1".
Proof.
  split; [reflexivity|]. split; [reflexivity|]. intros E.
  destruct (stream_ids_are_apart ascii_runtime
              (lit "https://www.tf1.fr/fast_v2l-sport1/direct")
              (lit "https://www.tf1.fr/stream/sport1")
              [("live"%string, lit "fast_v2l-sport1")]
              [("stream"%string, lit "sport1")]
              (lit "sport1")
              (lit "fast_v2l-sport1", lit "L_FAST_V2L-SPORT1")
              (lit "sport1", lit "L_FAST_v2l-sport1")) as [[F _] _];
    [reflexivity|reflexivity|reflexivity| |reflexivity|reflexivity|].
  - intros s Hs. injection Hs as <-. unfold is_ascii.
    repeat constructor.
  - specialize (F E). discriminate.
Defined.

(** ** What [auth_check] leaves behind *)

Lemma keeps_log_bind {A B : Type} (m : M A) (f : A -> M B) :
  keeps_log m -> (forall a, keeps_log (f a)) -> keeps_log (bind m f).
Proof.
  intros Hm Hf st. unfold bind. specialize (Hm st).
  destruct (m st) as [[a|e] st1]; simpl in Hm; [|exact Hm].
  rewrite Hf. exact Hm.
Qed.

Lemma keeps_log_http net q : keeps_log (http net q).
Proof. intros st. rewrite http_run. destruct (net (trace st) q); reflexivity. Qed.

Lemma keeps_log_http_schema rt net q sc : keeps_log (http_schema rt net q sc).
Proof. intros st. apply http_schema_effects. Qed.

Lemma keeps_log_getattr self name : keeps_log (getattr self name).
Proof.
  intros st. unfold getattr. destruct (attr_get name TF1_class); [reflexivity|].
  destruct (attr_get name (inherited self)); reflexivity.
Qed.

Ltac keeps_log_step :=
  lazymatch goal with
  | |- keeps_log (http_schema _ _ _ _) => apply keeps_log_http_schema
  | |- keeps_log (http _ _) => apply keeps_log_http
  | |- keeps_log (getattr _ _) => apply keeps_log_getattr
  | |- keeps_log (bind _ _) => apply keeps_log_bind; [|intro]
  | |- keeps_log _ => intro; reflexivity
  end.

(** [auth_check] logs nothing. *)
Lemma auth_check_keeps_log rt net self res :
  keeps_log (auth_check rt net self res).
Proof.
  unfold auth_check. destruct (status_code res =? 200); [|intro; reflexivity].
  unfold set_user_signature, set_user_uid, set_user_timestamp, set_user_token.
  repeat keeps_log_step.
Qed.

Lemma auth_check_raise_states rt net self res st j :
  status_code res = 200 ->
  json_body res = Some j ->
  (forall e, py_getitem j (lit "userSignature") = Raise e ->
     auth_check rt net self res st = (Raise e, st))
  /\ (forall sig e,
        py_getitem j (lit "userSignature") = Ok sig ->
        py_getitem j (lit "UID") = Raise e ->
        auth_check rt net self res st
        = (Raise e, mkState sig (user_uid st) (user_timestamp st)
                      (user_token st) (trace st) (log st)))
  /\ (forall sig uid ts e,
        py_getitem j (lit "userSignature") = Ok sig ->
        py_getitem j (lit "UID") = Ok uid ->
        py_getitem j (lit "timestamp") = Raise e
        \/ (py_getitem j (lit "timestamp") = Ok ts /\ py_int rt ts = Raise e) ->
        auth_check rt net self res st
        = (Raise e, mkState sig uid (user_timestamp st) (user_token st)
                      (trace st) (log st))).
Proof.
  intros Hs Hj. unfold auth_check, res_json. rewrite Hs, Hj.
  change (200 =? 200) with true. cbv iota.
  cbv [bind lift set_user_signature set_user_uid set_user_timestamp modify].
  split; [|split].
  - intros e ->. destruct st; reflexivity.
  - intros sig e -> ->. reflexivity.
  - intros sig uid ts e -> -> [-> | [-> ->]]; reflexivity.
Qed.

(** X8: when the status is 200 and a field of the assertion cannot be
    read, [auth_check] raises without a request, and the assignments made
    before the failing line stay: without [userSignature] nothing is
    assigned; without [UID] the signature is; without [timestamp], or with
    one that [int] refuses, the signature and the user id are, and
    [user_timestamp] and [user_token] keep their values. *)
Theorem auth_check_stops_half_way rt net self res st j :
  status_code res = 200 ->
  json_body res = Some j ->
  (forall e, py_getitem j (lit "userSignature") = Raise e ->
     auth_check rt net self res st = (Raise e, st))
  /\ (forall sig e,
        py_getitem j (lit "userSignature") = Ok sig ->
        py_getitem j (lit "UID") = Raise e ->
        auth_check rt net self res st
        = (Raise e, mkState sig (user_uid st) (user_timestamp st)
                      (user_token st) (trace st) (log st)))
  /\ (forall sig uid ts e,
        py_getitem j (lit "userSignature") = Ok sig ->
        py_getitem j (lit "UID") = Ok uid ->
        py_getitem j (lit "timestamp") = Raise e
        \/ (py_getitem j (lit "timestamp") = Ok ts /\ py_int rt ts = Raise e) ->
        auth_check rt net self res st
        = (Raise e, mkState sig uid (user_timestamp st) (user_token st)
                      (trace st) (log st))).
Proof. apply auth_check_raise_states. Qed.

Lemma auth_check_stops_half_way_witness :
  let res := {| status_code := 200; resp_url := lit "https://www.tf1.fr/";
                json_body := Some (PDict [(lit "userSignature", PStr (lit "c2ln"))]) |} in
  auth_check ascii_runtime net_rejected
    (tf1_self (Some (lit "user")) (Some (lit "secret")) with_endpoints) res initial
  = (Raise (KeyError (lit "UID")),
     mkState (PStr (lit "c2ln")) (PStr (lit "")) (PStr (lit "")) (PStr (lit ""))
             [] []).
Proof.
  intros res.
  exact (proj1 (proj2 (auth_check_stops_half_way ascii_runtime net_rejected
           (tf1_self (Some (lit "user")) (Some (lit "secret")) with_endpoints)
           res initial (PDict [(lit "userSignature", PStr (lit "c2ln"))])
           eq_refl eq_refl))
         (PStr (lit "c2ln")) (KeyError (lit "UID")) eq_refl eq_refl).
Defined.

Lemma has_assertion_fields_true res :
  has_assertion_fields res = true ->
  exists j sig uid ts,
    json_body res = Some j
    /\ py_getitem j (lit "userSignature") = Ok sig
    /\ py_getitem j (lit "UID") = Ok uid
    /\ py_getitem j (lit "timestamp") = Ok ts.
Proof.
  unfold has_assertion_fields. destruct (json_body res) as [j|]; [|discriminate].
  destruct (py_getitem j (lit "userSignature")) as [sig|] eqn:E1; [|discriminate].
  destruct (py_getitem j (lit "UID")) as [uid|] eqn:E2; [|discriminate].
  destruct (py_getitem j (lit "timestamp")) as [ts|] eqn:E3; [|discriminate].
  intros _. exists j, sig, uid, ts. repeat split; assumption.
Qed.

(** The outcomes of the token exchange. *)
Lemma token_exchange_true rt net self st st' :
  token_exchange rt net self st = (Ok true, st') ->
  let qt := token_request self GIGYA_TOKEN_URL (PTuple [PList consent_id_list]) st in
  exists res2 body t,
    net (trace st) qt = NetResp res2
    /\ json_body res2 = Some body
    /\ py_getitem body (lit "token") = Ok (PStr t)
    /\ st' = authorized (PStr t) (issued qt st).
Proof.
  intros H qt. rewrite token_exchange_run in H. cbv zeta in H. fold qt in H.
  destruct (token_schema_expr rt) as [sc|e] eqn:Hsc; [|discriminate].
  apply token_schema_expr_ok in Hsc. destruct Hsc as (-> & _ & _).
  rewrite http_schema_run in H.
  destruct (net (trace st) qt) as [res2|e]; [|discriminate].
  destruct (json_body res2) as [body|] eqn:Hb; [|discriminate].
  destruct (validate rt token_schema body) as [v'|] eqn:Hv; [|discriminate].
  apply token_schema_accepts in Hv.
  destruct Hv as (d & t & r & n & ty & -> & Ht & _ & _ & _ & _ & ->).
  change (py_getitem (PDict _) (lit "token")) with (@Ok pyval (PStr t)) in H.
  injection H as <-. exists res2, (PDict d), t. repeat split; try assumption.
  simpl. now rewrite Ht.
Qed.

Lemma auth_check_true_inv rt net self res st st' :
  auth_check rt net self res st = (Ok true, st') ->
  status_code res = 200
  /\ exists j sig uid ts z res2 body t,
       json_body res = Some j
       /\ py_getitem j (lit "userSignature") = Ok sig
       /\ py_getitem j (lit "UID") = Ok uid
       /\ py_getitem j (lit "timestamp") = Ok ts
       /\ py_int rt ts = Ok z
       /\ (let qt := token_request self GIGYA_TOKEN_URL
                       (PTuple [PList consent_id_list]) (asserted sig uid z st) in
           net (trace st) qt = NetResp res2
           /\ json_body res2 = Some body
           /\ py_getitem body (lit "token") = Ok (PStr t)
           /\ st' = mkState sig uid (PInt z) (PStr t) (trace st ++ [qt]) (log st)).
Proof.
  intros H.
  destruct (Z.eq_dec (status_code res) 200) as [Hs|Hs].
  2:{ rewrite auth_check_other_status in H by assumption. discriminate. }
  split; [exact Hs|].
  destruct (has_assertion_fields res) eqn:Hf.
  2:{ destruct (auth_check_unparseable rt net self res st Hs Hf)
        as (e & st'' & E & _). congruence. }
  apply has_assertion_fields_true in Hf.
  destruct Hf as (j & sig & uid & ts & Hj & Hsig & Huid & Hts).
  destruct (py_int rt ts) as [z|e] eqn:Hz.
  2:{ destruct (auth_check_raise_states rt net self res st j Hs Hj)
        as (_ & _ & F).
      rewrite (F sig uid ts e Hsig Huid (or_intror (conj Hts Hz))) in H.
      discriminate. }
  rewrite (auth_check_asserted rt net self res st j sig uid ts z) in H
    by assumption.
  apply token_exchange_true in H. cbv zeta in H.
  destruct H as (res2 & body & t & Hn & Hb & Ht & ->).
  exists j, sig, uid, ts, z, res2, body, t. cbv zeta.
  repeat split; assumption.
Qed.

(** X9: when [auth_check] returns [True], the status was 200, the body
    held the three fields, and the token request, its one request, was
    answered by a body whose [token] is a string; the four [user_*]
    attributes then hold the signature, the user id, the timestamp as an
    integer and that token, and nothing was logged. *)
Theorem auth_check_true rt net self res st st' :
  auth_check rt net self res st = (Ok true, st') ->
  status_code res = 200
  /\ exists j sig uid ts z res2 body t,
       json_body res = Some j
       /\ py_getitem j (lit "userSignature") = Ok sig
       /\ py_getitem j (lit "UID") = Ok uid
       /\ py_getitem j (lit "timestamp") = Ok ts
       /\ py_int rt ts = Ok z
       /\ (let qt := token_request self GIGYA_TOKEN_URL
                       (PTuple [PList consent_id_list]) (asserted sig uid z st) in
           net (trace st) qt = NetResp res2
           /\ json_body res2 = Some body
           /\ py_getitem body (lit "token") = Ok (PStr t)
           /\ st' = mkState sig uid (PInt z) (PStr t) (trace st ++ [qt]) (log st)).
Proof. apply auth_check_true_inv. Qed.

(** ** The order of the requests *)

(** [auth_check] issues nothing unless it returns [True] or raises, and
    then at most its token request. *)
Lemma auth_check_trace rt net self res st :
  let r := auth_check rt net self res st in
  (fst r <> Ok true /\ trace (snd r) = trace st)
  \/ (fst r <> Ok false
      /\ exists stT,
           trace (snd r)
           = trace st ++ [token_request self GIGYA_TOKEN_URL
                            (PTuple [PList consent_id_list]) stT]).
Proof.
  cbv zeta. destruct (Z.eq_dec (status_code res) 200) as [Hs|Hs].
  2:{ left. rewrite auth_check_other_status by assumption.
      split; [discriminate|reflexivity]. }
  destruct (has_assertion_fields res) eqn:Hf.
  2:{ left. destruct (auth_check_unparseable rt net self res st Hs Hf)
        as (e & st'' & -> & Ht & _). split; [discriminate|exact Ht]. }
  apply has_assertion_fields_true in Hf.
  destruct Hf as (j & sig & uid & ts & Hj & Hsig & Huid & Hts).
  destruct (py_int rt ts) as [z|e] eqn:Hz.
  2:{ left. destruct (auth_check_raise_states rt net self res st j Hs Hj)
        as (_ & _ & F).
      rewrite (F sig uid ts e Hsig Huid (or_intror (conj Hts Hz))).
      split; [discriminate|reflexivity]. }
  rewrite (auth_check_asserted rt net self res st j sig uid ts z) by assumption.
  destruct (token_exchange_effects rt net self (asserted sig uid z st))
    as (_ & Hr & [(e & _ & ->)|[_ Ht]]).
  - left. split; [discriminate|reflexivity].
  - right. split; [exact Hr|]. exists (asserted sig uid z st). exact Ht.
Qed.

Lemma login_no_session_url rt net self ptrt st :
  attr_get "session_url" (inherited self) = None ->
  login rt net self ptrt st = (Raise (AttributeError "session_url"), st).
Proof.
  intros H. unfold login. unfold bind at 1.
  rewrite getattr_undefined by (reflexivity || assumption). reflexivity.
Qed.

(** The requests of [login], with its result: a [True] comes with a trace
    that ends in the token request. *)
Lemma login_trace rt net self ptrt st :
  exists su au res0 stT,
    let S := session_request su ptrt in
    let Lq := login_request rt self au res0 GIGYA_API_KEY in
    let T := token_request self GIGYA_TOKEN_URL
               (PTuple [PList consent_id_list]) stT in
    let r := login rt net self ptrt st in
    (fst r = Ok true
     /\ (trace (snd r) = trace st ++ [S; T]
         \/ trace (snd r) = trace st ++ [S; Lq; T]))
    \/ (fst r <> Ok true
        /\ (trace (snd r) = trace st
            \/ trace (snd r) = trace st ++ [S]
            \/ trace (snd r) = trace st ++ [S; T]
            \/ trace (snd r) = trace st ++ [S; Lq]
            \/ trace (snd r) = trace st ++ [S; Lq; T])).
Proof.
  pose (dummy := {| status_code := 0; resp_url := []; json_body := None |}).
  destruct (attr_get "session_url" (inherited self)) as [su|] eqn:Hsu.
  2:{ exists [], [], dummy, st. cbv zeta. right.
      rewrite login_no_session_url by assumption.
      split; [discriminate|left; reflexivity]. }
  rewrite (login_run rt net self ptrt st su Hsu). cbv zeta.
  set (q0 := session_request su ptrt).
  destruct (net (trace st) q0) as [res0|e] eqn:Hn0.
  2:{ exists su, [], dummy, st. right.
      split; [discriminate|right; left; reflexivity]. }
  destruct (Z.eq_dec (status_code res0) 200) as [Hs|Hs].
  - pose proof (auth_check_false rt net self res0 (issued q0 st)) as Hfalse.
    destruct (auth_check_trace rt net self res0 (issued q0 st))
      as [[Hr Ht]|[Hr (stT & Ht)]];
      destruct (auth_check rt net self res0 (issued q0 st)) as [[[|]|e] st1];
      cbn [fst snd] in Hr, Ht, Hfalse;
      try congruence; try (exfalso; apply Hfalse; [reflexivity|exact Hs]).
    + exists su, [], dummy, st. right. split; [discriminate|].
      right; left. cbn [snd]. rewrite Ht. reflexivity.
    + exists su, [], dummy, stT. left. split; [reflexivity|]. left.
      cbn [snd trace logged]. rewrite Ht. cbn [trace issued].
      rewrite <- app_assoc. reflexivity.
    + exists su, [], dummy, stT. right. split; [discriminate|].
      do 2 right; left. cbn [snd]. rewrite Ht. cbn [trace issued].
      rewrite <- app_assoc. reflexivity.
  - rewrite auth_check_other_status by assumption.
    destruct (attr_get "auth_url" (inherited self)) as [au|] eqn:Hau.
    2:{ exists su, [], dummy, st. right. split; [discriminate|].
        right; left. reflexivity. }
    cbv zeta. set (q1 := login_request rt self au res0 GIGYA_API_KEY).
    destruct (net (trace (issued q0 st)) q1) as [res1|e].
    2:{ exists su, au, res0, st. right. split; [discriminate|].
        do 3 right; left. cbn [snd trace issued].
        rewrite <- app_assoc. reflexivity. }
    destruct (auth_check_trace rt net self res1 (issued q1 (issued q0 st)))
      as [[Hr Ht]|[Hr (stT & Ht)]].
    + exists su, au, res0, st. right. split; [exact Hr|].
      do 3 right; left. rewrite Ht. cbn [trace issued].
      rewrite <- app_assoc. reflexivity.
    + exists su, au, res0, stT.
      assert (trace (snd (auth_check rt net self res1 (issued q1 (issued q0 st))))
              = trace st ++ [q0; q1; token_request self GIGYA_TOKEN_URL
                                       (PTuple [PList consent_id_list]) stT])
        as Ht'.
      { rewrite Ht. cbn [trace issued]. rewrite <- !app_assoc. reflexivity. }
      destruct (auth_check rt net self res1 (issued q1 (issued q0 st)))
        as [[[|]|e] st1]; cbn [fst snd] in *.
      * left. split; [reflexivity|right; exact Ht'].
      * congruence.
      * right. split; [discriminate|do 4 right; exact Ht'].
Qed.

(** After [login], [_get_streams] issues the media-info call or nothing,
    and nothing unless [login] returned [True]. *)
Lemma get_streams_tail rt net self st :
  truthy (username self) = true ->
  let r := login rt net self (url self) st in
  let run := _get_streams rt net self st in
  (fst r = Ok true
   /\ (trace (snd run) = trace (snd r)
       \/ exists ch stM,
            trace (snd run) = trace (snd r) ++ [media_request rt URL_API ch stM]))
  \/ (fst r <> Ok true /\ trace (snd run) = trace (snd r)).
Proof.
  intros Hu. cbv zeta. rewrite _get_streams_run by assumption.
  destruct (login rt net self (url self) st) as [[[|]|e] st1]; cbn [fst snd];
    [|right; split; [discriminate|reflexivity]..].
  left. split; [reflexivity|].
  destruct (_get_channel rt (match_ self)) as [[channel channel_id]|e];
    [|left; reflexivity].
  right. cbv zeta.
  match goal with
  | |- context [http_schema rt net (media_request rt URL_API ?c ?s) media_schema ?s] =>
      exists c, s;
      pose proof (http_schema_effects rt net (media_request rt URL_API c s)
                    media_schema s) as [HM _];
      destruct (http_schema rt net (media_request rt URL_API c s) media_schema s)
        as [[r|e] st3]
  end; cbn [snd] in HM |- *; [|exact HM].
  destruct (unpack2 r) as [[code data]|e];
    [destruct (negb (py_eq_int code 200))|]; exact HM.
Qed.

(** X10: the requests of a resolution come in a fixed order: the session
    request; then the credential login or not; then the token request;
    then the media-info call; and the resolution may stop after any of
    them.  So there is at most one request of each kind, the media-info
    call is never made without a token request before it, and no request
    is repeated. *)
Theorem request_order rt net self :
  exists su au res0 stT ch stM,
    let S := session_request su (url self) in
    let Lq := login_request rt self au res0 GIGYA_API_KEY in
    let T := token_request self GIGYA_TOKEN_URL
               (PTuple [PList consent_id_list]) stT in
    let Mq := media_request rt URL_API ch stM in
    In (trace (snd (_get_streams rt net self initial)))
       [[]; [S]; [S; T]; [S; T; Mq]; [S; Lq]; [S; Lq; T]; [S; Lq; T; Mq]].
Proof.
  destruct (truthy (username self)) eqn:Hu.
  2:{ exists [], [], {| status_code := 0; resp_url := []; json_body := None |},
        initial, [], initial. cbv zeta.
      rewrite get_streams_no_username by assumption. left. reflexivity. }
  destruct (login_trace rt net self (url self) initial)
    as (su & au & res0 & stT & HL). cbv zeta in HL.
  cbn [trace initial app] in HL.
  destruct (get_streams_tail rt net self initial Hu) as [[Ht HR]|[Ht HR]];
    cbv zeta in Ht, HR.
  - destruct HL as [[_ HL]|[HL _]]; [|congruence].
    destruct HR as [HR|(ch & stM & HR)].
    + exists su, au, res0, stT, [], initial. cbv zeta. rewrite HR.
      destruct HL as [-> | ->]; simpl; tauto.
    + exists su, au, res0, stT, ch, stM. cbv zeta. rewrite HR.
      destruct HL as [-> | ->]; simpl; tauto.
  - exists su, au, res0, stT, [], initial. cbv zeta. rewrite HR.
    destruct HL as [[HL _]|[_ HL]]; [congruence|].
    destruct HL as [-> |[-> |[-> |[-> | ->]]]]; simpl; tauto.
Qed.

(** ** The media-info call *)

Lemma format_url_api c : format_channel_id URL_API c = MEDIAINFO ++ c.
Proof.
  transitivity (MEDIAINFO ++ c ++ []); [reflexivity|]. now rewrite app_nil_r.
Qed.

(** A [login] that returns [True] ends with the token request, answered
    by a body whose [token] is the string now in [user_token]. *)
Lemma login_true_inv rt net self ptrt st st1 :
  login rt net self ptrt st = (Ok true, st1) ->
  exists pre qt res2 body t,
    trace st1 = pre ++ [qt]
    /\ method qt = POST /\ req_url qt = GIGYA_TOKEN_URL
    /\ net pre qt = NetResp res2
    /\ json_body res2 = Some body
    /\ py_getitem body (lit "token") = Ok (PStr t)
    /\ user_token st1 = PStr t.
Proof.
  intros H.
  destruct (attr_get "session_url" (inherited self)) as [su|] eqn:Hsu.
  2:{ rewrite login_no_session_url in H by assumption. discriminate. }
  rewrite (login_run rt net self ptrt st su Hsu) in H. cbv zeta in H.
  set (q0 := session_request su ptrt) in *.
  destruct (net (trace st) q0) as [res0|e]; [|discriminate].
  destruct (auth_check rt net self res0 (issued q0 st)) as [[[|]|e] st'] eqn:E0;
    [| |discriminate].
  - injection H as <-. apply auth_check_true_inv in E0.
    destruct E0 as (_ & j & sig & uid & ts & z & res2 & body & t
                    & _ & _ & _ & _ & _ & Hn & Hb & Ht & ->).
    do 5 eexists. cbn [trace logged user_token].
    repeat split; [exact Hn|exact Hb|exact Ht].
  - assert (status_code res0 <> 200) as Hs.
    { apply (auth_check_false rt net self res0 (issued q0 st)).
      now rewrite E0. }
    rewrite auth_check_other_status in E0 by assumption. injection E0 as <-.
    destruct (attr_get "auth_url" (inherited self)) as [au|]; [|discriminate].
    cbv zeta in H.
    destruct (net (trace (issued q0 st))
                (login_request rt self au res0 GIGYA_API_KEY)) as [res1|e];
      [|discriminate].
    apply auth_check_true_inv in H.
    destruct H as (_ & j & sig & uid & ts & z & res2 & body & t
                   & _ & _ & _ & _ & _ & Hn & Hb & Ht & ->).
    do 5 eexists. cbn [trace user_token].
    repeat split; [exact Hn|exact Hb|exact Ht].
Qed.

Lemma media_request_run rt net self st st1 channel channel_id :
  truthy (username self) = true ->
  login rt net self (url self) st = (Ok true, st1) ->
  _get_channel rt (match_ self) = Ok (channel, channel_id) ->
  exists pre qt res2 body t q,
    trace st1 = pre ++ [qt]
    /\ req_url qt = GIGYA_TOKEN_URL
    /\ net pre qt = NetResp res2
    /\ json_body res2 = Some body
    /\ py_getitem body (lit "token") = Ok (PStr t)
    /\ trace (snd (_get_streams rt net self st)) = trace st1 ++ [q]
    /\ method q = GET
    /\ req_url q = MEDIAINFO ++ channel_id
    /\ params q = PDict [(lit "context", PStr (lit "MYTF1"));
                         (lit "pver", PStr (lit "5015000"))]
    /\ data q = PNone
    /\ headers q = [(lit "User-Agent", useragents_IPHONE rt);
                    (lit "authorization", lit "Bearer " ++ t)].
Proof.
  intros Hu HL Hch. destruct (login_true_inv rt net self (url self) st st1 HL)
    as (pre & qt & res2 & body & t & Ht & _ & Hq & Hn & Hb & Htok & Hut).
  exists pre, qt, res2, body, t.
  rewrite _get_streams_run by assumption. rewrite HL, Hch. cbv zeta.
  set (st2 := logged DEBUG _ st1).
  exists (media_request rt URL_API channel_id st2).
  pose proof (http_schema_effects rt net (media_request rt URL_API channel_id st2)
                media_schema st2) as [HM _].
  repeat split; try assumption.
  - destruct (http_schema rt net (media_request rt URL_API channel_id st2)
                media_schema st2) as [[r|e] st3]; cbn [snd] in HM |- *;
      [|exact HM].
    destruct (unpack2 r) as [[code data]|e];
      [destruct (negb (py_eq_int code 200))|]; exact HM.
  - apply format_url_api.
  - cbn [headers media_request]. subst st2. cbn [user_token logged].
    rewrite Hut. reflexivity.
Qed.

(** X11: once [login] has returned [True] and the channel is resolved,
    [_get_streams] issues one more request, the media-info call: a GET to
    the media-info prefix followed by the channel id, with the fixed
    [context] and [pver], the iPhone user agent, and as [authorization]
    [Bearer] and the [token] string of the body that answered the token
    request, the last request of [login]. *)
Theorem media_request_is_authorized rt net self st st1 channel channel_id :
  truthy (username self) = true ->
  login rt net self (url self) st = (Ok true, st1) ->
  _get_channel rt (match_ self) = Ok (channel, channel_id) ->
  exists pre qt res2 body t q,
    trace st1 = pre ++ [qt]
    /\ req_url qt = GIGYA_TOKEN_URL
    /\ net pre qt = NetResp res2
    /\ json_body res2 = Some body
    /\ py_getitem body (lit "token") = Ok (PStr t)
    /\ trace (snd (_get_streams rt net self st)) = trace st1 ++ [q]
    /\ method q = GET
    /\ req_url q = MEDIAINFO ++ channel_id
    /\ params q = PDict [(lit "context", PStr (lit "MYTF1"));
                         (lit "pver", PStr (lit "5015000"))]
    /\ data q = PNone
    /\ headers q = [(lit "User-Agent", useragents_IPHONE rt);
                    (lit "authorization", lit "Bearer " ++ t)].
Proof. exact (media_request_run rt net self st st1 channel channel_id). Qed.

Lemma media_request_is_authorized_witness :
  let self := tf1_self (Some (lit "user")) (Some (lit "secret")) with_endpoints in
  let net := net_authenticated hls_delivery in
  exists q,
    In q (trace (snd (_get_streams ascii_runtime net self initial)))
    /\ req_url q = MEDIAINFO ++ lit "L_TF1"
    /\ headers q = [(lit "User-Agent", lit "Mozilla/5.0 (iPhone)");
                    (lit "authorization", lit "Bearer " ++ lit "tok")].
Proof.
  intros self net.
  destruct (media_request_is_authorized ascii_runtime net self initial
              (snd (login ascii_runtime net self tf1_direct initial))
              (lit "tf1") (lit "L_TF1") eq_refl eq_refl eq_refl)
    as (pre & qt & res2 & body & t & q & Ht & _ & Hn & Hb & Htok & Hq & _ & Hu
        & _ & _ & Hh).
  exists q. rewrite Hq. split; [apply in_or_app; right; left; reflexivity|].
  split; [exact Hu|]. rewrite Hh.
  assert (pre = [session_request (lit "https://www.tf1.fr/session") tf1_direct]
          /\ qt = token_request self GIGYA_TOKEN_URL
                    (PTuple [PList consent_id_list])
                    (asserted (PStr (lit "c2ln")) (PStr (lit "u-1")) 1700000000
                       (issued (session_request (lit "https://www.tf1.fr/session")
                                  tf1_direct) initial))) as [-> ->].
  { change (trace (snd (login ascii_runtime net self tf1_direct initial)))
      with ([session_request (lit "https://www.tf1.fr/session") tf1_direct]
            ++ [token_request self GIGYA_TOKEN_URL
                  (PTuple [PList consent_id_list])
                  (asserted (PStr (lit "c2ln")) (PStr (lit "u-1")) 1700000000
                     (issued (session_request (lit "https://www.tf1.fr/session")
                                tf1_direct) initial))]) in Ht.
    apply app_inj_tail in Ht. destruct Ht; split; congruence. }
  change (net [session_request (lit "https://www.tf1.fr/session") tf1_direct]
            (token_request self GIGYA_TOKEN_URL (PTuple [PList consent_id_list])
               (asserted (PStr (lit "c2ln")) (PStr (lit "u-1")) 1700000000
                  (issued (session_request (lit "https://www.tf1.fr/session")
                             tf1_direct) initial))))
    with (json_response 200 token_body) in Hn.
  injection Hn as <-. injection Hb as <-. injection Htok as <-. reflexivity.
Defined.

Lemma media_schema_unfold rt v :
  validate rt media_schema v =
    match v with
    | PDict body =>
        match dict_get (lit "delivery") body with
        | Some dl =>
            match validate rt success_shape dl with
            | Some r => Some r
            | None => validate rt failure_shape dl
            end
        | None => None
        end
    | _ => None
    end.
Proof.
  unfold media_schema. fold success_shape. fold failure_shape.
  remember success_shape as a. remember failure_shape as b.
  destruct v; try reflexivity. simpl.
  destruct (dict_get (lit "delivery") items) as [dl|]; [|reflexivity].
  destruct (validate rt a dl); [reflexivity|].
  destruct (validate rt b dl); reflexivity.
Qed.

Lemma success_shape_accepts rt dl r :
  validate rt success_shape dl = Some r ->
  exists d c f s,
    dl = PDict d
    /\ dict_get (lit "code") d = Some c /\ py_eq_int c 200 = true
    /\ dict_get (lit "format") d = Some f /\ py_eq_str f (lit "hls") = true
    /\ dict_get (lit "url") d = Some (PStr s) /\ valid_url rt s = true
    /\ r = PTuple [c; PStr s].
Proof.
  unfold success_shape. simpl.
  destruct dl as [| | | | | | |d]; try discriminate.
  destruct (dict_get (lit "code") d) as [c|] eqn:E1; [|discriminate].
  destruct (py_eq_int c 200) eqn:Hc; [|discriminate].
  destruct (dict_get (lit "format") d) as [f|] eqn:E2; [|discriminate].
  destruct (py_eq_str f (lit "hls")) eqn:Hf; [|discriminate].
  destruct (dict_get (lit "url") d) as [[]|] eqn:E3; try discriminate.
  destruct (valid_url rt s) eqn:Hu; [|discriminate].
  simpl. intros [= <-]. exists d, c, f, s. repeat split; assumption.
Qed.

Lemma failure_shape_accepts rt dl r :
  validate rt failure_shape dl = Some r ->
  exists d c s,
    dl = PDict d
    /\ dict_get (lit "code") d = Some c /\ isinstance c TInt = true
    /\ dict_get (lit "error") d = Some (PStr s)
    /\ r = PTuple [c; PStr s].
Proof.
  unfold failure_shape. simpl.
  destruct dl as [| | | | | | |d]; try discriminate.
  destruct (dict_get (lit "code") d) as [[]|] eqn:E1; try discriminate.
  all: destruct (dict_get (lit "error") d) as [[]|] eqn:E2; try discriminate.
  all: simpl; intros [= <-]; do 3 eexists; repeat split; try eassumption;
    reflexivity.
Qed.

Lemma success_shape_validates rt d c f u :
  dict_get (lit "code") d = Some c -> py_eq_int c 200 = true ->
  dict_get (lit "format") d = Some f -> py_eq_str f (lit "hls") = true ->
  dict_get (lit "url") d = Some (PStr u) -> valid_url rt u = true ->
  validate rt success_shape (PDict d) = Some (PTuple [c; PStr u]).
Proof.
  intros Hc Hc' Hf Hf' Hu Hu'. unfold success_shape. simpl.
  rewrite Hc, Hc', Hf, Hf', Hu, Hu'. reflexivity.
Qed.

(** X12: once [login] has returned [True] and the channel is resolved, a
    media-info response whose delivery holds a [code] equal to 200, the
    [format] ["hls"] and a valid [url] makes [_get_streams] call the HLS
    parser on exactly that URL; no error is logged. *)
Theorem hls_delivery_is_parsed rt net self st st1 channel channel_id
    res body d c f u :
  truthy (username self) = true ->
  login rt net self (url self) st = (Ok true, st1) ->
  _get_channel rt (match_ self) = Ok (channel, channel_id) ->
  let st2 := logged DEBUG (found_channel_msg channel channel_id) st1 in
  let q := media_request rt URL_API channel_id st2 in
  net (trace st2) q = NetResp res ->
  json_body res = Some (PDict body) ->
  dict_get (lit "delivery") body = Some (PDict d) ->
  dict_get (lit "code") d = Some c -> py_eq_int c 200 = true ->
  dict_get (lit "format") d = Some f -> py_eq_str f (lit "hls") = true ->
  dict_get (lit "url") d = Some (PStr u) -> valid_url rt u = true ->
  _get_streams rt net self st = (Ok (ParseVariantPlaylist (PStr u)), issued q st2).
Proof.
  intros Hu HL Hch st2 q Hn Hb Hd Hc Hc' Hf Hf' Hurl Hv.
  rewrite _get_streams_run by assumption. rewrite HL, Hch. cbv zeta.
  fold (found_channel_msg channel channel_id). fold st2. fold q.
  rewrite http_schema_run, Hn, Hb, media_schema_unfold, Hd.
  rewrite (success_shape_validates rt d c f u) by assumption.
  cbn [unpack2]. rewrite Hc'. reflexivity.
Qed.

Lemma hls_delivery_is_parsed_witness :
  let self := tf1_self (Some (lit "user")) (Some (lit "secret")) with_endpoints in
  fst (_get_streams ascii_runtime (net_authenticated hls_delivery) self initial)
  = Ok (ParseVariantPlaylist (PStr (lit "https://example.test/manifest.m3u8"))).
Proof.
  intros self.
  rewrite (hls_delivery_is_parsed ascii_runtime (net_authenticated hls_delivery)
             self initial
             (snd (login ascii_runtime (net_authenticated hls_delivery) self
                     tf1_direct initial))
             (lit "tf1") (lit "L_TF1")
             {| status_code := 200; resp_url := lit "https://www.tf1.fr/";
                json_body := Some (delivery_body hls_delivery) |}
             [(lit "delivery", hls_delivery)]
             [(lit "code", PInt 200); (lit "format", PStr (lit "hls"));
              (lit "url", PStr (lit "https://example.test/manifest.m3u8"))]
             (PInt 200) (PStr (lit "hls"))
             (lit "https://example.test/manifest.m3u8")
             eq_refl eq_refl eq_refl eq_refl eq_refl eq_refl eq_refl eq_refl
             eq_refl eq_refl eq_refl eq_refl).
  reflexivity.
Defined.

(** X13: whatever the network answers, the value that [_get_streams]
    hands to the HLS parser is a string: the [url] or the [error] of a
    delivery that the schema has accepted. *)
Theorem parser_gets_a_string rt net self st data :
  fst (_get_streams rt net self st) = Ok (ParseVariantPlaylist data) ->
  exists s, data = PStr s.
Proof.
  destruct (truthy (username self)) eqn:Hu.
  2:{ rewrite get_streams_no_username by assumption. discriminate. }
  rewrite _get_streams_run by assumption.
  destruct (login rt net self (url self) st) as [[[|]|e] st1];
    [|discriminate..].
  destruct (_get_channel rt (match_ self)) as [[channel channel_id]|e];
    [|discriminate].
  cbv zeta. rewrite http_schema_run.
  match goal with
  | |- context [net ?h ?q] => destruct (net h q) as [res|e]
  end; [|discriminate].
  destruct (json_body res) as [v|]; [|discriminate].
  destruct (validate rt media_schema v) as [r|] eqn:Hv; [|discriminate].
  rewrite media_schema_unfold in Hv.
  destruct v as [| | | | | | |body]; try discriminate.
  destruct (dict_get (lit "delivery") body) as [dl|]; [|discriminate].
  assert (exists c s, r = PTuple [c; PStr s]) as (c & s & ->).
  { destruct (validate rt success_shape dl) as [r'|] eqn:Hs.
    - injection Hv as <-. apply success_shape_accepts in Hs.
      destruct Hs as (d & c & f & s & _ & _ & _ & _ & _ & _ & _ & ->). eauto.
    - apply failure_shape_accepts in Hv.
      destruct Hv as (d & c & s & _ & _ & _ & _ & ->). eauto. }
  cbn [unpack2]. destruct (negb (py_eq_int c 200)); [discriminate|].
  cbn [fst]. intros [= <-]. eauto.
Qed.

Lemma parser_gets_a_string_witness :
  exists s, PStr (lit "geo-blocked") = PStr s.
Proof.
  apply (parser_gets_a_string ascii_runtime (net_authenticated (geo_blocked 200))
           (tf1_self (Some (lit "user")) (Some (lit "secret")) with_endpoints)
           initial (PStr (lit "geo-blocked"))).
  reflexivity.
Defined.

(** X14: the class body defines no [auth_url] either: unless the base
    class provides one, a session answer with a status other than 200 ends
    the resolution with an [AttributeError] at [self.auth_url], after the
    session request and before any credential login. *)
Theorem auth_url_is_not_defined rt net self su res0 :
  truthy (username self) = true ->
  attr_get "session_url" (inherited self) = Some su ->
  attr_get "auth_url" (inherited self) = None ->
  net [] (session_request su (url self)) = NetResp res0 ->
  status_code res0 <> 200 ->
  attr_get "auth_url" TF1_class = None
  /\ _get_streams rt net self initial
     = (Raise (AttributeError "auth_url"),
        issued (session_request su (url self)) initial).
Proof.
  intros Hu Hsu Hau Hn Hs. split; [reflexivity|].
  rewrite _get_streams_run by assumption.
  rewrite (login_run rt net self (url self) initial su Hsu). cbv zeta.
  change (trace initial) with (@nil request). rewrite Hn.
  rewrite auth_check_other_status by assumption. rewrite Hau. reflexivity.
Qed.

Lemma auth_url_is_not_defined_witness :
  _get_streams ascii_runtime net_rejected
    (tf1_self (Some (lit "user")) (Some (lit "secret"))
       [("session_url"%string, lit "https://www.tf1.fr/session")])
    initial
  = (Raise (AttributeError "auth_url"),
     issued (session_request (lit "https://www.tf1.fr/session") tf1_direct)
            initial).
Proof.
  refine (proj2 (auth_url_is_not_defined ascii_runtime net_rejected
            (tf1_self (Some (lit "user")) (Some (lit "secret"))
               [("session_url"%string, lit "https://www.tf1.fr/session")])
            (lit "https://www.tf1.fr/session")
            {| status_code := 204; resp_url := lit "https://www.tf1.fr/?ptrt=x";
               json_body := None |}
            eq_refl eq_refl eq_refl eq_refl _)).
  discriminate.
Defined.

(** ** What is logged *)

Lemma media_result_shape rt net q st r st' :
  http_schema rt net q media_schema st = (Ok r, st') ->
  exists c s, r = PTuple [c; PStr s].
Proof.
  rewrite http_schema_run.
  destruct (net (trace st) q) as [res|e]; [|discriminate].
  destruct (json_body res) as [v|]; [|discriminate].
  destruct (validate rt media_schema v) as [r'|] eqn:Hv; [|discriminate].
  intros [= <- _]. rewrite media_schema_unfold in Hv.
  destruct v as [| | | | | | |body]; try discriminate.
  destruct (dict_get (lit "delivery") body) as [dl|]; [|discriminate].
  destruct (validate rt success_shape dl) as [r''|] eqn:Hs.
  - injection Hv as <-. apply success_shape_accepts in Hs.
    destruct Hs as (d & c & f & s & _ & _ & _ & _ & _ & _ & _ & ->). eauto.
  - apply failure_shape_accepts in Hv.
    destruct Hv as (d & c & s & _ & _ & _ & _ & ->). eauto.
Qed.

(** [login] logs its one debug record when the session request finds the
    user logged in, and nothing else. *)
Lemma login_log rt net self ptrt st :
  let r := login rt net self ptrt st in
  log (snd r) = log st
  \/ (fst r = Ok true
      /\ log (snd r) = log st ++ [(DEBUG, already_authenticated_msg)]).
Proof.
  cbv zeta.
  destruct (attr_get "session_url" (inherited self)) as [su|] eqn:Hsu.
  2:{ left. rewrite login_no_session_url by assumption. reflexivity. }
  rewrite (login_run rt net self ptrt st su Hsu). cbv zeta.
  set (q0 := session_request su ptrt).
  destruct (net (trace st) q0) as [res0|e]; [|left; reflexivity].
  pose proof (auth_check_keeps_log rt net self res0 (issued q0 st)) as H0.
  destruct (auth_check rt net self res0 (issued q0 st)) as [[[|]|e] st1];
    cbn [snd] in H0.
  - right. split; [reflexivity|]. cbn [snd log logged]. rewrite H0. reflexivity.
  - left. destruct (attr_get "auth_url" (inherited self)) as [au|];
      [|exact H0]. cbv zeta.
    destruct (net (trace st1) (login_request rt self au res0 GIGYA_API_KEY))
      as [res1|e]; [|exact H0].
    rewrite auth_check_keeps_log. exact H0.
  - left. exact H0.
Qed.

(** X15: a resolution logs, in this order, at most: the debug record of
    an existing login, the debug record of the channel that [_get_channel]
    found, and an error carrying the string that the media-info call
    returned; or it logs only the missing-credentials error, or only the
    could-not-authenticate error. *)
Theorem log_contents rt net self :
  exists s,
    let already := (DEBUG, already_authenticated_msg) in
    let found :=
      (DEBUG, match _get_channel rt (match_ self) with
              | Ok (channel, channel_id) => found_channel_msg channel channel_id
              | Raise _ => PNone
              end) in
    let failed := (ERROR, PStr s) in
    In (log (snd (_get_streams rt net self initial)))
       [[]; [(ERROR, missing_credentials_msg)];
        [(ERROR, could_not_authenticate_msg)];
        [already]; [found]; [already; found];
        [found; failed]; [already; found; failed]].
Proof.
  destruct (truthy (username self)) eqn:Hu.
  2:{ exists []. cbv zeta.
      rewrite get_streams_no_username by assumption. right; left. reflexivity. }
  rewrite _get_streams_run by assumption.
  pose proof (login_log rt net self (url self) initial) as HL. cbv zeta in HL.
  change (log initial) with (@nil (level * pyval)) in HL. cbn [app] in HL.
  destruct (login rt net self (url self) initial) as [[[|]|e] st1];
    cbn [fst snd] in HL.
  - assert (log st1 = [] \/ log st1 = [(DEBUG, already_authenticated_msg)])
      as Hl1 by (destruct HL as [HL|[_ HL]]; auto).
    clear HL.
    destruct (_get_channel rt (match_ self)) as [[channel channel_id]|e].
    + cbv zeta. fold (found_channel_msg channel channel_id).
      set (st2 := logged DEBUG (found_channel_msg channel channel_id) st1).
      pose proof (http_schema_effects rt net
                    (media_request rt URL_API channel_id st2) media_schema st2)
        as [_ HM].
      destruct (http_schema rt net (media_request rt URL_API channel_id st2)
                  media_schema st2) as [[r|e] st3] eqn:HS; cbn [snd] in HM |- *.
      * apply media_result_shape in HS. destruct HS as (c & s & ->).
        exists s. cbv zeta. cbn [unpack2].
        destruct (negb (py_eq_int c 200)); cbn [snd log logged];
          rewrite HM; subst st2; cbn [log logged];
          destruct Hl1 as [-> | ->]; simpl; tauto.
      * exists []. cbv zeta. rewrite HM. subst st2.
        cbn [log logged]. destruct Hl1 as [-> | ->]; simpl; tauto.
    + exists []. cbv zeta. cbn [snd].
      destruct Hl1 as [-> | ->]; simpl; tauto.
  - exists []. cbv zeta. cbn [snd log logged].
    destruct HL as [-> |[HL _]]; [|discriminate]. simpl; tauto.
  - exists []. cbv zeta. cbn [snd].
    destruct HL as [-> |[HL _]]; [|discriminate]. simpl; tauto.
Qed.

Lemma auth_check_true_witness :
  let self := tf1_self (Some (lit "user")) (Some (lit "secret")) with_endpoints in
  let res := {| status_code := 200; resp_url := lit "https://www.tf1.fr/";
                json_body := Some assertion_body |} in
  status_code res = 200
  /\ snd (auth_check ascii_runtime net_string_timestamp self res initial)
     = mkState (PStr (lit "c2ln")) (PStr (lit "u-1")) (PInt 1700000000)
               (PStr (lit "tok"))
               [token_request self GIGYA_TOKEN_URL (PTuple [PList consent_id_list])
                  (asserted (PStr (lit "c2ln")) (PStr (lit "u-1")) 1700000000
                     initial)]
               [].
Proof.
  intros self res.
  destruct (auth_check_true ascii_runtime net_string_timestamp self res initial
              (snd (auth_check ascii_runtime net_string_timestamp self res initial))
              eq_refl) as (Hs & _).
  split; [exact Hs|reflexivity].
Defined.

(** ** From the URL to the media-info call *)

(** X16: for a URL of the live form, once [login] has returned [True],
    the resolution ends with the media-info call, a request to the
    media-info prefix followed by [L_] and the slug in upper case. *)
Theorem live_url_media_request rt net base p slug rest user pass st1 :
  url_prefix p -> in_class rt slug -> truthy user = true ->
  let u := p ++ lit "tf1.fr/" ++ slug ++ lit "/direct" ++ rest in
  login rt net (mkPlugin u [("live"%string, slug)] user pass base) u initial
  = (Ok true, st1) ->
  exists run q,
    resolve rt net base u user pass = Some run
    /\ trace (snd run) = trace st1 ++ [q]
    /\ method q = GET
    /\ req_url q = MEDIAINFO ++ lit "L_" ++ upper rt slug.
Proof.
  intros Hp Hc Hu u HL. unfold resolve. subst u.
  rewrite live_url_match by assumption.
  destruct (media_request_run rt net
              (mkPlugin (p ++ lit "tf1.fr/" ++ slug ++ lit "/direct" ++ rest)
                 [("live"%string, slug)] user pass base)
              initial st1 slug (lit "L_" ++ upper rt slug) Hu HL)
    as (pre & qt & res2 & body & t & q & _ & _ & _ & _ & _ & Hq & Hm & Hurl & _).
  { apply get_channel_live. apply Hc. }
  eexists. exists q. split; [reflexivity|]. repeat split; assumption.
Qed.

Lemma live_url_media_request_witness :
  exists run q,
    resolve ascii_runtime (net_authenticated hls_delivery) with_endpoints
      (lit "https://www." ++ lit "tf1.fr/" ++ lit "tmc" ++ lit "/direct" ++ [])
      (Some (lit "user")) (Some (lit "secret")) = Some run
    /\ In q (trace (snd run))
    /\ req_url q = MEDIAINFO ++ lit "L_TMC".
Proof.
  destruct (live_url_media_request ascii_runtime (net_authenticated hls_delivery)
              with_endpoints (lit "https://www.") (lit "tmc") []
              (Some (lit "user")) (Some (lit "secret"))
              (snd (login ascii_runtime (net_authenticated hls_delivery)
                      (mkPlugin (lit "https://www.tf1.fr/tmc/direct")
                         [("live"%string, lit "tmc")] (Some (lit "user"))
                         (Some (lit "secret")) with_endpoints)
                      (lit "https://www.tf1.fr/tmc/direct") initial)))
    as (run & q & Hr & Ht & _ & Hu).
  - right; right; right; left. reflexivity.
  - split; [discriminate|]. repeat constructor.
  - reflexivity.
  - reflexivity.
  - exists run, q. split; [exact Hr|]. split; [|exact Hu].
    rewrite Ht. apply in_or_app. right. left. reflexivity.
Defined.

(** ** What an earlier run leaves in the attributes *)

Lemma auth_check_not_json rt net self res st :
  status_code res = 200 -> json_body res = None ->
  auth_check rt net self res st = (Raise JSONDecodeError, st).
Proof.
  intros Hs Hj. unfold auth_check, res_json. rewrite Hs, Hj. reflexivity.
Qed.

Lemma auth_check_same rt net self res st st' :
  same_history st st' ->
  let r := auth_check rt net self res st in
  let r' := auth_check rt net self res st' in
  fst r = fst r' /\ same_history (snd r) (snd r')
  /\ (fst r = Ok true -> snd r = snd r')
  /\ (fst r = Ok false -> snd r = st /\ snd r' = st').
Proof.
  intros [Ht Hl]. cbv zeta.
  destruct st as [a b c d tr lg], st' as [a' b' c' d' tr' lg'].
  cbn [trace log] in Ht, Hl. subst tr' lg'.
  destruct (Z.eq_dec (status_code res) 200) as [Hs|Hs].
  2:{ rewrite !auth_check_other_status by assumption.
      repeat split; reflexivity || discriminate. }
  destruct (json_body res) as [j|] eqn:Hj.
  2:{ rewrite !auth_check_not_json by assumption.
      repeat split; reflexivity || discriminate. }
  pose proof (fun st => auth_check_raise_states rt net self res st j Hs Hj) as F.
  destruct (py_getitem j (lit "userSignature")) as [sig|e] eqn:E1.
  2:{ rewrite !(proj1 (F _) e eq_refl).
      repeat split; reflexivity || discriminate. }
  destruct (py_getitem j (lit "UID")) as [uid|e] eqn:E2.
  2:{ rewrite !(proj1 (proj2 (F _)) sig e eq_refl eq_refl).
      repeat split; reflexivity || discriminate. }
  destruct (py_getitem j (lit "timestamp")) as [ts|e] eqn:E3.
  2:{ rewrite !(proj2 (proj2 (F _)) sig uid PNone e eq_refl eq_refl
                  (or_introl eq_refl)).
      repeat split; reflexivity || discriminate. }
  destruct (py_int rt ts) as [z|e] eqn:E4.
  2:{ rewrite !(proj2 (proj2 (F _)) sig uid ts e eq_refl eq_refl
                  (or_intror (conj eq_refl E4))).
      repeat split; reflexivity || discriminate. }
  rewrite !(auth_check_asserted rt net self res _ j sig uid ts z) by assumption.
  rewrite !token_exchange_run. cbv zeta.
  destruct (token_schema_expr rt) as [sc|e];
    [|repeat split; reflexivity || discriminate].
  rewrite !http_schema_run. cbn [trace asserted].
  change (token_request self GIGYA_TOKEN_URL (PTuple [PList consent_id_list])
            (asserted sig uid z (mkState a' b' c' d' tr lg)))
    with (token_request self GIGYA_TOKEN_URL (PTuple [PList consent_id_list])
            (asserted sig uid z (mkState a b c d tr lg))).
  destruct (net tr _) as [res2|e];
    [destruct (json_body res2) as [v|];
      [destruct (validate rt sc v) as [v'|];
        [destruct (py_getitem v' (lit "token"))|]|]|];
    repeat split; reflexivity || discriminate.
Qed.

Lemma login_same rt net self ptrt st st' :
  same_history st st' ->
  let r := login rt net self ptrt st in
  let r' := login rt net self ptrt st' in
  fst r = fst r' /\ same_history (snd r) (snd r')
  /\ (fst r = Ok true -> snd r = snd r').
Proof.
  intros H. cbv zeta.
  destruct (attr_get "session_url" (inherited self)) as [su|] eqn:Hsu.
  2:{ rewrite !login_no_session_url by assumption.
      repeat split; try apply H. discriminate. }
  rewrite !(login_run rt net self ptrt _ su Hsu). cbv zeta.
  set (q0 := session_request su ptrt).
  assert (same_history (issued q0 st) (issued q0 st')) as H0.
  { destruct H as [Ht Hl]. split; cbn [trace log issued]; congruence. }
  replace (trace st') with (trace st) by apply H.
  destruct (net (trace st) q0) as [res0|e].
  2:{ repeat split; try apply H0. discriminate. }
  destruct (auth_check_same rt net self res0 _ _ H0) as (Hf & Hs & Htrue & Hfalse).
  cbv zeta in Hf, Hs, Htrue, Hfalse.
  destruct (auth_check rt net self res0 (issued q0 st)) as [[[|]|e] s1],
           (auth_check rt net self res0 (issued q0 st')) as [x' s1'];
    cbn [fst snd] in *; subst x'.
  - rewrite (Htrue eq_refl). repeat split.
  - destruct (Hfalse eq_refl) as [-> ->].
    destruct (attr_get "auth_url" (inherited self)) as [au|].
    2:{ repeat split; try apply H0. discriminate. }
    cbv zeta. set (q1 := login_request rt self au res0 GIGYA_API_KEY).
    assert (same_history (issued q1 (issued q0 st)) (issued q1 (issued q0 st')))
      as H1.
    { destruct H0 as [Ht Hl]. split; cbn [trace log issued] in *; congruence. }
    replace (trace (issued q0 st')) with (trace (issued q0 st)) by apply H0.
    destruct (net (trace (issued q0 st)) q1) as [res1|e].
    2:{ repeat split; try apply H1. discriminate. }
    destruct (auth_check_same rt net self res1 _ _ H1) as (Hf1 & Hs1 & Ht1 & _).
    auto.
  - repeat split; try apply Hs. discriminate.
Qed.

(** X17: the [user_*] attributes that an earlier run left on the instance
    do not influence a run: from two states with the same requests issued
    and the same records logged, [_get_streams] returns the same result,
    issues the same requests and logs the same records. *)
Theorem stale_attributes_do_not_matter rt net self st st' :
  same_history st st' ->
  fst (_get_streams rt net self st) = fst (_get_streams rt net self st')
  /\ same_history (snd (_get_streams rt net self st))
                  (snd (_get_streams rt net self st')).
Proof.
  intros H. destruct (truthy (username self)) eqn:Hu.
  2:{ rewrite !get_streams_no_username by assumption.
      split; [reflexivity|]. destruct H as [Ht Hl].
      split; cbn [snd trace log logged]; congruence. }
  rewrite !_get_streams_run by assumption.
  destruct (login_same rt net self (url self) st st' H) as (Hf & Hs & Htrue).
  cbv zeta in Hf, Hs, Htrue.
  destruct (login rt net self (url self) st) as [[[|]|e] s1],
           (login rt net self (url self) st') as [x' s1'];
    cbn [fst snd] in *; subst x'.
  - rewrite (Htrue eq_refl). split; [reflexivity|split; reflexivity].
  - split; [reflexivity|]. destruct Hs as [Ht Hl].
    split; cbn [snd trace log logged]; congruence.
  - split; [reflexivity|exact Hs].
Qed.

Lemma stale_attributes_do_not_matter_witness :
  let self := tf1_self (Some (lit "user")) (Some (lit "secret")) with_endpoints in
  let used := mkState (PStr (lit "old")) (PStr (lit "u-0")) (PInt 1)
                      (PStr (lit "expired")) [] [] in
  fst (_get_streams ascii_runtime net_rejected self initial)
  = fst (_get_streams ascii_runtime net_rejected self used).
Proof.
  intros self used.
  apply (stale_attributes_do_not_matter ascii_runtime net_rejected self
           initial used).
  split; reflexivity.
Defined.

(** ** The runs that succeed *)

Lemma token_schema_validates rt d t r n ty :
  dict_get (lit "token") d = Some (PStr t) ->
  dict_get (lit "refresh_token") d = Some (PStr r) ->
  dict_get (lit "ttl") d = Some n -> isinstance n TInt = true ->
  dict_get (lit "type") d = Some (PStr ty) ->
  validate rt token_schema (PDict d)
  = Some (PDict [(lit "token", PStr t); (lit "refresh_token", PStr r);
                 (lit "ttl", n); (lit "type", PStr ty)]).
Proof.
  intros Ht Hr Hn Hi Hty. unfold token_schema, validate_text, validate_integer.
  simpl. rewrite Ht, Hr, Hn, Hty. simpl.
  unfold isinstance in Hi. rewrite Hi. reflexivity.
Qed.

Lemma auth_check_success rt net self res st j sig uid ts z res2 d t r n ty :
  validate_defines rt "text" = true ->
  validate_defines rt "integer" = true ->
  status_code res = 200 ->
  json_body res = Some j ->
  py_getitem j (lit "userSignature") = Ok sig ->
  py_getitem j (lit "UID") = Ok uid ->
  py_getitem j (lit "timestamp") = Ok ts ->
  py_int rt ts = Ok z ->
  let qt := token_request self GIGYA_TOKEN_URL (PTuple [PList consent_id_list])
              (asserted sig uid z st) in
  net (trace st) qt = NetResp res2 ->
  json_body res2 = Some (PDict d) ->
  dict_get (lit "token") d = Some (PStr t) ->
  dict_get (lit "refresh_token") d = Some (PStr r) ->
  dict_get (lit "ttl") d = Some n -> isinstance n TInt = true ->
  dict_get (lit "type") d = Some (PStr ty) ->
  auth_check rt net self res st
  = (Ok true, mkState sig uid (PInt z) (PStr t) (trace st ++ [qt]) (log st)).
Proof.
  intros Hvt Hvi Hs Hj Hsig Huid Hts Hz qt Hn Hb Ht Hr Hnn Hi Hty.
  rewrite (auth_check_asserted rt net self res st j sig uid ts z) by assumption.
  rewrite token_exchange_run. cbv zeta. fold qt.
  rewrite token_schema_expr_defined by assumption. rewrite http_schema_run.
  cbn [trace asserted]. rewrite Hn, Hb.
  rewrite (token_schema_validates rt d t r n ty) by assumption.
  reflexivity.
Qed.

(** X18: where the [validate] module defines [text] and [integer]: when
    the status is 200, the body holds the three fields with a timestamp
    that [int] accepts, and the token request is answered by a body with
    [token], [refresh_token] and [type] as strings and [ttl] as an
    integer, [auth_check] returns [True] and leaves the signature, the
    user id, the integer timestamp and the token in the four attributes. *)
Theorem auth_check_succeeds rt net self res st j sig uid ts z res2 d t r n ty :
  validate_defines rt "text" = true ->
  validate_defines rt "integer" = true ->
  status_code res = 200 ->
  json_body res = Some j ->
  py_getitem j (lit "userSignature") = Ok sig ->
  py_getitem j (lit "UID") = Ok uid ->
  py_getitem j (lit "timestamp") = Ok ts ->
  py_int rt ts = Ok z ->
  let qt := token_request self GIGYA_TOKEN_URL (PTuple [PList consent_id_list])
              (asserted sig uid z st) in
  net (trace st) qt = NetResp res2 ->
  json_body res2 = Some (PDict d) ->
  dict_get (lit "token") d = Some (PStr t) ->
  dict_get (lit "refresh_token") d = Some (PStr r) ->
  dict_get (lit "ttl") d = Some n -> isinstance n TInt = true ->
  dict_get (lit "type") d = Some (PStr ty) ->
  auth_check rt net self res st
  = (Ok true, mkState sig uid (PInt z) (PStr t) (trace st ++ [qt]) (log st)).
Proof.
  exact (auth_check_success rt net self res st j sig uid ts z res2 d t r n ty).
Qed.

Lemma auth_check_succeeds_witness :
  let self := tf1_self (Some (lit "user")) (Some (lit "secret")) with_endpoints in
  let res := {| status_code := 200; resp_url := lit "https://www.tf1.fr/";
                json_body := Some assertion_body |} in
  fst (auth_check ascii_runtime net_string_timestamp self res initial) = Ok true.
Proof.
  intros self res.
  rewrite (auth_check_succeeds ascii_runtime net_string_timestamp self res initial
             assertion_body (PStr (lit "c2ln")) (PStr (lit "u-1"))
             (PStr (lit "1700000000")) 1700000000
             {| status_code := 200; resp_url := lit "https://www.tf1.fr/";
                json_body := Some token_body |}
             [(lit "token", PStr (lit "tok"));
              (lit "refresh_token", PStr (lit "ref"));
              (lit "ttl", PInt 3600); (lit "type", PStr (lit "Bearer"))]
             (lit "tok") (lit "ref") (PInt 3600) (lit "Bearer")
             eq_refl eq_refl
             eq_refl eq_refl eq_refl eq_refl eq_refl eq_refl eq_refl eq_refl
             eq_refl eq_refl eq_refl eq_refl eq_refl).
  reflexivity.
Defined.

(** X19: where the [validate] module defines [text] and [integer]: when
    the session request is answered with a status other than 200, the
    credential login with a 200 and an assertion, and the token request
    with a well-formed body, [login] returns [True] after exactly these
    three requests, in this order, and logs nothing; the login carries the
    two options and the API key of the class, and as query what
    [urlparse] finds in the URL of the session response. *)
Theorem credential_login_succeeds rt net self ptrt su au res0 res1
    j sig uid ts z res2 d t r n ty :
  validate_defines rt "text" = true ->
  validate_defines rt "integer" = true ->
  attr_get "session_url" (inherited self) = Some su ->
  attr_get "auth_url" (inherited self) = Some au ->
  let S := session_request su ptrt in
  let Lq := login_request rt self au res0 GIGYA_API_KEY in
  let T := token_request self GIGYA_TOKEN_URL (PTuple [PList consent_id_list])
             (asserted sig uid z initial) in
  net [] S = NetResp res0 -> status_code res0 <> 200 ->
  net [S] Lq = NetResp res1 -> status_code res1 = 200 ->
  json_body res1 = Some j ->
  py_getitem j (lit "userSignature") = Ok sig ->
  py_getitem j (lit "UID") = Ok uid ->
  py_getitem j (lit "timestamp") = Ok ts ->
  py_int rt ts = Ok z ->
  net [S; Lq] T = NetResp res2 ->
  json_body res2 = Some (PDict d) ->
  dict_get (lit "token") d = Some (PStr t) ->
  dict_get (lit "refresh_token") d = Some (PStr r) ->
  dict_get (lit "ttl") d = Some n -> isinstance n TInt = true ->
  dict_get (lit "type") d = Some (PStr ty) ->
  login rt net self ptrt initial
  = (Ok true, mkState sig uid (PInt z) (PStr t) [S; Lq; T] [])
  /\ params Lq = PStr (urlparse_query rt (resp_url res0))
  /\ data Lq = PDict [(lit "loginID", opt_val (username self));
                      (lit "password", opt_val (password self));
                      (lit "APIKey", PStr GIGYA_API_KEY)].
Proof.
  intros Hvt Hvi Hsu Hau S Lq T Hn0 Hs0 Hn1 Hs1 Hj Hsig Huid Hts Hz Hn2 Hb Ht Hr
         Hnn Hi Hty.
  split; [|split; reflexivity].
  rewrite (login_run rt net self ptrt initial su Hsu). cbv zeta.
  change (trace initial) with (@nil request). fold S. rewrite Hn0.
  rewrite auth_check_other_status by assumption. rewrite Hau. cbv zeta.
  fold Lq. change (trace (issued S initial)) with [S]. rewrite Hn1.
  rewrite (auth_check_success rt net self res1 (issued Lq (issued S initial))
             j sig uid ts z res2 d t r n ty); try assumption.
  reflexivity.
Qed.

Lemma credential_login_succeeds_witness :
  let self := tf1_self (Some (lit "user")) (Some (lit "secret")) with_endpoints in
  exists st1,
    login ascii_runtime (net_credentials hls_delivery) self tf1_direct initial
    = (Ok true, st1)
    /\ List.length (trace st1) = 3%nat /\ log st1 = [].
Proof.
  intros self.
  destruct (credential_login_succeeds ascii_runtime (net_credentials hls_delivery)
              self tf1_direct (lit "https://www.tf1.fr/session")
              (lit "https://compte.tf1.fr/accounts.login")
              {| status_code := 204; resp_url := lit "https://www.tf1.fr/?ptrt=x";
                 json_body := None |}
              {| status_code := 200; resp_url := lit "https://www.tf1.fr/";
                 json_body := Some assertion_body_int |}
              assertion_body_int (PStr (lit "c2ln")) (PStr (lit "u-1"))
              (PInt 1700000000) 1700000000
              {| status_code := 200; resp_url := lit "https://www.tf1.fr/";
                 json_body := Some token_body |}
              [(lit "token", PStr (lit "tok"));
               (lit "refresh_token", PStr (lit "ref"));
               (lit "ttl", PInt 3600); (lit "type", PStr (lit "Bearer"))]
              (lit "tok") (lit "ref") (PInt 3600) (lit "Bearer"))
    as (H & _); try reflexivity; try discriminate.
  eexists. split; [exact H|]. split; reflexivity.
Defined.

(** ** The body of the token request *)

Lemma is_token_session su ptrt : is_token (session_request su ptrt) = false.
Proof. reflexivity. Qed.

Lemma is_token_login rt self au res0 key :
  is_token (login_request rt self au res0 key) = false.
Proof. reflexivity. Qed.

Lemma is_token_media rt template channel_id st :
  is_token (media_request rt template channel_id st) = false.
Proof. reflexivity. Qed.

(** The only request of a resolution that is a token exchange is the one
    that [auth_check] builds. *)
Lemma token_requests_of_run rt net self q :
  In q (trace (snd (_get_streams rt net self initial))) ->
  is_token q = true ->
  exists stT,
    q = token_request self GIGYA_TOKEN_URL (PTuple [PList consent_id_list]) stT.
Proof.
  intros Hin Hq.
  destruct (truthy (username self)) eqn:Hu.
  2:{ rewrite get_streams_no_username in Hin by assumption. destruct Hin. }
  destruct (login_trace rt net self (url self) initial)
    as (su & au & res0 & stT & HL).
  cbv zeta in HL.
  pose proof (get_streams_tail rt net self initial Hu) as HT. cbv zeta in HT.
  set (P := fun q : request =>
              is_token q = true ->
              exists stT,
                q = token_request self GIGYA_TOKEN_URL
                      (PTuple [PList consent_id_list]) stT).
  assert (Forall P (trace (snd (_get_streams rt net self initial)))) as HF.
  { destruct HL as [[_ [E|E]]|[_ [E|[E|[E|[E|E]]]]]];
      destruct HT as [[_ [E'|(ch & stM & E')]]|[_ E']];
      rewrite E', E; cbn [trace initial app];
      repeat constructor; unfold P; intros H;
      try (eexists; reflexivity);
      first [ rewrite is_token_session in H
            | rewrite is_token_login in H
            | rewrite is_token_media in H ]; discriminate. }
  rewrite Forall_forall in HF. exact (HF q Hin Hq).
Qed.

Lemma dict_items_token a b c d :
  dict_items [] [(lit "uid", a); (lit "signature", b); (lit "timestamp", c);
                 (lit "consentIds", d)]
  = [(lit "uid", a); (lit "signature", b); (lit "timestamp", c);
     (lit "consentIds", d)].
Proof. reflexivity. Qed.

Lemma encode_params_cons kv d :
  encode_params (kv :: d) = encode_params [kv] ++ encode_params d.
Proof. unfold encode_params. simpl. rewrite app_nil_r. reflexivity. Qed.

Lemma urlencode_doseq_app a b :
  urlencode_doseq (a ++ b) = urlencode_doseq a ++ urlencode_doseq b.
Proof. apply flat_map_app. Qed.

(** The fields that one item of the dict gives carry its key. *)
Lemma entry_keys k v :
  Forall (fun f => fst f = k) (urlencode_doseq (encode_params [(k, v)])).
Proof.
  unfold encode_params. simpl. rewrite app_nil_r.
  generalize (List.filter (fun v0 => negb (is_none v0))
                match iterable_items v with
                | Some l => l
                | None => [v]
                end).
  intros vs. induction vs as [|x vs IH]; [constructor|].
  simpl. apply Forall_app. split; [|exact IH].
  destruct (iterable_items x) as [l|]; [|repeat constructor].
  apply Forall_forall. intros f Hf. apply in_map_iff in Hf.
  destruct Hf as (y & <- & _). reflexivity.
Qed.

Lemma fields_of_other k k' fs :
  str_eqb k k' = false -> Forall (fun f => fst f = k) fs -> fields_of k' fs = [].
Proof.
  intros Hk. induction 1 as [|f fs Hf _ IH]; [reflexivity|].
  unfold fields_of in *. simpl. rewrite Hf, Hk. exact IH.
Qed.

(** The form fields of the token request, item by item. *)
Lemma form_fields_token self token_url ids st :
  form_fields (token_request self token_url ids st)
  = urlencode_doseq (encode_params [(lit "uid", user_uid st)])
    ++ urlencode_doseq (encode_params [(lit "signature", user_signature st)])
    ++ urlencode_doseq (encode_params [(lit "timestamp", user_timestamp st)])
    ++ urlencode_doseq (encode_params [(lit "consentIds", ids)]).
Proof.
  unfold form_fields, token_request. cbn [data]. rewrite dict_items_token.
  rewrite (encode_params_cons _ (_ :: _)), urlencode_doseq_app.
  rewrite (encode_params_cons _ (_ :: _)), urlencode_doseq_app.
  rewrite (encode_params_cons _ (_ :: _)), urlencode_doseq_app.
  reflexivity.
Qed.

Lemma token_request_consent_fields self token_url st :
  fields_of (lit "consentIds")
    (form_fields (token_request self token_url
                    (PTuple [PList consent_id_list]) st))
  = List.map (pair (lit "consentIds")) consent_id_list.
Proof.
  rewrite form_fields_token. unfold fields_of.
  rewrite !filter_app.
  fold (fields_of (lit "consentIds")
          (urlencode_doseq (encode_params [(lit "uid", user_uid st)]))).
  fold (fields_of (lit "consentIds")
          (urlencode_doseq (encode_params [(lit "signature", user_signature st)]))).
  fold (fields_of (lit "consentIds")
          (urlencode_doseq (encode_params [(lit "timestamp", user_timestamp st)]))).
  rewrite (fields_of_other (lit "uid") (lit "consentIds") _ eq_refl
             (entry_keys _ _)).
  rewrite (fields_of_other (lit "signature") (lit "consentIds") _ eq_refl
             (entry_keys _ _)).
  rewrite (fields_of_other (lit "timestamp") (lit "consentIds") _ eq_refl
             (entry_keys _ _)).
  reflexivity.
Qed.

(** C8: every token-exchange POST of a resolution carries in its body,
    under [consentIds], the fixed consent identifiers of line 127: one
    form field for each identifier, in the order of the list, each a plain
    string.  The value passed to [data=] is that list inside a tuple of
    length one, the trailing comma of line 127; the body is the one that
    the plain list gives. *)
Theorem consent_ids_in_token_body rt net self q :
  In q (trace (snd (_get_streams rt net self initial))) ->
  is_token q = true ->
  fields_of (lit "consentIds") (form_fields q)
  = List.map (pair (lit "consentIds")) consent_id_list
  /\ exists stT,
       q = token_request self GIGYA_TOKEN_URL (PTuple [PList consent_id_list]) stT
       /\ form_fields q
          = form_fields (token_request self GIGYA_TOKEN_URL
                           (PList consent_id_list) stT).
Proof.
  intros Hin Hq.
  destruct (token_requests_of_run rt net self q Hin Hq) as (stT & ->).
  split; [apply token_request_consent_fields|].
  exists stT. split; [reflexivity|].
  rewrite !form_fields_token. reflexivity.
Qed.

Lemma consent_ids_in_token_body_witness :
  let self := tf1_self (Some (lit "user")) (Some (lit "secret")) with_endpoints in
  let q := token_request self GIGYA_TOKEN_URL (PTuple [PList consent_id_list])
             (asserted (PStr (lit "c2ln")) (PStr (lit "u-1")) 1700000000
                (issued (session_request (lit "https://www.tf1.fr/session")
                           tf1_direct) initial)) in
  In q (trace (snd (_get_streams ascii_runtime (net_authenticated hls_delivery)
                      self initial)))
  /\ List.map snd (fields_of (lit "consentIds") (form_fields q))
     = consent_id_list.
Proof.
  intros self q.
  assert (In q (trace (snd (_get_streams ascii_runtime
                              (net_authenticated hls_delivery) self initial))))
    as Hin by (right; left; reflexivity).
  split; [exact Hin|].
  rewrite (proj1 (consent_ids_in_token_body ascii_runtime
                    (net_authenticated hls_delivery) self q Hin eq_refl)).
  reflexivity.
Defined.

(** ** A [validate] module without [integer] *)

Lemma token_schema_expr_undefined rt :
  validate_defines rt "integer" = false ->
  exists e, token_schema_expr rt = Raise e.
Proof.
  intros Hi. destruct (token_schema_expr rt) as [sc|e] eqn:E; [|eauto].
  apply token_schema_expr_ok in E. destruct E as (_ & _ & E). congruence.
Qed.

(** Where the schema expression raises, [auth_check] issues nothing and
    does not return [True]. *)
Lemma auth_check_no_schema rt net self res st e :
  token_schema_expr rt = Raise e ->
  fst (auth_check rt net self res st) <> Ok true
  /\ trace (snd (auth_check rt net self res st)) = trace st.
Proof.
  intros He. destruct (Z.eq_dec (status_code res) 200) as [Hs|Hs].
  2:{ rewrite auth_check_other_status by assumption.
      split; [discriminate|reflexivity]. }
  destruct (has_assertion_fields res) eqn:Hf.
  2:{ destruct (auth_check_unparseable rt net self res st Hs Hf)
        as (e' & st'' & -> & Ht & _). split; [discriminate|exact Ht]. }
  apply has_assertion_fields_true in Hf.
  destruct Hf as (j & sig & uid & ts & Hj & Hsig & Huid & Hts).
  destruct (py_int rt ts) as [z|e'] eqn:Hz.
  2:{ destruct (auth_check_raise_states rt net self res st j Hs Hj)
        as (_ & _ & F).
      rewrite (F sig uid ts e' Hsig Huid (or_intror (conj Hts Hz))).
      split; [discriminate|reflexivity]. }
  rewrite (auth_check_asserted rt net self res st j sig uid ts z) by assumption.
  destruct (token_exchange_effects rt net self (asserted sig uid z st))
    as (_ & _ & [(e' & _ & ->)|[Hok _]]).
  - split; [discriminate|reflexivity].
  - congruence.
Qed.

(** Where the schema expression raises, [login] does not return [True]
    and issues the session request and the credential login at most. *)
Lemma login_no_schema rt net self ptrt st e :
  token_schema_expr rt = Raise e ->
  fst (login rt net self ptrt st) <> Ok true
  /\ (trace (snd (login rt net self ptrt st)) = trace st
      \/ (exists su,
            trace (snd (login rt net self ptrt st))
            = trace st ++ [session_request su ptrt])
      \/ (exists su au res0,
            trace (snd (login rt net self ptrt st))
            = trace st ++ [session_request su ptrt;
                           login_request rt self au res0 GIGYA_API_KEY])).
Proof.
  intros He.
  destruct (attr_get "session_url" (inherited self)) as [su|] eqn:Hsu.
  2:{ rewrite login_no_session_url by assumption. split; [discriminate|].
      left. reflexivity. }
  rewrite (login_run rt net self ptrt st su Hsu). cbv zeta.
  set (S := session_request su ptrt).
  destruct (net (trace st) S) as [res0|e0].
  2:{ split; [discriminate|]. right. left. exists su. reflexivity. }
  destruct (auth_check_no_schema rt net self res0 (issued S st) e He) as [N0 T0].
  destruct (auth_check rt net self res0 (issued S st)) as [[[|]|e1] st1];
    cbn [fst snd] in N0, T0; [congruence| |].
  2:{ split; [discriminate|]. right. left. exists su. exact T0. }
  destruct (attr_get "auth_url" (inherited self)) as [au|].
  2:{ split; [discriminate|]. right. left. exists su. exact T0. }
  cbv zeta. set (Lq := login_request rt self au res0 GIGYA_API_KEY).
  assert (trace (issued Lq st1) = trace st ++ [S; Lq]) as T1.
  { cbn [issued trace]. rewrite T0. cbn [issued trace].
    rewrite <- app_assoc. reflexivity. }
  destruct (net (trace st1) Lq) as [res1|e1].
  2:{ split; [discriminate|]. right. right. exists su, au, res0. exact T1. }
  destruct (auth_check_no_schema rt net self res1 (issued Lq st1) e He)
    as [N1 T2].
  split; [exact N1|]. right. right. exists su, au, res0.
  rewrite T2. exact T1.
Qed.

(** X20: with a [validate] module that has no [integer], a resolution
    with a username never gives a stream: it returns no streams or raises,
    and all it issues is the session request and, after it, the credential
    login; the token exchange and the media-info call are never made. *)
Theorem no_streams_without_integer rt net self :
  validate_defines rt "integer" = false ->
  truthy (username self) = true ->
  let run := _get_streams rt net self initial in
  (forall data, fst run <> Ok (ParseVariantPlaylist data))
  /\ (trace (snd run) = []
      \/ (exists su, trace (snd run) = [session_request su (url self)])
      \/ (exists su au res0,
            trace (snd run)
            = [session_request su (url self);
               login_request rt self au res0 GIGYA_API_KEY])).
Proof.
  intros Hi Hu run. subst run.
  destruct (token_schema_expr_undefined rt Hi) as (e & He).
  destruct (login_no_schema rt net self (url self) initial e He) as (N & Ht).
  rewrite _get_streams_run by assumption.
  destruct (login rt net self (url self) initial) as [[[|]|e1] st1];
    cbn [fst snd] in N, Ht |- *; [congruence| |];
    (split; [discriminate|exact Ht]).
Qed.

Lemma no_streams_without_integer_witness :
  let self := tf1_self (Some (lit "user")) (Some (lit "secret")) with_endpoints in
  let manifest := PStr (lit "https://example.test/manifest.m3u8") in
  fst (_get_streams installed_runtime (net_credentials hls_delivery) self
         initial)
  <> Ok (ParseVariantPlaylist manifest)
  /\ fst (_get_streams ascii_runtime (net_credentials hls_delivery) self
            initial)
     = Ok (ParseVariantPlaylist manifest).
Proof.
  intros self manifest. split; [|reflexivity].
  exact (proj1 (no_streams_without_integer installed_runtime
                  (net_credentials hls_delivery) self eq_refl eq_refl)
           manifest).
Defined.
